(** * slicer-profiles-db: versioned profile store, version ordering,
      resource store and printer-condition evaluator

    A shallow embedding of the Python sources

      - [models.py]      ([_version_key], [StoredProfile] and its queries),
      - [versions.py]    ([normalize_version], [sort_versions]),
      - [store.py]       ([ProfileStore]),
      - [resources.py]   ([ResourceStore]),
      - [conditions.py]  (the printer-condition evaluator),
      - [pipeline.py]    (the choice of versions and the storing steps),
      - [mapping.py]     ([_stable_version]),

    together with the properties the specification states about them
    and further properties of the same code.

    Conventions of the embedding.

      - A Python [str] is a Rocq [string]; a character is an 8-bit code,
        read as a code point below 256.  The character classes used by the
        sources ([str.strip], [str.split], [str.lower], [\w], [int]) are
        written out for that range.
      - A Python [dict] is an association list in insertion order
        ([dict]); its keys are pairwise distinct ([wf_dict]).
      - A setting value ([Any] in the sources) is a [value]: [None], a
        boolean, an integer, a string, a list or a string-keyed mapping.
        Floating-point numbers are not represented.
      - An exception is an explicit [Raise] outcome of type [result].
      - The file system is the finite map of the files in it; a profile
        file holds the profile written to it.
      - The interpreter's own [float], [str] of a container and
        [re.match] are parameters of the condition evaluator, and
        [sha256] is a parameter of the resource store. *)

From Stdlib Require Import ZArith List String Ascii Bool Lia Permutation Sorted.
From Stdlib Require Import DecimalString.
From Stdlib Require OrderedTypeEx.
From stdpp Require Import base option list gmap strings.

Import ListNotations.
Local Open Scope string_scope.
Local Open Scope list_scope.

(* ===================================================================== *)
(** ** Python strings *)
(* ===================================================================== *)

Module PyStr.

Definition code (c : ascii) : nat := nat_of_ascii c.

Definition in_range (lo hi : nat) (c : ascii) : bool :=
  (lo <=? code c)%nat && (code c <=? hi)%nat.

(** [str.isspace] on code points below 256: TAB..CR, FS..US, SPACE,
    NEL and NBSP.  [str.strip()], [str.split()] and [int()] use it. *)
Definition is_space (c : ascii) : bool :=
  in_range 9 13 c || in_range 28 32 c || (code c =? 133)%nat || (code c =? 160)%nat.

Definition is_digit (c : ascii) : bool := in_range 48 57 c.

Definition is_upper_ascii (c : ascii) : bool := in_range 65 90 c.
Definition is_lower_ascii (c : ascii) : bool := in_range 97 122 c.

(** [\w] of a [str] pattern: alphanumeric code points and [_]. *)
Definition is_word (c : ascii) : bool :=
  is_digit c || is_upper_ascii c || is_lower_ascii c || (code c =? 95)%nat
  || (code c =? 170)%nat || (code c =? 178)%nat || (code c =? 179)%nat
  || (code c =? 181)%nat || (code c =? 185)%nat || (code c =? 186)%nat
  || in_range 188 190 c || in_range 192 214 c || in_range 216 246 c
  || in_range 248 255 c.

(** [str.lower] on one character. *)
Definition lower_char (c : ascii) : ascii :=
  if is_upper_ascii c || in_range 192 214 c || in_range 216 222 c
  then ascii_of_nat (code c + 32) else c.

Fixpoint lower (s : string) : string :=
  match s with
  | EmptyString => EmptyString
  | String c s' => String (lower_char c) (lower s')
  end.

Fixpoint lstrip (p : ascii -> bool) (s : string) : string :=
  match s with
  | EmptyString => EmptyString
  | String c s' => if p c then lstrip p s' else s
  end.

Fixpoint rstrip (p : ascii -> bool) (s : string) : string :=
  match s with
  | EmptyString => EmptyString
  | String c s' =>
      match rstrip p s' with
      | EmptyString => if p c then EmptyString else String c EmptyString
      | r => String c r
      end
  end.

(** [s.strip(chars)], the characters given as a predicate. *)
Definition strip_chars (p : ascii -> bool) (s : string) : string :=
  rstrip p (lstrip p s).

(** [s.strip()]. *)
Definition strip (s : string) : string := strip_chars is_space s.

(** [s.startswith(prefix)]. *)
Fixpoint startswith (pre s : string) : bool :=
  match pre, s with
  | EmptyString, _ => true
  | String a pre', String b s' => Ascii.eqb a b && startswith pre' s'
  | String _ _, EmptyString => false
  end.

(** [s[n:]]. *)
Fixpoint drop (n : nat) (s : string) : string :=
  match n, s with
  | O, _ => s
  | S n', String _ s' => drop n' s'
  | S _, EmptyString => EmptyString
  end.

(** [s[:n]]. *)
Fixpoint take (n : nat) (s : string) : string :=
  match n, s with
  | O, _ => EmptyString
  | S n', String c s' => String c (take n' s')
  | S _, EmptyString => EmptyString
  end.

(** [sub in s]. *)
Fixpoint contains (sub s : string) : bool :=
  startswith sub s ||
  match s with
  | EmptyString => false
  | String _ s' => contains sub s'
  end.

(** [s.count(c)] for a one-character [c]. *)
Fixpoint count_char (c : ascii) (s : string) : nat :=
  match s with
  | EmptyString => 0
  | String a s' => (if Ascii.eqb a c then 1 else 0) + count_char c s'
  end.

Definition cons_to_head (c : ascii) (parts : list string) : list string :=
  match parts with
  | [] => [String c EmptyString]
  | h :: t => String c h :: t
  end.

(** [re.split("[...]", s)] for a one-character class: every separator
    ends a field, empty fields are kept. *)
Fixpoint split_class (p : ascii -> bool) (s : string) : list string :=
  match s with
  | EmptyString => [EmptyString]
  | String c s' =>
      if p c then EmptyString :: split_class p s'
      else cons_to_head c (split_class p s')
  end.

(** [s.split()]: maximal runs of non-whitespace. *)
Fixpoint split_ws_aux (cur : string) (s : string) : list string :=
  match s with
  | EmptyString => match cur with EmptyString => [] | _ => [cur] end
  | String c s' =>
      if is_space c
      then match cur with
           | EmptyString => split_ws_aux EmptyString s'
           | _ => cur :: split_ws_aux EmptyString s'
           end
      else split_ws_aux (cur ++ String c EmptyString) s'
  end.

Definition split_ws (s : string) : list string := split_ws_aux EmptyString s.

(** [sep.join(parts)]. *)
Fixpoint join (sep : string) (parts : list string) : string :=
  match parts with
  | [] => EmptyString
  | [p] => p
  | p :: rest => p ++ sep ++ join sep rest
  end.

(** Decimal value of a digit string (no sign, digits only). *)
Fixpoint digits_value (acc : Z) (s : string) : option Z :=
  match s with
  | EmptyString => Some acc
  | String c s' =>
      if is_digit c
      then digits_value (10 * acc + Z.of_nat (code c - 48))%Z s'
      else None
  end.

Definition is_underscore (c : ascii) : bool := (code c =? 95)%nat.

(** The digit groups of an integer literal: non-empty groups of digits
    separated by single underscores. *)
Definition int_body (s : string) : option Z :=
  let groups := split_class is_underscore s in
  if forallb (fun g => negb (String.eqb g EmptyString)) groups
  then digits_value 0 (String.concat EmptyString groups)
  else None.

(** [int(s)] in base 10; [None] stands for [ValueError].  Surrounding
    whitespace and one sign are accepted.  The interpreter's
    configurable limit on the number of digits is not modelled. *)
Definition py_int (s : string) : option Z :=
  match strip s with
  | String "+" body => int_body body
  | String "-" body => option_map Z.opp (int_body body)
  | body => int_body body
  end.

End PyStr.

(* ===================================================================== *)
(** ** Outcomes and values *)
(* ===================================================================== *)

(** The exceptions the modelled code can let escape. *)
Inductive exn : Type :=
| ValueError (msg : string)
| TypeError
| IndexError
| KeyError
| OverflowError
| ReError.

(** The outcome of a call: a value, an exception, or a model whose
    recursion bound was too small. *)
Inductive result (A : Type) : Type :=
| Ok (a : A)
| Raise (e : exn)
| OutOfFuel.
Arguments Ok {A} a.
Arguments Raise {A} e.
Arguments OutOfFuel {A}.

#[global] Instance result_ret : MRet result := fun A a => Ok a.

#[global] Instance result_bind : MBind result := fun A B k r =>
  match r with
  | Ok a => k a
  | Raise e => Raise e
  | OutOfFuel => OutOfFuel
  end.

(** Exactly one of three propositions holds. *)
Definition exactly_one (P Q R : Prop) : Prop :=
  (P /\ ~ Q /\ ~ R) \/ (~ P /\ Q /\ ~ R) \/ (~ P /\ ~ Q /\ R).

(** Insertion-ordered dictionaries with string keys. *)
Section Dict.
Context {A : Type}.

Definition dict_keys (d : list (string * A)) : list string := map fst d.
Definition dict_values (d : list (string * A)) : list A := map snd d.

(** [d.get(k)]. *)
Fixpoint dict_get (k : string) (d : list (string * A)) : option A :=
  match d with
  | [] => None
  | (k', v) :: d' => if String.eqb k k' then Some v else dict_get k d'
  end.

(** [k in d]. *)
Definition dict_mem (k : string) (d : list (string * A)) : bool :=
  match dict_get k d with Some _ => true | None => false end.

(** [d[k] = v]: an existing key keeps its position. *)
Fixpoint dict_set (k : string) (v : A) (d : list (string * A))
  : list (string * A) :=
  match d with
  | [] => [(k, v)]
  | (k', v') :: d' =>
      if String.eqb k k' then (k', v) :: d' else (k', v') :: dict_set k v d'
  end.

(** [d.update(other)]. *)
Definition dict_update (d other : list (string * A)) : list (string * A) :=
  fold_left (fun acc kv => dict_set (fst kv) (snd kv) acc) other d.

(** [dict(other)]: a fresh dictionary filled in [other]'s order. *)
Definition dict_copy (other : list (string * A)) : list (string * A) :=
  dict_update [] other.

(** [del d[k]]. *)
Fixpoint dict_del (k : string) (d : list (string * A)) : list (string * A) :=
  match d with
  | [] => []
  | (k', v) :: d' =>
      if String.eqb k k' then dict_del k d' else (k', v) :: dict_del k d'
  end.

(** Keys of a Python dictionary are pairwise distinct. *)
Definition wf_dict (d : list (string * A)) : Prop := NoDup (dict_keys d).
End Dict.

Abbreviation dict A := (list (string * A)).

(** Setting values. *)
#[warnings="-register-all"]
Inductive value : Type :=
| VNone
| VBool (b : bool)
| VInt (z : Z)
| VStr (s : string)
| VList (l : list value)
| VDict (d : list (string * value)).

(** Python's [==] on values.  A boolean equals the integer 0 or 1 it
    stands for; lists compare element by element in order; dictionaries
    compare as maps. *)
Fixpoint pyeq (a b : value) {struct a} : bool :=
  match a, b with
  | VNone, VNone => true
  | VBool x, VBool y => Bool.eqb x y
  | VBool x, VInt z => Z.eqb (Z.b2z x) z
  | VInt z, VBool y => Z.eqb z (Z.b2z y)
  | VInt x, VInt y => Z.eqb x y
  | VStr x, VStr y => String.eqb x y
  | VList xs, VList ys =>
      (fix go (xs ys : list value) {struct xs} : bool :=
         match xs, ys with
         | [], [] => true
         | x :: xs', y :: ys' => pyeq x y && go xs' ys'
         | _, _ => false
         end) xs ys
  | VDict d1, VDict d2 =>
      Nat.eqb (length d1) (length d2) &&
      (fix go (d : list (string * value)) : bool :=
         match d with
         | [] => true
         | (k, v) :: d' =>
             match dict_get k d2 with
             | Some v' => pyeq v v'
             | None => false
             end && go d'
         end) d1
  | _, _ => false
  end.

(** Python truthiness ([if not x]). *)
Definition truthy (v : value) : bool :=
  match v with
  | VNone => false
  | VBool b => b
  | VInt z => negb (Z.eqb z 0)
  | VStr s => negb (String.eqb s EmptyString)
  | VList l => match l with [] => false | _ => true end
  | VDict d => match d with [] => false | _ => true end
  end.

(* ===================================================================== *)
(** ** models.py and versions.py: the version ordering *)
(* ===================================================================== *)

Module Versions.
Import PyStr.

(** The separator class [[.\-_]]. *)
Definition is_version_sep (c : ascii) : bool :=
  (code c =? 46)%nat || (code c =? 45)%nat || (code c =? 95)%nat.

(** [_version_key]: split on the separators, each part to [int],
    [ValueError] to 0. *)
Definition _version_key (v : string) : list Z :=
  map (fun part => match py_int part with Some n => n | None => 0%Z end)
      (split_class is_version_sep v).

Definition version_key := _version_key.

(** Python's [<] on tuples of integers: the first differing position
    decides, otherwise the shorter tuple is smaller. *)
Fixpoint tuple_ltb (a b : list Z) : bool :=
  match a, b with
  | [], [] => false
  | [], _ :: _ => true
  | _ :: _, [] => false
  | x :: a', y :: b' => if Z.eqb x y then tuple_ltb a' b' else Z.ltb x y
  end.

(** Python's [<=] on tuples of integers. *)
Fixpoint tuple_leb (a b : list Z) : bool :=
  match a, b with
  | [], _ => true
  | _ :: _, [] => false
  | x :: a', y :: b' => if Z.eqb x y then tuple_leb a' b' else Z.leb x y
  end.

(** [normalize_version]. *)
Definition normalize_version (raw : string) : string :=
  let s := strip raw in
  if startswith "version_" (lower s) then drop 8 s
  else if startswith "v" (lower s) then drop 1 s
  else s.

(** [sorted(xs, key=key)]: the stable sort by [key] under [<].  An
    element is inserted behind every element whose key is not greater,
    which yields the one stable sorted arrangement. *)
Section Sorted.
Context {A : Type} (key : A -> list Z).

Fixpoint insert_by_key (x : A) (l : list A) : list A :=
  match l with
  | [] => [x]
  | y :: l' =>
      if tuple_ltb (key x) (key y) then x :: y :: l'
      else y :: insert_by_key x l'
  end.

Definition sorted_by_key (l : list A) : list A :=
  fold_left (fun acc x => insert_by_key x acc) l [].

(** [x] may stand before [y]: the key of [y] is not smaller. *)
Definition key_le (x y : A) : Prop := tuple_ltb (key y) (key x) = false.

(** The elements carrying one given key, in their order of appearance. *)
Definition with_key (k : list Z) (l : list A) : list A :=
  List.filter (fun y => bool_decide (key y = k)) l.
End Sorted.

(** [sort_versions]. *)
Definition sort_versions (versions : list string) : list string :=
  sorted_by_key version_key versions.

End Versions.

(* ===================================================================== *)
(** ** models.py: profiles *)
(* ===================================================================== *)

Module Models.
Import Versions.

Inductive SlicerType : Type :=
| BAMBUSTUDIO | ORCASLICER | PRUSASLICER | CURA | ELEGOOSLICER | SUPERSLICER.

Definition slicer_value (s : SlicerType) : string :=
  match s with
  | BAMBUSTUDIO => "bambustudio"
  | ORCASLICER => "orcaslicer"
  | PRUSASLICER => "prusaslicer"
  | CURA => "cura"
  | ELEGOOSLICER => "elegooslicer"
  | SUPERSLICER => "superslicer"
  end.

Inductive ProfileType : Type :=
| FILAMENT | MACHINE | MACHINE_MODEL | PRINT.

Definition profile_type_value (t : ProfileType) : string :=
  match t with
  | FILAMENT => "filament"
  | MACHINE => "machine"
  | MACHINE_MODEL => "machine_model"
  | PRINT => "print"
  end.

Record ParsedProfile : Type := mkParsed {
  p_slicer : SlicerType;
  p_profile_type : ProfileType;
  p_name : string;
  p_vendor : string;
  p_settings : dict value;
  p_filament_id : option string;
  p_setting_id : option string;
  p_filament_type : option string;
  p_filament_settings_id : option string
}.

Record StoredProfile : Type := mkStored {
  slicer : string;
  profile_type : string;
  name : string;
  vendor : string;
  first_seen : string;
  last_seen : string;
  filament_id : option string;
  setting_id : option string;
  renamed_from : option string;
  settings : dict (dict value)
}.

(** [StoredProfile.get_latest]. *)
Definition get_latest (self : StoredProfile) (key : string) : value :=
  match dict_get key (settings self) with
  | None => VNone
  | Some [] => VNone
  | Some versions => List.last (dict_values versions) VNone
  end.

(** The loop of [get_at_version]: the last entry, in iteration order,
    whose version key is at most the target. *)
Definition scan_versions (target : list Z) (versions : dict value) : value :=
  fold_left
    (fun result vv =>
       if tuple_leb (_version_key (fst vv)) target then snd vv else result)
    versions VNone.

(** [StoredProfile.get_at_version]. *)
Definition get_at_version (self : StoredProfile) (key version : string)
  : value :=
  match dict_get key (settings self) with
  | None => VNone
  | Some [] => VNone
  | Some versions => scan_versions (_version_key version) versions
  end.

(** [StoredProfile.changed_settings]. *)
Definition changed_settings (self : StoredProfile)
    (from_version to_version : string) : dict (value * value) :=
  fold_left
    (fun changes key =>
       let old_val := get_at_version self key from_version in
       let new_val := get_at_version self key to_version in
       if negb (pyeq old_val new_val)
       then dict_set key (old_val, new_val) changes
       else changes)
    (dict_keys (settings self)) [].

(** The inner loop of [evaluate]: the pair ([value], [found]). *)
Definition scan_found (target : list Z) (versions : dict value)
  : value * bool :=
  fold_left
    (fun st vv =>
       if tuple_leb (_version_key (fst vv)) target then (snd vv, true)
       else st)
    versions (VNone, false).

(** [StoredProfile.evaluate]. *)
Definition evaluate (self : StoredProfile) (version : string) : dict value :=
  let target := _version_key version in
  fold_left
    (fun snapshot kv =>
       let '(value, found) := scan_found target (snd kv) in
       if found then dict_set (fst kv) value snapshot else snapshot)
    (settings self) [].

Record IngestionReport : Type := mkReport {
  r_slicer : SlicerType;
  r_version : string;
  r_profiles_processed : nat;
  r_added : list string;
  r_removed : list string;
  r_changed : dict (list string);
  r_unchanged : Z
}.

End Models.

(* ===================================================================== *)
(** ** store.py: the versioned profile store *)
(* ===================================================================== *)

Module Json.
Import PyStr.

Definition hex_digit (n : nat) : ascii :=
  if (n <? 10)%nat then ascii_of_nat (48 + n) else ascii_of_nat (87 + n).

(** One character inside a JSON string ([ensure_ascii=False]): the
    quote, the backslash and the control characters are escaped. *)
Definition escape_char (c : ascii) : string :=
  let n := code c in
  if (n =? 34)%nat then String "\" (String (ascii_of_nat 34) EmptyString)
  else if (n =? 92)%nat then "\\"
  else if (n =? 10)%nat then "\n"
  else if (n =? 13)%nat then "\r"
  else if (n =? 9)%nat then "\t"
  else if (n =? 8)%nat then "\b"
  else if (n =? 12)%nat then "\f"
  else if (n <? 32)%nat
       then "\u00" ++ String (hex_digit (n / 16)) (String (hex_digit (n mod 16)) EmptyString)
       else String c EmptyString.

Fixpoint escape (s : string) : string :=
  match s with
  | EmptyString => EmptyString
  | String c s' => escape_char c ++ escape s'
  end.

Definition quote (s : string) : string :=
  String (ascii_of_nat 34) (escape s ++ String (ascii_of_nat 34) EmptyString).

(** Items of a mapping in ascending key order ([sort_keys=True]). *)
Fixpoint insert_item (kv : string * string) (l : list (string * string))
  : list (string * string) :=
  match l with
  | [] => [kv]
  | kv' :: l' =>
      if String.ltb (fst kv) (fst kv') then kv :: kv' :: l'
      else kv' :: insert_item kv l'
  end.

Definition sort_items (l : list (string * string)) : list (string * string) :=
  fold_left (fun acc kv => insert_item kv acc) l [].

Definition string_of_Z (z : Z) : string := NilZero.string_of_int (Z.to_int z).

(** [json.dumps(v, sort_keys=True, ensure_ascii=False)]. *)
Fixpoint dumps (v : value) : string :=
  match v with
  | VNone => "null"
  | VBool true => "true"
  | VBool false => "false"
  | VInt z => string_of_Z z
  | VStr s => quote s
  | VList l =>
      "[" ++ join ", "
               ((fix go (l : list value) : list string :=
                   match l with
                   | [] => []
                   | x :: l' => dumps x :: go l'
                   end) l) ++ "]"
  | VDict d =>
      "{" ++ join ", "
               (map (fun kv => (quote (fst kv) ++ ": " ++ snd kv)%string)
                  (sort_items
                     ((fix go (d : list (string * value))
                         : list (string * string) :=
                         match d with
                         | [] => []
                         | (k, x) :: d' => (k, dumps x) :: go d'
                         end) d))) ++ "}"
  end.
End Json.

Module Store.
Import PyStr Versions Models.

(** A profile file [{root}/{slicer}/{vendor}/{type}/{safe_name}.json],
    named by its four path components.  Vendor and type are taken to
    be single directory names. *)
Abbreviation FilePath := (string * string * string * string)%type.

(** The store directory: the profile files with the profile each one
    holds, and the [_meta.json] of every slicer (its [versions] list
    and [last_ingested]).  Writing a profile as JSON and reading it
    back is the identity. *)
Record ProfileStore : Type := mkStore {
  files : gmap (string * string * string * string) StoredProfile;
  meta : gmap string (list string * string)
}.

Definition empty_store : ProfileStore := mkStore ∅ ∅.

Definition is_unsafe (c : ascii) : bool :=
  existsb (Nat.eqb (code c)) [60; 62; 58; 34; 47; 92; 124; 63; 42].

Fixpoint replace_unsafe (s : string) : string :=
  match s with
  | EmptyString => EmptyString
  | String c s' =>
      String (if is_unsafe c then "_"%char else c) (replace_unsafe s')
  end.

Fixpoint collapse_underscores (s : string) : string :=
  match s with
  | EmptyString => EmptyString
  | String c s' =>
      if is_underscore c
         && match s' with
            | String c' _ => is_underscore c'
            | EmptyString => false
            end
      then collapse_underscores s'
      else String c (collapse_underscores s')
  end.

Definition is_strip_char (c : ascii) : bool :=
  (code c =? 95)%nat || (code c =? 46)%nat || (code c =? 32)%nat.

(** [_sanitize]. *)
Definition _sanitize (name : string) : string :=
  strip_chars is_strip_char (collapse_underscores (replace_unsafe name)).

(** [_profile_key]. *)
Definition _profile_key (slicer : SlicerType) (pt vendor name : string)
  : string :=
  slicer_value slicer ++ "/" ++ vendor ++ "/" ++ pt ++ "/" ++ name.

(** [_profile_path]. *)
Definition _profile_path (slicer_val profile_type vendor name : string)
  : string * string * string * string :=
  (slicer_val, vendor, profile_type, _sanitize name).

(** [_load]. *)
Definition _load (self : ProfileStore)
    (slicer_val profile_type vendor name : string) : option StoredProfile :=
  files self !! _profile_path slicer_val profile_type vendor name.

(** [get]. *)
Definition get (self : ProfileStore) (slicer : SlicerType)
    (profile_type vendor name : string) : option StoredProfile :=
  _load self (slicer_value slicer) profile_type vendor name.

Definition stored_path (stored : StoredProfile)
  : string * string * string * string :=
  _profile_path (Models.slicer stored) (Models.profile_type stored)
    (Models.vendor stored) (Models.name stored).

(** [_save]: the path is computed from the profile's own fields. *)
Definition _save (self : ProfileStore) (stored : StoredProfile)
  : ProfileStore :=
  mkStore (<[stored_path stored := stored]> (files self)) (meta self).

(** [_delete]. *)
Definition _delete (self : ProfileStore)
    (slicer_val profile_type vendor name : string) : ProfileStore :=
  mkStore (delete (_profile_path slicer_val profile_type vendor name)
             (files self))
          (meta self).

(** The stem of the file [{safe_name}.json]. *)
Definition file_stem (safe_name : string) : string :=
  if String.eqb safe_name EmptyString then ".json" else safe_name.

(** [_list_profile_keys]: keys rebuilt from the file paths; vendor
    directories whose name starts with [_] are skipped.  The result is
    a set in the source; its order here carries no meaning. *)
Definition _list_profile_keys (self : ProfileStore) (slicer : SlicerType)
  : list string :=
  omap
    (fun entry : (string * string * string * string) * StoredProfile =>
       let '(s, v, t, n) := fst entry in
       if String.eqb s (slicer_value slicer) && negb (startswith "_" v)
       then Some (slicer_value slicer ++ "/" ++ v ++ "/" ++ t ++ "/"
                    ++ file_stem n)%string
       else None)
    (map_to_list (files self)).

(** [_update_meta]. *)
Definition _update_meta (self : ProfileStore) (slicer : SlicerType)
    (version : string) : ProfileStore :=
  let versions :=
    match meta self !! slicer_value slicer with
    | Some m => fst m
    | None => []
    end in
  let versions' :=
    if existsb (String.eqb version) versions then versions
    else versions ++ [version] in
  mkStore (files self)
          (<[slicer_value slicer := (versions', version)]> (meta self)).

(** [get_versions]. *)
Definition get_versions (self : ProfileStore) (slicer : SlicerType)
  : list string :=
  match meta self !! slicer_value slicer with
  | Some m => fst m
  | None => []
  end.

(** [_META_KEYS]. *)
Definition _META_KEYS : list string := ["renamed_from"].

Definition is_meta_key (k : string) : bool :=
  existsb (String.eqb k) _META_KEYS.

(** [_normalize]. *)
Definition _normalize (v : value) : string :=
  match v with
  | VNone => EmptyString
  | _ => Json.dumps v
  end.

(** [_create_stored]. *)
Definition _create_stored (parsed : ParsedProfile) (version : string)
  : StoredProfile :=
  let settings :=
    fold_left
      (fun (acc : dict (dict value)) kv =>
         if is_meta_key (fst kv) then acc
         else dict_set (fst kv) [(version, snd kv)] acc)
      (p_settings parsed) [] in
  mkStored (slicer_value (p_slicer parsed))
           (profile_type_value (p_profile_type parsed))
           (p_name parsed) (p_vendor parsed)
           version version
           (p_filament_id parsed) (p_setting_id parsed)
           None settings.

Fixpoint first_str (vs : list value) : option string :=
  match vs with
  | [] => None
  | VStr s :: _ => Some s
  | _ :: vs' => first_str vs'
  end.

(** [_extract_renamed_from]. *)
Definition _extract_renamed_from (settings : dict value) : option string :=
  match dict_get "renamed_from" settings with
  | None => None
  | Some rf =>
      if negb (truthy rf) then None
      else match rf with
           | VStr s => Some s
           | VDict d => first_str (dict_values d)
           | _ => None
           end
  end.

Definition with_settings (sp : StoredProfile) (s : dict (dict value))
  : StoredProfile :=
  mkStored (slicer sp) (profile_type sp) (name sp) (vendor sp)
           (first_seen sp) (last_seen sp) (filament_id sp) (setting_id sp)
           (renamed_from sp) s.

(** [_merge_rename]. *)
Definition _merge_rename (new_profile old_profile : StoredProfile)
  : StoredProfile :=
  let merged_settings :=
    fold_left
      (fun (acc : dict (dict value)) kv =>
         match dict_get (fst kv) acc with
         | Some new_versions =>
             dict_set (fst kv)
               (dict_update (dict_copy (snd kv)) new_versions) acc
         | None => dict_set (fst kv) (dict_copy (snd kv)) acc
         end)
      (settings old_profile) (settings new_profile) in
  mkStored (slicer new_profile) (profile_type new_profile)
           (name new_profile) (vendor new_profile)
           (first_seen old_profile) (last_seen new_profile)
           (filament_id new_profile) (setting_id new_profile)
           (Some (name old_profile)) merged_settings.

(** [_merge_version]: the updated profile and the changed keys. *)
Definition _merge_version (stored : StoredProfile) (parsed : ParsedProfile)
    (version : string) : StoredProfile * list string :=
  let stored0 :=
    mkStored (slicer stored) (profile_type stored) (name stored)
             (vendor stored) (first_seen stored) version
             (filament_id stored) (setting_id stored)
             (renamed_from stored) (settings stored) in
  fold_left
    (fun (st : StoredProfile * list string) kv =>
       let '(cur, changed) := st in
       if is_meta_key (fst kv) then st
       else
         let current := get_latest cur (fst kv) in
         if negb (String.eqb (_normalize current) (_normalize (snd kv)))
         then
           let history :=
             match dict_get (fst kv) (settings cur) with
             | Some h => h
             | None => []
             end in
           (with_settings cur
              (dict_set (fst kv) (dict_set version (snd kv) history)
                 (settings cur)),
            changed ++ [fst kv])
         else st)
    (p_settings parsed) (stored0, []).

(** The loop state of [ingest_profiles]. *)
Record IngestState : Type := mkIngest {
  st_store : ProfileStore;
  st_added : list string;
  st_changed : dict (list string);
  st_seen : list string
}.

(** One iteration of the loop over [profiles]. *)
Definition ingest_step (slicer : SlicerType) (version : string)
    (st : IngestState) (p : ParsedProfile) : IngestState :=
  let pt := profile_type_value (p_profile_type p) in
  let key := _profile_key slicer pt (p_vendor p) (p_name p) in
  let seen := key :: st_seen st in
  let self := st_store st in
  match _load self (slicer_value slicer) pt (p_vendor p) (p_name p) with
  | None =>
      let stored := _create_stored p version in
      let '(stored, self) :=
        match _extract_renamed_from (p_settings p) with
        | Some old_name =>
            if negb (String.eqb old_name EmptyString) then
              match _load self (slicer_value slicer) pt (p_vendor p)
                      old_name with
              | Some old_profile =>
                  (_merge_rename stored old_profile,
                   _delete self (slicer_value slicer) pt (p_vendor p)
                     old_name)
              | None => (stored, self)
              end
            else (stored, self)
        | None => (stored, self)
        end in
      mkIngest (_save self stored) (st_added st ++ [p_name p])
               (st_changed st) seen
  | Some existing =>
      let prev_last_seen := last_seen existing in
      let '(existing', changed_keys) := _merge_version existing p version in
      let changed :=
        match changed_keys with
        | [] => st_changed st
        | _ => dict_set (p_name p) changed_keys (st_changed st)
        end in
      let self' :=
        match changed_keys with
        | [] => if negb (String.eqb prev_last_seen version)
                then _save self existing' else self
        | _ => _save self existing'
        end in
      mkIngest self' (st_added st) changed seen
  end.

(** [ingest_profiles]: the store afterwards and the report. *)
Definition ingest_profiles (self : ProfileStore) (slicer : SlicerType)
    (version : string) (profiles : list ParsedProfile)
  : ProfileStore * IngestionReport :=
  let st := fold_left (ingest_step slicer version) profiles
              (mkIngest self [] [] []) in
  let all_keys := _list_profile_keys (st_store st) slicer in
  let removed :=
    List.filter (fun k => negb (existsb (String.eqb k) (st_seen st)))
      all_keys in
  (_update_meta (st_store st) slicer version,
   mkReport slicer version (length profiles) (st_added st) removed
     (st_changed st)
     (Z.of_nat (length profiles) - Z.of_nat (length (st_added st))
      - Z.of_nat (length (st_changed st)))%Z).

End Store.

(* ===================================================================== *)
(** ** resources.py: the content-addressed resource store *)
(* ===================================================================== *)

Module Resources.
Import PyStr.

(** A manifest entry [{filename, size, type}]. *)
Record ManifestEntry : Type := mkEntry {
  filename : string;
  size : nat;
  type : string
}.

(** The resource directory: the binary files in it by name with their
    bytes, the manifest held in memory, and the manifest last written
    to [_manifest.json]. *)
Record ResourceStore : Type := mkResources {
  res_files : gmap string string;
  _manifest : dict ManifestEntry;
  manifest_on_disk : option (dict ManifestEntry)
}.

(** [Path.suffix] of a file name: from the last dot, when that dot is
    neither the first nor the last character. *)
Fixpoint last_dot_suffix (s : string) : option string :=
  match s with
  | EmptyString => None
  | String c s' =>
      match last_dot_suffix s' with
      | Some suf => Some suf
      | None => if (code c =? 46)%nat then Some s else None
      end
  end.

Definition path_suffix (file_name : string) : string :=
  match file_name with
  | EmptyString => EmptyString
  | String _ rest =>
      match last_dot_suffix rest with
      | Some (String _ EmptyString) => EmptyString
      | Some suf => suf
      | None => EmptyString
      end
  end.

Definition is_dot (c : ascii) : bool := (code c =? 46)%nat.

(** The file a manifest entry points to: [{hash}.{type}]. *)
Definition entry_file (hash_hex : string) (entry : ManifestEntry) : string :=
  (hash_hex ++ "." ++ type entry)%string.

Section WithHash.
(** [hashlib.sha256(content).hexdigest()]. *)
Variable sha256_hex : string -> string.

(** [store]: the file is given by its name and its bytes. *)
Definition store (self : ResourceStore) (file_name content : string)
  : ResourceStore * string :=
  let hash_hex := sha256_hex content in
  let dest := (hash_hex ++ lower (path_suffix file_name))%string in
  let files' :=
    match res_files self !! dest with
    | Some _ => res_files self
    | None => <[dest := content]> (res_files self)
    end in
  (mkResources files'
     (dict_set hash_hex
        (mkEntry file_name (String.length content)
           (lower (lstrip is_dot (path_suffix file_name))))
        (_manifest self))
     (manifest_on_disk self),
   hash_hex).
End WithHash.

(** [RESOURCE_SETTING_KEYS]. *)
Definition RESOURCE_SETTING_KEYS : list string :=
  ["bed_model"; "bed_texture"; "thumbnail"; "hotend_model"].

(** The body of [rewrite_resource_refs] for one profile: a resource key
    holding a non-empty file name found in [resource_map] is set to
    [sha256:{hash}]. *)
Definition rewrite_settings (resource_map : dict string)
    (settings : dict value) : dict value :=
  fold_left
    (fun (acc : dict value) key =>
       match dict_get key acc with
       | Some (VStr value) =>
           if negb (String.eqb value EmptyString) then
             match dict_get value resource_map with
             | Some hash_hex =>
                 dict_set key (VStr ("sha256:" ++ hash_hex)) acc
             | None => acc
             end
           else acc
       | _ => acc
       end)
    RESOURCE_SETTING_KEYS settings.

Definition rewrite_profile (resource_map : dict string)
    (profile : Models.ParsedProfile) : Models.ParsedProfile :=
  Models.mkParsed (Models.p_slicer profile) (Models.p_profile_type profile)
    (Models.p_name profile) (Models.p_vendor profile)
    (rewrite_settings resource_map (Models.p_settings profile))
    (Models.p_filament_id profile) (Models.p_setting_id profile)
    (Models.p_filament_type profile) (Models.p_filament_settings_id profile).

(** [rewrite_resource_refs]. *)
Definition rewrite_resource_refs (profiles : list Models.ParsedProfile)
    (resource_map : dict string) : list Models.ParsedProfile :=
  map (rewrite_profile resource_map) profiles.

(** [save_manifest]. *)
Definition save_manifest (self : ResourceStore) : ResourceStore :=
  mkResources (res_files self) (_manifest self) (Some (_manifest self)).

(** [get_path]. *)
Definition get_path (self : ResourceStore) (hash_hex : string)
  : option string :=
  match dict_get hash_hex (_manifest self) with
  | None => None
  | Some entry =>
      let path := entry_file hash_hex entry in
      match res_files self !! path with
      | Some _ => Some path
      | None => None
      end
  end.

(** [resolve_filename]. *)
Definition resolve_filename (self : ResourceStore) (hash_hex : string)
  : option string :=
  option_map filename (dict_get hash_hex (_manifest self)).

(** One iteration of the loop of [gc] over [list(self._manifest)]. *)
Definition gc_step (referenced_hashes : gset string)
    (st : ResourceStore * list string) (hash_hex : string)
  : ResourceStore * list string :=
  let '(self, removed) := st in
  if bool_decide (hash_hex ∈ referenced_hashes) then st
  else
    let files' :=
      match get_path self hash_hex with
      | Some path => delete path (res_files self)
      | None => res_files self
      end in
    (mkResources files' (dict_del hash_hex (_manifest self))
       (manifest_on_disk self),
     removed ++ [hash_hex]).

(** [gc]: the store afterwards and the removed hashes. *)
Definition gc (self : ResourceStore) (referenced_hashes : gset string)
  : ResourceStore * list string :=
  let '(self', removed) :=
    fold_left (gc_step referenced_hashes) (dict_keys (_manifest self))
      (self, []) in
  match removed with
  | [] => (self', removed)
  | _ => (save_manifest self', removed)
  end.

End Resources.

(* ===================================================================== *)
(** ** conditions.py: the printer-condition evaluator *)
(* ===================================================================== *)

Module Conditions.
Import PyStr.

(** The logical operators collected from a condition. *)
Inductive logic_op : Type := OpAnd | OpOr.

Definition logic_op_eqb (a b : logic_op) : bool :=
  match a, b with
  | OpAnd, OpAnd | OpOr, OpOr => true
  | _, _ => false
  end.

(** [_OPERATORS], in the order they are searched. *)
Definition _OPERATORS : list string :=
  ["=~"; "!~"; "=="; "!="; ">="; "<="; ">"; "<"].

(** [s.endswith(suffix)] for a one-character suffix. *)
Fixpoint ends_with_char (c : ascii) (s : string) : bool :=
  match s with
  | EmptyString => false
  | String a EmptyString => Ascii.eqb a c
  | String _ s' => ends_with_char c s'
  end.

(** [s.split(sep)] for a non-empty [sep]: separators are found left to
    right and do not overlap.  [skip] counts the characters of a found
    separator still to pass. *)
Fixpoint split_str_aux (sep : string) (skip : nat) (s : string)
  : list string :=
  match s with
  | EmptyString => [EmptyString]
  | String c s' =>
      match skip with
      | S k => split_str_aux sep k s'
      | O =>
          if startswith sep s
          then EmptyString :: split_str_aux sep (String.length sep - 1) s'
          else cons_to_head c (split_str_aux sep 0 s')
      end
  end.

Definition split_str (sep s : string) : list string :=
  split_str_aux sep 0 s.

(** The alternatives of the pattern [" and | && | or | \|\|"], in the
    order the regex tries them. *)
Definition logic_separators : list string := [" and "; " && "; " or "; " ||"].

(** [re.split(r" and | && | or | \|\|", s)]. *)
Fixpoint split_logic_aux (skip : nat) (s : string) : list string :=
  match s with
  | EmptyString => [EmptyString]
  | String c s' =>
      match skip with
      | S k => split_logic_aux k s'
      | O =>
          match find (fun sep => startswith sep s) logic_separators with
          | Some sep =>
              EmptyString :: split_logic_aux (String.length sep - 1) s'
          | None => cons_to_head c (split_logic_aux 0 s')
          end
      end
  end.

Definition split_logic (s : string) : list string := split_logic_aux 0 s.

(** The operators of a condition, read off its whitespace-separated
    words. *)
Definition extract_operators (condition : string) : list logic_op :=
  omap
    (fun word =>
       let w := strip word in
       if String.eqb w "and" || String.eqb w "&&" then Some OpAnd
       else if String.eqb w "or" || String.eqb w "||" then Some OpOr
       else None)
    (split_ws condition).

(** [remove_quotes]. *)
Definition remove_quotes (s : string) : string :=
  let s := strip s in
  if startswith (String (ascii_of_nat 34) EmptyString) s
     && ends_with_char (ascii_of_nat 34) s
  then take (String.length s - 2) (drop 1 s)
  else s.

Definition is_slash (c : ascii) : bool := (code c =? 47)%nat.
Definition is_list_sep (c : ascii) : bool :=
  (code c =? 59)%nat || (code c =? 44)%nat.

(** [_find_first_parenthesis_set]: the loop state is the depth, the
    regex flag and the start index. *)
Fixpoint find_paren_loop (whole : string) (idx : nat) (depth : Z)
    (is_in_regex : bool) (start_idx : nat) (rest : string)
  : option (nat * nat) :=
  match rest with
  | EmptyString => None
  | String char rest' =>
      let is_in_regex :=
        if is_slash char then
          if is_in_regex then false
          else
            let test_slice :=
              if (2 <=? idx)%nat then take 2 (drop (idx - 2) whole)
              else EmptyString in
            if String.eqb test_slice "=~" || String.eqb test_slice "!~"
            then true else is_in_regex
        else is_in_regex in
      if is_in_regex
      then find_paren_loop whole (S idx) depth is_in_regex start_idx rest'
      else if (code char =? 40)%nat then
        find_paren_loop whole (S idx) (depth + 1)%Z is_in_regex
          (if Z.eqb depth 0 then idx else start_idx) rest'
      else if (code char =? 41)%nat then
        if Z.eqb (depth - 1) 0 then Some (start_idx, idx)
        else find_paren_loop whole (S idx) (depth - 1)%Z is_in_regex
               start_idx rest'
      else find_paren_loop whole (S idx) depth is_in_regex start_idx rest'
  end.

Definition _find_first_parenthesis_set (s : string) : option (nat * nat) :=
  find_paren_loop s 0 0%Z false 0 s.

(** [var_re.fullmatch(key)]: a non-empty run of word characters, then
    optionally a non-empty run of digits in square brackets.  Yields
    the groups [key] and [index]. *)
Fixpoint span_word (s : string) : string * string :=
  match s with
  | EmptyString => (EmptyString, EmptyString)
  | String c s' =>
      if is_word c
      then let '(w, r) := span_word s' in (String c w, r)
      else (EmptyString, s)
  end.

Definition all_digits (s : string) : bool :=
  negb (String.eqb s EmptyString)
  && forallb is_digit (list_ascii_of_string s).

Definition var_fullmatch (key : string) : option (string * option string) :=
  let '(w, r) := span_word key in
  match w, r with
  | EmptyString, _ => None
  | _, EmptyString => Some (w, None)
  | _, String c r' =>
      if (code c =? 91)%nat && ends_with_char "]"%char r'
      then
        let ds := take (String.length r' - 1) r' in
        if all_digits ds then Some (w, Some ds) else None
      else None
  end.

Section Runtime.
(** The interpreter's own operations the evaluator calls, kept as
    parameters: floating-point numbers with [float(x)] and its
    comparisons, [str(x)] of a list or mapping, and
    [re.match(pattern, s, re.DOTALL) is not None]. *)
Variable F : Type.
Variable py_float : value -> result F.
Variables float_ge float_le float_gt float_lt : F -> F -> bool.
Variable repr_container : value -> string.
Variable re_match : string -> string -> result bool.

(** [str(x)]. *)
Definition py_str (v : value) : string :=
  match v with
  | VNone => "None"
  | VBool true => "True"
  | VBool false => "False"
  | VInt z => Json.string_of_Z z
  | VStr s => s
  | _ => repr_container v
  end.

(** The two [float] conversions of an ordering comparison, under
    [except (ValueError, TypeError)]: [Ok None] when one is caught. *)
Definition float_pair (config_value : value) (check_value : string)
  : result (option (F * F)) :=
  match py_float config_value with
  | Ok lhs =>
      match py_float (VStr (strip check_value)) with
      | Ok rhs => Ok (Some (lhs, rhs))
      | Raise (ValueError _) | Raise TypeError => Ok None
      | Raise e => Raise e
      | OutOfFuel => OutOfFuel
      end
  | Raise (ValueError _) | Raise TypeError => Ok None
  | Raise e => Raise e
  | OutOfFuel => OutOfFuel
  end.

Section Expression.
(** The lookup handed to the evaluator; [Ok VNone] is [None]. *)
Variable get_value : string -> result value.

(** [_evaluate_single_condition]. *)
Definition _evaluate_single_condition (condition : string)
  : result bool :=
  let condition := strip condition in
  if String.eqb (lower condition) "true" then Ok true
  else if String.eqb (lower condition) "false" then Ok false
  else
    match find (fun op => contains op condition) _OPERATORS with
    | None =>
        config_value ← get_value condition;
        Ok (pyeq config_value (VStr "1")
            || pyeq config_value (VStr "true"))
    | Some operator =>
        match split_str operator condition with
        | [config_key; check_value] =>
            config_value ← get_value (strip config_key);
            match config_value with
            | VNone => Ok false
            | _ =>
                if String.eqb operator "=~" then
                  re_match (strip_chars is_slash (strip check_value))
                    (py_str config_value)
                else if String.eqb operator "!~" then
                  m ← re_match (strip_chars is_slash (strip check_value))
                        (py_str config_value);
                  Ok (negb m)
                else if String.eqb operator "==" then
                  Ok (String.eqb (py_str config_value)
                        (remove_quotes check_value))
                else if String.eqb operator "!=" then
                  Ok (negb (String.eqb (py_str config_value)
                              (remove_quotes check_value)))
                else if existsb (String.eqb operator) [">="; "<="; ">"; "<"]
                then
                  fl ← float_pair config_value check_value;
                  match fl with
                  | None => Ok false
                  | Some (lhs, rhs) =>
                      if String.eqb operator ">=" then Ok (float_ge lhs rhs)
                      else if String.eqb operator "<=" then Ok (float_le lhs rhs)
                      else if String.eqb operator ">" then Ok (float_gt lhs rhs)
                      else if String.eqb operator "<" then Ok (float_lt lhs rhs)
                      else Ok false
                  end
                else Ok false
            end
        | _ => Ok false
        end
    end.

(** One term of the loop: strip, a leading [! ], evaluate. *)
Definition eval_term (part : string) : result bool :=
  let part := strip part in
  if startswith "! " part
  then ret ← _evaluate_single_condition (drop 2 part); Ok (negb ret)
  else _evaluate_single_condition part.

(** The loop of [_evaluate_expression] over [enumerate(parts)];
    [prev_ret] is [None] before the first term. *)
Fixpoint eval_terms (all_and all_or : bool) (operators : list logic_op)
    (idx : nat) (prev_ret : option bool) (parts : list string)
  : result value :=
  match parts with
  | [] =>
      Ok (match prev_ret with Some b => VBool b | None => VNone end)
  | part :: parts' =>
      ret ← eval_term part;
      if all_and && negb ret then Ok (VBool false)
      else if all_or && ret then Ok (VBool true)
      else
        match prev_ret with
        | None =>
            eval_terms all_and all_or operators (S idx) (Some ret) parts'
        | Some prev =>
            match nth_error operators (idx - 1) with
            | None => Raise IndexError
            | Some OpAnd =>
                eval_terms all_and all_or operators (S idx)
                  (Some (prev && ret)) parts'
            | Some OpOr =>
                eval_terms all_and all_or operators (S idx)
                  (Some (prev || ret)) parts'
            end
        end
  end.

(** The part of [_evaluate_expression] behind the parentheses:
    split, collect the operators, run the loop. *)
Definition eval_flat (condition : string) : result value :=
  let parts := split_logic condition in
  let operators := extract_operators condition in
  let all_and := negb (existsb (logic_op_eqb OpOr) operators) in
  let all_or := negb (existsb (logic_op_eqb OpAnd) operators) in
  eval_terms all_and all_or operators 0 None parts.

(** The [while True] loop that replaces the first parenthesised
    group by the text of its value, [rec] being the recursive
    call; [n] bounds the number of rounds. *)
Fixpoint paren_loop (rec : string -> result value) (n : nat)
    (condition : string) : result string :=
  match _find_first_parenthesis_set condition with
  | None => Ok condition
  | Some (start_idx, end_idx) =>
      match n with
      | O => OutOfFuel
      | S n' =>
          inner_result ←
            rec (take (end_idx - (start_idx + 1))
                   (drop (start_idx + 1) condition));
          paren_loop rec n'
            (take start_idx condition ++ py_str inner_result
               ++ drop (end_idx + 1) condition)%string
      end
  end.

Definition unmatched : exn :=
  ValueError "Unmatched parentheses in condition".

(** [_evaluate_expression]; [fuel] bounds the nesting depth. *)
Fixpoint _evaluate_expression (fuel : nat) (condition : string)
  : result value :=
  match fuel with
  | O => OutOfFuel
  | S fuel' =>
      condition' ←
        (if contains "(" condition then
           if negb (count_char "(" condition =? count_char ")" condition)%nat
           then Raise unmatched
           else paren_loop (_evaluate_expression fuel') fuel' condition
         else if contains ")" condition then Raise unmatched
         else Ok condition);
      eval_flat condition'
  end.
End Expression.

(** [merged_data]. *)
Definition merge_data (defaults : option (dict value))
    (printer_data : dict value) : dict value :=
  let merged :=
    match defaults with
    | Some ((_ :: _) as d) => dict_update [] d
    | _ => []
    end in
  dict_update merged printer_data.

(** [value[i]]. *)
Definition py_index (v : value) (i : nat) : result value :=
  match v with
  | VList l =>
      match nth_error l i with
      | Some x => Ok x
      | None => Raise IndexError
      end
  | VStr s =>
      match String.get i s with
      | Some c => Ok (VStr (String c EmptyString))
      | None => Raise IndexError
      end
  | VDict _ => Raise KeyError
  | _ => Raise TypeError
  end.

(** [re.split("[;,]", v)]. *)
Definition split_list_value (v : value) : result (list string) :=
  match v with
  | VStr s => Ok (split_class is_list_sep s)
  | _ => Raise TypeError
  end.

Section Lookup.
Variable merged_data : dict value.
Variable slicer : string.

(** [get_value_from_config] on a key found in [merged_data], and
    [None] elsewhere.  The two lookups the [num_extruders] branch
    makes are of this kind: their keys are not [num_extruders]. *)
Definition get_plain (key : string) : result value :=
  match var_fullmatch key with
  | None => Ok VNone
  | Some (k, index) =>
      match dict_get k merged_data with
      | None => Ok VNone
      | Some value =>
          match index with
          | None =>
              match value with
              | VList [x] =>
                  if negb (String.eqb slicer "prusaslicer") then Ok x
                  else Ok value
              | _ => Ok value
              end
          | Some ds =>
              let i := match py_int ds with
                       | Some z => Z.to_nat z
                       | None => 0
                       end in
              if String.eqb slicer "prusaslicer"
              then parts ← split_list_value value;
                   py_index (VList (map VStr parts)) i
              else py_index value i
          end
      end
  end.

(** [get_value_from_config]. *)
Definition get_value_from_config (key : string) : result value :=
  match var_fullmatch key with
  | None => Ok VNone
  | Some (k, index) =>
      if dict_mem k merged_data then get_plain key
      else if String.eqb key "num_extruders" then
        extruders_count ← get_plain "extruders_count";
        match extruders_count with
        | VNone =>
            nozzle_diameters ← get_plain "nozzle_diameter";
            match nozzle_diameters with
            | VNone => Ok VNone
            | _ =>
                parts ← split_list_value nozzle_diameters;
                Ok (VInt (Z.of_nat (length parts)))
            end
        | _ => Ok extruders_count
        end
      else Ok VNone
  end.
End Lookup.

(** [evaluate_printer_condition]. *)
Definition evaluate_printer_condition (condition : string)
    (printer_data : dict value) (slicer : string)
    (defaults : option (dict value)) : result value :=
  if String.eqb condition EmptyString
     || String.eqb (strip condition) EmptyString
  then Ok (VBool false)
  else
    _evaluate_expression
      (get_value_from_config (merge_data defaults printer_data) slicer)
      (S (String.length condition)) condition.
End Runtime.

End Conditions.

(* ===================================================================== *)
(** ** Notions the properties are stated with *)
(* ===================================================================== *)

Module Notions.
Import PyStr Versions Models.

(** The entry of a version history that the documentation of
    [get_at_version] selects for a request [q]: a recorded entry whose
    version is at most [q] and below which, in the version ordering, no
    other recorded version at most [q] lies above. *)
Definition greatest_at_most (versions : dict value) (q ver : string)
    (val : value) : Prop :=
  (ver, val) ∈ versions
  /\ tuple_leb (_version_key ver) (_version_key q) = true
  /\ forall ver' val',
       (ver', val') ∈ versions ->
       tuple_leb (_version_key ver') (_version_key q) = true ->
       tuple_leb (_version_key ver') (_version_key ver) = true.

(** The key of a history entry. *)
Definition entry_key (vv : string * value) : list Z := _version_key (fst vv).

(** A setting that is stored in a version history: every key of a
    parsed profile except the metadata keys. *)
Definition is_versioned (kv : string * value) : bool :=
  negb (Store.is_meta_key (fst kv)).

(** Every profile file sits at the path its own fields name, as every
    file written by [_save] does. *)
Definition store_consistent (self : Store.ProfileStore) : Prop :=
  forall path sp,
    Store.files self !! path = Some sp -> Store.stored_path sp = path.



(** The characters of a hexadecimal digest. *)
Definition is_hex_char (c : ascii) : bool := is_digit c || in_range 97 102 c.

Fixpoint is_hex (h : string) : bool :=
  match h with
  | EmptyString => true
  | String c h' => is_hex_char c && is_hex h'
  end.

(** Every binary file in the resource directory is the file some
    manifest entry points to. *)
Definition files_tracked (self : Resources.ResourceStore) : Prop :=
  forall f,
    is_Some (Resources.res_files self !! f) ->
    exists h e,
      dict_get h (Resources._manifest self) = Some e
      /\ f = Resources.entry_file h e.

(** A file name of the form [{hash}.{ext}]. *)
Definition file_of_hash (f h : string) : Prop :=
  exists ext, f = (h ++ "." ++ ext)%string.

(** The deletions of [gc] on the files: the file of every entry whose
    hash is not referenced. *)
Definition gc_files (referenced : gset string)
    (manifest : dict Resources.ManifestEntry) (files : gmap string string)
  : gmap string string :=
  fold_left
    (fun fs kv =>
       if bool_decide (fst kv ∈ referenced) then fs
       else delete (Resources.entry_file (fst kv) (snd kv)) fs)
    manifest files.

(** Balanced parentheses: no closing parenthesis without an earlier
    open one, and none left open at the end. *)
Fixpoint balanced_from (depth : nat) (s : string) : bool :=
  match s with
  | EmptyString => (depth =? 0)%nat
  | String c s' =>
      if (code c =? 40)%nat then balanced_from (S depth) s'
      else if (code c =? 41)%nat then
        match depth with
        | O => false
        | S d => balanced_from d s'
        end
      else balanced_from depth s'
  end.

Definition balanced (s : string) : bool := balanced_from 0 s.



(** The outcome of a [float(x)] call that the evaluator catches:
    [ValueError] or [TypeError]. *)
Definition not_a_number {F : Type} (r : result F) : Prop :=
  (exists msg, r = Raise (ValueError msg)) \/ r = Raise TypeError.

(** A small instance of the interpreter's operations, for running the
    evaluator on examples: numbers are integers, a pattern matches as a
    literal prefix, and containers have no text. *)
Definition int_float (v : value) : result Z :=
  match v with
  | VInt z => Ok z
  | VBool b => Ok (Z.b2z b)
  | VStr s =>
      match py_int s with
      | Some z => Ok z
      | None => Raise (ValueError "could not convert string to float")
      end
  | _ => Raise TypeError
  end.

Definition prefix_match (pattern s : string) : result bool :=
  Ok (startswith pattern s).

Definition no_repr (v : value) : string := EmptyString.

(** A string of whitespace only, the empty string included. *)
Fixpoint blank (s : string) : bool :=
  match s with
  | EmptyString => true
  | String c s' => is_space c && blank s'
  end.

End Notions.

(* ===================================================================== *)
(** ** Values as [json.loads] builds them *)
(* ===================================================================== *)

Module Values.

(** Induction over values that reaches into lists and dictionaries. *)
Section Induction.
Variable P : value -> Prop.
Hypothesis HNone : P VNone.
Hypothesis HBool : forall b, P (VBool b).
Hypothesis HInt : forall z, P (VInt z).
Hypothesis HStr : forall s, P (VStr s).
Hypothesis HList : forall l, Forall P l -> P (VList l).
Hypothesis HDict : forall d, Forall (fun kv => P (snd kv)) d -> P (VDict d).

Fixpoint value_ind_nested (v : value) : P v :=
  match v with
  | VNone => HNone
  | VBool b => HBool b
  | VInt z => HInt z
  | VStr s => HStr s
  | VList l =>
      HList l
        ((fix go (l : list value) : Forall P l :=
            match l with
            | [] => List.Forall_nil P
            | x :: l' =>
                @List.Forall_cons _ P x l' (value_ind_nested x) (go l')
            end) l)
  | VDict d =>
      HDict d
        ((fix go (d : list (string * value))
            : Forall (fun kv => P (snd kv)) d :=
            match d with
            | [] => List.Forall_nil _
            | kv :: d' =>
                @List.Forall_cons _ (fun kv => P (snd kv)) kv d'
                  (value_ind_nested (snd kv)) (go d')
            end) d)
  end.
End Induction.

(** No dictionary inside the value holds a key twice. *)
Fixpoint wf_value (v : value) : Prop :=
  match v with
  | VList l =>
      (fix go (l : list value) : Prop :=
         match l with
         | [] => True
         | x :: l' => wf_value x /\ go l'
         end) l
  | VDict d =>
      wf_dict d
      /\ (fix go (d : list (string * value)) : Prop :=
            match d with
            | [] => True
            | kv :: d' => wf_value (snd kv) /\ go d'
            end) d
  | _ => True
  end.

(** Every value recorded in the histories of a stored profile is
    well formed. *)
Definition wf_histories (sp : Models.StoredProfile) : Prop :=
  forall k h ver v,
    (k, h) ∈ Models.settings sp -> (ver, v) ∈ h -> wf_value v.

End Values.

(* ===================================================================== *)
(** ** store.py: listing *)
(* ===================================================================== *)

Module StoreListing.
Import PyStr Versions Models Store.


(** Every history of every stored profile has an entry. *)
Definition histories_nonempty (sp : StoredProfile) : Prop :=
  forall k h, (k, h) ∈ settings sp -> h <> [].

Definition store_histories_nonempty (self : ProfileStore) : Prop :=
  forall path sp, files self !! path = Some sp -> histories_nonempty sp.

(** A store directory filled by ingestions alone, starting empty. *)
Inductive reachable : ProfileStore -> Prop :=
| reachable_empty : reachable empty_store
| reachable_ingest (self : ProfileStore) (slicer : SlicerType)
    (version : string) (profiles : list ParsedProfile) :
    reachable self ->
    reachable (fst (ingest_profiles self slicer version profiles)).

(** The characters at the two ends of a string. *)
Definition head_char (s : string) : option ascii :=
  match s with
  | EmptyString => None
  | String c _ => Some c
  end.

Fixpoint last_char (s : string) : option ascii :=
  match s with
  | EmptyString => None
  | String c EmptyString => Some c
  | String _ s' => last_char s'
  end.

(** No character of the string satisfies [p]. *)
Fixpoint free_of (p : ascii -> bool) (s : string) : bool :=
  match s with
  | EmptyString => true
  | String c s' => negb (p c) && free_of p s'
  end.

(** [p] fails on the given end character, if there is one. *)
Definition end_ok (p : ascii -> bool) (c : option ascii) : bool :=
  match c with
  | Some a => negb (p a)
  | None => true
  end.

End StoreListing.

(* ===================================================================== *)
(** ** resources.py: collecting and scanning *)
(* ===================================================================== *)

Module ResourceScan.
Import PyStr Models Resources.

(** [ResourceStore.__init__]: the manifest is read from
    [_manifest.json], or empty when there is no such file. *)
Definition open_resources (files : gmap string string)
    (on_disk : option (dict ManifestEntry)) : ResourceStore :=
  mkResources files
    (match on_disk with Some m => m | None => [] end) on_disk.

Section WithHash.
Variable sha256_hex : string -> string.

(** [collect_resources]: [found] lists the resource files below the
    extracted directory, by name and bytes, in the order they are
    visited. *)
Definition collect_resources (found : list (string * string))
    (store0 : ResourceStore) : ResourceStore * dict string :=
  let '(st, resource_map) :=
    fold_left
      (fun (acc : ResourceStore * dict string) f =>
         let '(st', hash_hex) := store sha256_hex (fst acc) (fst f) (snd f) in
         (st', dict_set (fst f) hash_hex (snd acc)))
      found (store0, []) in
  (save_manifest st, resource_map).
End WithHash.

(** The hashes one profile file contributes in
    [collect_referenced_hashes]. *)
Definition referenced_in (settings : dict (dict value)) : list string :=
  flat_map
    (fun key =>
       match dict_get key settings with
       | None => []
       | Some versions =>
           omap
             (fun v =>
                match v with
                | VStr s =>
                    if startswith "sha256:" s then Some (drop 7 s) else None
                | _ => None
                end)
             (dict_values versions)
       end)
    RESOURCE_SETTING_KEYS.

(** A path below the slicer directory with a part starting with [_]. *)
Definition reserved_path (vendor profile_type stem : string) : bool :=
  startswith "_" vendor || startswith "_" profile_type
  || startswith "_" (stem ++ ".json").

(** [collect_referenced_hashes], on the profile files of the store. *)
Definition collect_referenced_hashes (store : Store.ProfileStore)
    (slicer_value : string) : gset string :=
  list_to_set
    (flat_map
       (fun entry : (string * string * string * string) * StoredProfile =>
          let '(s, v, t, n) := fst entry in
          if String.eqb s slicer_value && negb (reserved_path v t n)
          then referenced_in (settings (snd entry))
          else [])
       (map_to_list (Store.files store))).

(** Every manifest entry points to a file of the directory. *)
Definition manifest_backed (self : ResourceStore) : Prop :=
  forall h e,
    dict_get h (_manifest self) = Some e ->
    is_Some (res_files self !! entry_file h e).

End ResourceScan.

(* ===================================================================== *)
(** ** versions.py and pipeline.py: choosing the versions to ingest *)
(* ===================================================================== *)

Module Pipeline.
Import PyStr Versions Models Store Resources ResourceScan.

(** The words of [_PRERELEASE_RE]. *)
Definition _PRERELEASE_WORDS : list string :=
  ["alpha"; "beta"; "rc"; "dev"; "pre"].

(** [is_prerelease]: one of the words occurs in the version, letters
    compared without regard to case. *)
Definition is_prerelease (version : string) : bool :=
  existsb (fun w => contains w (lower version)) _PRERELEASE_WORDS.

(** [VersionInfo]. *)
Record VersionInfo : Type := mkVersion {
  raw : string;
  normalized : string;
  v_slicer : SlicerType
}.

(** [[t for t in tags if not is_prerelease(t.raw)]]. *)
Definition stable_tags (tags : list VersionInfo) : list VersionInfo :=
  List.filter (fun t => negb (is_prerelease (raw t))) tags.

(** [{t.normalized: t for t in stable_tags}]. *)
Definition tag_map (tags : list VersionInfo) : dict VersionInfo :=
  fold_left (fun m t => dict_set (normalized t) t m) tags [].

(** The tag-based branch of [ingest_all_versions], up to its loop: the
    normalized versions the loop visits, in order.  [min_version] is
    the setting of the source configuration and [existing] the result
    of [get_versions]. *)
Definition new_versions (tags : list VersionInfo)
    (min_version : option string) (existing : list string) : list string :=
  let sorted_versions :=
    sort_versions (dict_keys (tag_map (stable_tags tags))) in
  let sorted_versions :=
    match min_version with
    | Some m =>
        if negb (String.eqb m EmptyString) then
          List.filter
            (fun v => tuple_leb (version_key m) (version_key v))
            sorted_versions
        else sorted_versions
    | None => sorted_versions
    end in
  List.filter (fun v => negb (existsb (String.eqb v) existing))
    sorted_versions.

(** The raw tags the loop of [ingest_all_versions] hands to [ingest]:
    [tag_map[norm_ver].raw] for every new version. *)
Definition tags_to_ingest (tags : list VersionInfo)
    (min_version : option string) (existing : list string)
  : result (list string) :=
  let m := tag_map (stable_tags tags) in
  fold_right
    (fun norm_ver rest =>
       match dict_get norm_ver m with
       | Some tag => raws ← rest; Ok (raw tag :: raws)
       | None => Raise KeyError
       end)
    (Ok []) (new_versions tags min_version existing).

(** [_is_version_mutable]. *)
Definition _is_version_mutable (version : string) : bool :=
  let normalized := normalize_version version in
  if existsb (String.eqb normalized) ["main"; "master"; "develop"; "dev"]
  then true
  else if startswith "nightly" normalized then true
  else false.

(** Step 7 of [_run_pipeline]: the version the profiles are stored
    under.  [today] is [date.today().isoformat()]. *)
Definition storage_version (version : string)
    (detected_version : option string) (is_nightly : bool) (today : string)
  : string :=
  let normalized_version := normalize_version version in
  let normalized_version :=
    if existsb (String.eqb normalized_version) ["main"; "master"] then
      match detected_version with
      | Some d => if negb (String.eqb d EmptyString) then d else today
      | None => today
      end
    else normalized_version in
  if is_nightly then ("nightly-" ++ normalized_version)%string
  else normalized_version.

(** The store directory as the pipeline sees it: the profile files and,
    per slicer, the files of its [_resources] directory with the
    manifest written there. *)
Record Disk : Type := mkDisk {
  profiles : ProfileStore;
  resource_files : gmap string string;
  resource_manifest : option (dict ManifestEntry)
}.

(** What the steps before storing deliver: the resource files found in
    the extracted directory, the version detected while squashing, and
    the parsed profiles. *)
Record Extracted : Type := mkExtracted {
  found : list (string * string);
  detected_version : option string;
  parsed : list ParsedProfile
}.

Section WithHash.
Variable sha256_hex : string -> string.

(** [_run_pipeline] from step 2 on, for one slicer and without
    [fetch_defaults]: collect the resources, rewrite the references,
    store the profiles, collect the unreferenced resources. *)
Definition _run_pipeline (disk : Disk) (slicer : SlicerType)
    (version : string) (is_nightly : bool) (x : Extracted) (today : string)
  : Disk * IngestionReport :=
  let resource_store :=
    open_resources (resource_files disk) (resource_manifest disk) in
  let '(resource_store, resource_map) :=
    collect_resources sha256_hex (found x) resource_store in
  let parsed :=
    match resource_map with
    | [] => parsed x
    | _ => rewrite_resource_refs (parsed x) resource_map
    end in
  let normalized_version :=
    storage_version version (detected_version x) is_nightly today in
  let '(store, report) :=
    ingest_profiles (profiles disk) slicer normalized_version parsed in
  let referenced := collect_referenced_hashes store (slicer_value slicer) in
  let '(resource_store, _) := gc resource_store referenced in
  (mkDisk store (res_files resource_store)
     (manifest_on_disk resource_store),
   report).

(** [ProfilePipeline.ingest], after the keywords [latest] and [nightly]
    are resolved: a version that is not mutable and already listed is
    skipped. *)
Definition ingest (disk : Disk) (slicer : SlicerType) (version : string)
    (is_nightly : bool) (x : Extracted) (today : string)
  : Disk * IngestionReport :=
  if negb (_is_version_mutable version)
     && existsb (String.eqb (normalize_version version))
          (get_versions (profiles disk) slicer)
  then (disk,
        mkReport slicer (normalize_version version) 0 [] [] [] 0%Z)
  else _run_pipeline disk slicer version is_nightly x today.
End WithHash.

End Pipeline.

(* ===================================================================== *)
(** ** mapping.py: the version a profile is evaluated at *)
(* ===================================================================== *)

Module Mapping.
Import PyStr Models.

(** The loop of [_stable_version] over the versions of one history. *)
Definition stable_step (best : option string) (ver : string)
  : option string :=
  if negb (startswith "nightly" ver) then
    match best with
    | None => Some ver
    | Some b => if String.ltb b ver then Some ver else best
    end
  else best.

(** [_stable_version]. *)
Definition _stable_version (profile : StoredProfile) : string :=
  let last := last_seen profile in
  if negb (startswith "nightly" last) then last
  else
    let best :=
      fold_left
        (fun best versions_dict =>
           fold_left stable_step (dict_keys versions_dict) best)
        (dict_values (settings profile)) None in
    match best with
    | Some b => if String.eqb b EmptyString then last else b
    | None => last
    end.

(** [_evaluate_stable]. *)
Definition _evaluate_stable (profile : StoredProfile) : dict value :=
  evaluate profile (_stable_version profile).

End Mapping.

(* ===================================================================== *)
(** ** conditions.py: plain keys *)
(* ===================================================================== *)

Module Lookups.

(** The value [get_value_from_config] gives a key without index whose
    entry in the merged configuration is [v]: a list of one element is
    replaced by that element, except for PrusaSlicer; a missing entry
    is [None]. *)
Definition unwrapped (slicer : string) (v : option value) : value :=
  match v with
  | None => VNone
  | Some (VList [x]) =>
      if negb (String.eqb slicer "prusaslicer") then x else VList [x]
  | Some v => v
  end.

End Lookups.
(* ===================================================================== *)
(** * Properties *)
(* ===================================================================== *)

(* --------------------------------------------------------------------- *)
(** ** The version ordering *)
(* --------------------------------------------------------------------- *)

Module VersionsFacts.
Import PyStr Versions.

Lemma tuple_ltb_irrefl (a : list Z) : tuple_ltb a a = false.
Proof.
  induction a as [|x a IH]; simpl; [reflexivity|].
  now rewrite Z.eqb_refl.
Qed.

Lemma tuple_leb_ltb (a b : list Z) : tuple_leb a b = negb (tuple_ltb b a).
Proof.
  revert b; induction a as [|x a IH]; intros [|y b]; simpl; try reflexivity.
  rewrite (Z.eqb_sym y x).
  destruct (Z.eqb_spec x y) as [->|Hne]; [apply IH|].
  rewrite Z.leb_antisym. reflexivity.
Qed.

Lemma tuple_leb_refl (a : list Z) : tuple_leb a a = true.
Proof. now rewrite tuple_leb_ltb, tuple_ltb_irrefl. Qed.

Lemma tuple_ltb_trans (a b c : list Z) :
  tuple_ltb a b = true -> tuple_ltb b c = true -> tuple_ltb a c = true.
Proof.
  revert b c; induction a as [|x a IH]; intros [|y b] [|z c]; simpl;
    try congruence.
  destruct (Z.eqb_spec x y) as [Hxy|Hxy], (Z.eqb_spec y z) as [Hyz|Hyz],
    (Z.eqb_spec x z) as [Hxz|Hxz]; intros H1 H2;
    try apply Z.ltb_lt in H1; try apply Z.ltb_lt in H2;
    try apply Z.ltb_lt; try lia.
  eauto.
Qed.

(** Either one tuple is smaller, or the two are the same tuple. *)
Lemma tuple_ltb_cases (a b : list Z) :
  (tuple_ltb a b = true /\ a <> b /\ tuple_ltb b a = false)
  \/ (tuple_ltb a b = false /\ a = b /\ tuple_ltb b a = false)
  \/ (tuple_ltb a b = false /\ a <> b /\ tuple_ltb b a = true).
Proof.
  revert b; induction a as [|x a IH]; intros [|y b]; simpl.
  - right; left; auto.
  - left; repeat split; congruence.
  - right; right; repeat split; congruence.
  - rewrite (Z.eqb_sym y x).
    destruct (Z.eqb_spec x y) as [->|Hne].
    + destruct (IH b) as [(H1 & H2 & H3)|[(H1 & H2 & H3)|(H1 & H2 & H3)]].
      * left; repeat split; auto; congruence.
      * right; left; repeat split; auto; congruence.
      * right; right; repeat split; auto; congruence.
    + destruct (Z.ltb_spec x y) as [Hlt|Hge].
      * left; repeat split; [congruence|]. apply Z.ltb_ge. lia.
      * right; right; repeat split; [congruence|]. apply Z.ltb_lt. lia.
Qed.

Lemma tuple_leb_trans (a b c : list Z) :
  tuple_leb a b = true -> tuple_leb b c = true -> tuple_leb a c = true.
Proof.
  rewrite !tuple_leb_ltb, !negb_true_iff. intros Hba Hcb.
  destruct (tuple_ltb c a) eqn:Hca; [|reflexivity].
  destruct (tuple_ltb_cases b c) as [(H1 & _)|[(_ & -> & _)|(_ & _ & H3)]];
    try congruence.
  pose proof (tuple_ltb_trans _ _ _ H1 Hca). congruence.
Qed.

Lemma tuple_leb_total (a b : list Z) :
  tuple_leb a b = true \/ tuple_leb b a = true.
Proof.
  rewrite !tuple_leb_ltb, !negb_true_iff.
  destruct (tuple_ltb_cases a b) as [(_ & _ & H)|[(H & _)|(H & _)]]; auto.
Qed.

Section SortedByKey.
Context {A : Type} (key : A -> list Z).

Lemma key_le_trans (x y z : A) : key_le key x y -> key_le key y z -> key_le key x z.
Proof.
  unfold key_le. intros Hxy Hyz.
  pose proof (tuple_leb_trans (key x) (key y) (key z)) as H.
  rewrite !tuple_leb_ltb, !negb_true_iff in H. auto.
Qed.

Lemma insert_by_key_perm (x : A) (l : list A) :
  Permutation (x :: l) (insert_by_key key x l).
Proof.
  induction l as [|y l IH]; simpl; [reflexivity|].
  destruct (tuple_ltb (key x) (key y)); [reflexivity|].
  rewrite perm_swap. now constructor.
Qed.

Lemma fold_insert_perm (l acc : list A) :
  Permutation (acc ++ l)
    (fold_left (fun acc x => insert_by_key key x acc) l acc).
Proof.
  revert acc; induction l as [|x l IH]; intros acc; simpl.
  - now rewrite app_nil_r.
  - rewrite <- IH, <- insert_by_key_perm. simpl.
    symmetry. apply Permutation_middle.
Qed.

Lemma insert_by_key_sorted (x : A) (l : list A) :
  StronglySorted (key_le key) l -> StronglySorted (key_le key) (insert_by_key key x l).
Proof.
  induction 1 as [|y l Hs IH Hall]; simpl.
  - repeat constructor.
  - destruct (tuple_ltb (key x) (key y)) eqn:Hlt.
    + constructor; [now constructor|].
      assert (Hxy : key_le key x y).
      { unfold key_le.
        destruct (tuple_ltb_cases (key x) (key y))
          as [(_ & _ & H)|[(H & _)|(H & _)]]; congruence. }
      constructor; [exact Hxy|].
      eapply Forall_impl; [exact Hall|].
      intros z Hz. eapply key_le_trans; eauto.
    + constructor; [exact IH|].
      rewrite <- insert_by_key_perm. constructor; [exact Hlt|exact Hall].
Qed.

Lemma fold_insert_sorted (l acc : list A) :
  StronglySorted (key_le key) acc ->
  StronglySorted (key_le key)
    (fold_left (fun acc x => insert_by_key key x acc) l acc).
Proof.
  revert acc; induction l as [|x l IH]; intros acc Hacc; simpl; auto.
  apply IH, insert_by_key_sorted, Hacc.
Qed.

Lemma with_key_above (k : list Z) (x : A) (l : list A) :
  key x = k ->
  Forall (fun y => tuple_ltb (key x) (key y) = true) l ->
  with_key key k l = [].
Proof.
  intros Hk Hall. unfold with_key.
  induction Hall as [|y l Hy _ IH]; simpl; [reflexivity|].
  rewrite IH. rewrite bool_decide_eq_false_2; [reflexivity|].
  intros Heq. rewrite Heq, <- Hk, tuple_ltb_irrefl in Hy. discriminate.
Qed.

Lemma insert_by_key_with_key (k : list Z) (x : A) (l : list A) :
  StronglySorted (key_le key) l ->
  with_key key k (insert_by_key key x l)
  = with_key key k l ++ (if bool_decide (key x = k) then [x] else []).
Proof.
  induction 1 as [|y l Hs IH Hall]; simpl.
  { unfold with_key; simpl. destruct (bool_decide (key x = k)); reflexivity. }
  destruct (tuple_ltb (key x) (key y)) eqn:Hlt; unfold with_key.
  - simpl. destruct (bool_decide_reflect (key x = k)) as [Hk|Hk].
    + assert (Habove : Forall (fun z => tuple_ltb (key x) (key z) = true)
                         (y :: l)).
      { constructor; [exact Hlt|].
        eapply Forall_impl; [exact Hall|]. intros z Hz.
        unfold key_le in Hz.
        destruct (tuple_ltb_cases (key y) (key z))
          as [(H1 & _)|[(_ & H2 & _)|(_ & _ & H3)]]; try congruence.
        eapply tuple_ltb_trans; eauto. }
      pose proof (with_key_above k x (y :: l) Hk Habove) as Hnil.
      unfold with_key in Hnil. simpl in Hnil. rewrite Hnil. reflexivity.
    + now rewrite app_nil_r.
  - simpl. unfold with_key in IH. rewrite IH.
    destruct (bool_decide (key y = k)); reflexivity.
Qed.

Lemma fold_insert_with_key (k : list Z) (l acc : list A) :
  StronglySorted (key_le key) acc ->
  with_key key k (fold_left (fun acc x => insert_by_key key x acc) l acc)
  = with_key key k acc ++ with_key key k l.
Proof.
  revert acc; induction l as [|x l IH]; intros acc Hacc; simpl.
  - now rewrite app_nil_r.
  - rewrite IH by now apply insert_by_key_sorted.
    rewrite insert_by_key_with_key by assumption.
    rewrite <- app_assoc. f_equal.
    destruct (bool_decide (key x = k)); reflexivity.
Qed.
End SortedByKey.

(** C4, as amended.  The ordering is a strict total order on version
    keys, not on version strings: for every two strings exactly one of
    "the key of [a] is smaller", "the keys are equal", "the key of [b] is
    smaller" holds, and the comparison is transitive.  [sort_versions] is
    defined on every list: its result is a rearrangement of the input, in
    ascending key order, and strings with the same key keep their
    relative order. *)
Theorem version_order_total_on_keys :
  (forall a b : string,
      exactly_one (tuple_ltb (version_key a) (version_key b) = true)
                  (version_key a = version_key b)
                  (tuple_ltb (version_key b) (version_key a) = true))
  /\ (forall a b c : string,
        tuple_ltb (version_key a) (version_key b) = true ->
        tuple_ltb (version_key b) (version_key c) = true ->
        tuple_ltb (version_key a) (version_key c) = true)
  /\ (forall versions : list string,
        Permutation versions (sort_versions versions)
        /\ StronglySorted (key_le version_key) (sort_versions versions)
        /\ forall k : list Z,
             with_key version_key k (sort_versions versions)
             = with_key version_key k versions).
Proof.
  split; [|split].
  - intros a b. unfold exactly_one.
    destruct (tuple_ltb_cases (version_key a) (version_key b))
      as [(H1 & H2 & H3)|[(H1 & H2 & H3)|(H1 & H2 & H3)]].
    + left. repeat split; congruence.
    + right; left. repeat split; congruence.
    + right; right. repeat split; congruence.
  - intros a b c. apply tuple_ltb_trans.
  - intros versions. unfold sort_versions, sorted_by_key. repeat split.
    + apply (fold_insert_perm version_key versions []).
    + apply fold_insert_sorted. constructor.
    + intros k. rewrite fold_insert_with_key by constructor. reflexivity.
Qed.

(** C4, as stated, fails: the normalized strings [1.0] and [1.00] are
    different and have the same key, so none of "smaller", "the same
    string", "greater" holds for them. *)
Lemma version_order_not_total_on_strings :
  ~ (forall a b : string,
        normalize_version a = a -> normalize_version b = b ->
        exactly_one (tuple_ltb (version_key a) (version_key b) = true)
                    (a = b)
                    (tuple_ltb (version_key b) (version_key a) = true)).
Proof.
  intros H.
  destruct (H "1.0" "1.00" eq_refl eq_refl)
    as [(H1 & _)|[(_ & H2 & _)|(_ & _ & H3)]]; discriminate.
Qed.

End VersionsFacts.

(* --------------------------------------------------------------------- *)
(** ** Dictionaries *)
(* --------------------------------------------------------------------- *)

Module DictFacts.

Lemma fold_left_ext {A B : Type} (f g : A -> B -> A) (l : list B) (a : A) :
  (forall a b, f a b = g a b) -> fold_left f l a = fold_left g l a.
Proof.
  intros Hfg. revert a; induction l as [|b l IH]; intros a; simpl;
    [reflexivity|].
  now rewrite Hfg, IH.
Qed.

Section Dict.
Context {A : Type}.
Implicit Types (d : dict A) (k : string) (v : A).

Lemma dict_get_dict_set k k' v d :
  dict_get k (dict_set k' v d)
  = if String.eqb k k' then Some v else dict_get k d.
Proof.
  induction d as [|[k0 v0] d IH]; simpl.
  - destruct (String.eqb_spec k k'); reflexivity.
  - destruct (String.eqb_spec k' k0) as [->|Hne]; simpl.
    + destruct (String.eqb_spec k k0); reflexivity.
    + destruct (String.eqb_spec k k0) as [->|Hne'].
      * destruct (String.eqb_spec k0 k'); [congruence|reflexivity].
      * exact IH.
Qed.

Lemma elem_of_dict_keys k d : k ∈ dict_keys d <-> exists v, (k, v) ∈ d.
Proof.
  unfold dict_keys. rewrite list_elem_of_In, in_map_iff. split.
  - intros [[k0 v] [<- Hin]]. exists v. now apply list_elem_of_In.
  - intros [v Hin]. exists (k, v). split; [reflexivity|].
    now apply list_elem_of_In.
Qed.

Lemma dict_get_None k d : dict_get k d = None <-> k ∉ dict_keys d.
Proof.
  induction d as [|[k0 v0] d IH]; simpl.
  - split; [intros _; apply not_elem_of_nil|reflexivity].
  - rewrite not_elem_of_cons.
    destruct (String.eqb_spec k k0) as [->|Hne].
    + split; [discriminate|]. intros [H _]; contradiction.
    + rewrite IH. tauto.
Qed.

Lemma dict_get_elem_of k v d : dict_get k d = Some v -> (k, v) ∈ d.
Proof.
  induction d as [|[k0 v0] d IH]; simpl; [discriminate|].
  destruct (String.eqb_spec k k0) as [->|Hne].
  - intros [= ->]. apply elem_of_cons; auto.
  - intros H. apply elem_of_cons; auto.
Qed.

Lemma elem_of_dict_get k v d :
  wf_dict d -> (k, v) ∈ d -> dict_get k d = Some v.
Proof.
  unfold wf_dict. induction d as [|[k0 v0] d IH]; simpl.
  - intros _ H. now apply elem_of_nil in H.
  - rewrite NoDup_cons, elem_of_cons. intros [Hnotin Hnd] [Heq|Hin].
    + injection Heq as -> ->. now rewrite String.eqb_refl.
    + destruct (String.eqb_spec k k0) as [->|Hne]; [|auto].
      exfalso. apply Hnotin. apply elem_of_dict_keys. eauto.
Qed.

Lemma dict_set_fresh k v d :
  dict_get k d = None -> dict_set k v d = d ++ [(k, v)].
Proof.
  induction d as [|[k0 v0] d IH]; simpl; [reflexivity|].
  destruct (String.eqb_spec k k0); [discriminate|].
  intros H. now rewrite IH.
Qed.

Lemma dict_keys_dict_set k v d :
  dict_keys (dict_set k v d)
  = if dict_mem k d then dict_keys d else dict_keys d ++ [k].
Proof.
  unfold dict_mem. induction d as [|[k0 v0] d IH]; simpl; [reflexivity|].
  destruct (String.eqb_spec k k0) as [->|Hne]; simpl; [reflexivity|].
  rewrite IH. destruct (dict_get k d); reflexivity.
Qed.

Lemma wf_dict_set k v d : wf_dict d -> wf_dict (dict_set k v d).
Proof.
  unfold wf_dict. rewrite dict_keys_dict_set. unfold dict_mem.
  destruct (dict_get k d) eqn:Hget; [auto|].
  intros Hnd. apply NoDup_app. repeat split; auto.
  - intros x Hx Hin. apply list_elem_of_singleton in Hin as ->.
    apply dict_get_None in Hget. auto.
  - apply NoDup_singleton.
Qed.

Lemma elem_of_dict_set k k' v v' d :
  wf_dict d ->
  (k, v) ∈ dict_set k' v' d
  <-> (k = k' /\ v = v') \/ (k <> k' /\ (k, v) ∈ d).
Proof.
  intros Hwf. split.
  - intros Hin.
    assert (Hget : dict_get k (dict_set k' v' d) = Some v)
      by (apply elem_of_dict_get; [now apply wf_dict_set|exact Hin]).
    rewrite dict_get_dict_set in Hget.
    destruct (String.eqb_spec k k') as [->|Hne].
    + injection Hget as ->. auto.
    + right. split; [exact Hne|]. now apply dict_get_elem_of.
  - intros [[-> ->]|[Hne Hin]]; apply dict_get_elem_of;
      rewrite dict_get_dict_set.
    + now rewrite String.eqb_refl.
    + destruct (String.eqb_spec k k'); [contradiction|].
      now apply elem_of_dict_get.
Qed.

Lemma dict_update_fresh d other :
  wf_dict other ->
  (forall k, k ∈ dict_keys other -> k ∉ dict_keys d) ->
  dict_update d other = d ++ other.
Proof.
  unfold dict_update, wf_dict.
  revert d; induction other as [|[k v] other IH]; intros d Hnd Hfresh; simpl.
  - now rewrite app_nil_r.
  - simpl in Hnd. apply NoDup_cons in Hnd as [Hnotin Hnd].
    rewrite dict_set_fresh
      by (apply dict_get_None, Hfresh; simpl; apply elem_of_cons; auto).
    rewrite IH; [now rewrite <- app_assoc|exact Hnd|].
    intros k0 Hin. unfold dict_keys. rewrite map_app. simpl.
    rewrite elem_of_app, list_elem_of_singleton.
    intros [H| ->].
    + apply (Hfresh k0); [simpl; apply elem_of_cons; auto|exact H].
    + contradiction.
Qed.

Lemma dict_get_dict_del k k' d :
  dict_get k (dict_del k' d)
  = if String.eqb k k' then None else dict_get k d.
Proof.
  induction d as [|[k0 v0] d IH]; simpl.
  - destruct (String.eqb k k'); reflexivity.
  - destruct (String.eqb_spec k' k0) as [->|Hne]; simpl.
    + rewrite IH. destruct (String.eqb_spec k k0); reflexivity.
    + destruct (String.eqb_spec k k0) as [->|Hne']; [|exact IH].
      destruct (String.eqb_spec k0 k'); [congruence|reflexivity].
Qed.

Lemma dict_del_notin k d : k ∉ dict_keys d -> dict_del k d = d.
Proof.
  induction d as [|[k0 v0] d IH]; simpl; [reflexivity|].
  rewrite not_elem_of_cons. intros [Hne Hnotin].
  destruct (String.eqb_spec k k0); [contradiction|]. now rewrite IH.
Qed.

Lemma dict_del_app k d1 d2 :
  dict_del k (d1 ++ d2) = dict_del k d1 ++ dict_del k d2.
Proof.
  induction d1 as [|[k0 v0] d1 IH]; simpl; [reflexivity|].
  destruct (String.eqb k k0); [exact IH|]. simpl. now rewrite IH.
Qed.

Lemma dict_get_app k d1 d2 :
  dict_get k (d1 ++ d2)
  = match dict_get k d1 with
    | Some v => Some v
    | None => dict_get k d2
    end.
Proof.
  induction d1 as [|[k0 v0] d1 IH]; simpl; [reflexivity|].
  destruct (String.eqb k k0); [reflexivity|exact IH].
Qed.

Lemma dict_get_filter_key (keep : string -> bool) k d :
  dict_get k (List.filter (fun kv => keep (fst kv)) d)
  = if keep k then dict_get k d else None.
Proof.
  induction d as [|[k0 v0] d IH]; simpl.
  - destruct (keep k); reflexivity.
  - destruct (String.eqb_spec k k0) as [->|Hne].
    + destruct (keep k0) eqn:Hkeep; simpl.
      * now rewrite String.eqb_refl.
      * exact IH.
    + destruct (keep k0); simpl; [|exact IH].
      destruct (String.eqb_spec k k0); [contradiction|exact IH].
Qed.

Lemma dict_copy_wf d : wf_dict d -> dict_copy d = d.
Proof.
  intros Hwf. unfold dict_copy. rewrite dict_update_fresh; auto.
  intros k _. apply not_elem_of_nil.
Qed.
End Dict.

End DictFacts.

(* --------------------------------------------------------------------- *)
(** ** Queries on a stored profile *)
(* --------------------------------------------------------------------- *)

Module ModelsFacts.
Import PyStr Versions Models Notions DictFacts VersionsFacts.

Lemma last_cons_default {A : Type} (x d : A) (l : list A) :
  List.last (x :: l) d = List.last l x.
Proof.
  revert x d; induction l as [|y l IH]; intros x d; [reflexivity|].
  change (List.last (x :: y :: l) d) with (List.last (y :: l) d).
  now rewrite !IH.
Qed.

(** The entries of a history a request at [target] may see. *)
Lemma scan_versions_fold (target : list Z) (versions : dict value)
    (acc : value) :
  fold_left
    (fun result vv =>
       if tuple_leb (_version_key (fst vv)) target then snd vv else result)
    versions acc
  = List.last
      (map snd
         (List.filter (fun vv => tuple_leb (entry_key vv) target) versions))
      acc.
Proof.
  revert acc; induction versions as [|vv versions IH]; intros acc; simpl.
  - reflexivity.
  - rewrite IH. unfold entry_key at 2.
    destruct (tuple_leb (_version_key (fst vv)) target); [|reflexivity].
    simpl map. now rewrite last_cons_default.
Qed.

(** [get_at_version] returns the value of the last entry, in insertion
    order, whose version is at most the requested one. *)
Lemma scan_versions_last (target : list Z) (versions : dict value) :
  scan_versions target versions
  = List.last
      (map snd
         (List.filter (fun vv => tuple_leb (entry_key vv) target) versions))
      VNone.
Proof. apply scan_versions_fold. Qed.

Lemma last_elem_of {A : Type} (l : list A) (d : A) :
  l <> [] -> List.last l d ∈ l.
Proof.
  induction l as [|x [|y l] IH]; intros Hne; [contradiction| |].
  - apply elem_of_cons; auto.
  - apply elem_of_cons. right. apply IH. discriminate.
Qed.

Lemma last_map {A B : Type} (f : A -> B) (l : list A) (d : A) :
  List.last (map f l) (f d) = f (List.last l d).
Proof.
  induction l as [|x [|y l] IH]; try reflexivity. exact IH.
Qed.

Lemma sorted_last_max {A : Type} (R : A -> A -> Prop) (l : list A) (d : A) :
  (forall x, R x x) -> StronglySorted R l ->
  forall x, x ∈ l -> R x (List.last l d).
Proof.
  intros Hrefl Hs. induction Hs as [|y l Hs IH Hall]; intros x Hx.
  - now apply elem_of_nil in Hx.
  - apply elem_of_cons in Hx as [->|Hx].
    + destruct l as [|z l]; [apply Hrefl|].
      rewrite Forall_forall in Hall. apply Hall.
      apply (last_elem_of (z :: l) d). discriminate.
    + destruct l as [|z l]; [now apply elem_of_nil in Hx|].
      apply IH. exact Hx.
Qed.

Lemma filter_strongly_sorted {A : Type} (R : A -> A -> Prop)
    (f : A -> bool) (l : list A) :
  StronglySorted R l -> StronglySorted R (List.filter f l).
Proof.
  induction 1 as [|y l Hs IH Hall]; simpl; [constructor|].
  destruct (f y); [|exact IH].
  constructor; [exact IH|].
  rewrite Forall_forall in *. intros x Hx. apply Hall.
  apply list_elem_of_In, filter_In in Hx. apply list_elem_of_In. tauto.
Qed.

(** On a history recorded in ascending version order the loop does
    select the greatest version at most the requested one. *)
Lemma scan_versions_sorted (q : string) (versions : dict value) :
  StronglySorted (key_le entry_key) versions ->
  (exists vv, vv ∈ versions
              /\ tuple_leb (entry_key vv) (_version_key q) = true) ->
  exists ver,
    greatest_at_most versions q ver
      (scan_versions (_version_key q) versions).
Proof.
  intros Hsorted (vv0 & Hin0 & Hle0).
  rewrite scan_versions_last.
  set (visible :=
         List.filter (fun vv => tuple_leb (entry_key vv) (_version_key q))
           versions).
  assert (Hne : visible <> []).
  { intros Heq. assert (Hin : In vv0 visible).
    { apply filter_In. split; [now apply list_elem_of_In|exact Hle0]. }
    rewrite Heq in Hin. exact Hin. }
  change VNone with (snd (EmptyString, VNone)). rewrite last_map.
  set (top := List.last visible (EmptyString, VNone)).
  assert (Htop : top ∈ visible) by now apply last_elem_of.
  apply list_elem_of_In, filter_In in Htop as [Htop_in Htop_le].
  exists (fst top). repeat split.
  - destruct top; now apply list_elem_of_In.
  - exact Htop_le.
  - intros ver' val' Hin' Hle'.
    assert (Hvis : (ver', val') ∈ visible).
    { apply list_elem_of_In, filter_In. split;
        [now apply list_elem_of_In|exact Hle']. }
    pose proof (sorted_last_max (key_le entry_key) visible
                  (EmptyString, VNone)) as Hmax.
    specialize (Hmax (fun x => tuple_ltb_irrefl _)
                     (filter_strongly_sorted _ _ _ Hsorted) _ Hvis).
    unfold key_le, entry_key in Hmax. fold top in Hmax. simpl in Hmax.
    rewrite tuple_leb_ltb, Hmax. reflexivity.
Qed.

(** Dictionary comparison, unfolded. *)
Lemma pyeq_dict (d1 d2 : dict value) :
  pyeq (VDict d1) (VDict d2)
  = Nat.eqb (length d1) (length d2)
    && forallb
         (fun kv =>
            match dict_get (fst kv) d2 with
            | Some v' => pyeq (snd kv) v'
            | None => false
            end) d1.
Proof.
  simpl. f_equal. induction d1 as [|[k v] d1 IH]; simpl; [reflexivity|].
  now rewrite IH.
Qed.

Lemma pyeq_dict_perm (d d' : dict value) :
  wf_dict d -> Permutation d d' ->
  (forall k v, (k, v) ∈ d -> pyeq v v = true) ->
  pyeq (VDict d) (VDict d') = true.
Proof.
  intros Hwf Hperm Hrefl. rewrite pyeq_dict.
  rewrite (Permutation_length Hperm), Nat.eqb_refl. simpl.
  assert (Hwf' : wf_dict d').
  { unfold wf_dict, dict_keys in *.
    assert (Hp : map fst d ≡ₚ map fst d') by now apply Permutation_map.
    now rewrite <- Hp. }
  apply forallb_forall. intros [k v] Hin. simpl.
  apply list_elem_of_In in Hin.
  rewrite (elem_of_dict_get k v d' Hwf') by now rewrite <- Hperm.
  eauto.
Qed.

(** The pairs collected by the loop of [changed_settings]. *)
Lemma changed_fold (f : string -> option (value * value))
    (keys : list string) (acc : dict (value * value)) :
  wf_dict acc ->
  (forall k x, (k, x) ∈ acc -> f k = Some x) ->
  let result :=
    fold_left
      (fun changes key =>
         match f key with
         | Some x => dict_set key x changes
         | None => changes
         end) keys acc in
  wf_dict result
  /\ forall k x,
       (k, x) ∈ result <-> ((k, x) ∈ acc \/ (k ∈ keys /\ f k = Some x)).
Proof.
  revert acc; induction keys as [|key keys IH]; intros acc Hwf Hcons; simpl.
  - split; [exact Hwf|]. intros k x. rewrite elem_of_nil. tauto.
  - destruct (f key) as [x0|] eqn:Hf.
    + destruct (IH (dict_set key x0 acc)) as [Hwf' Hiff].
      * now apply wf_dict_set.
      * intros k x Hin. apply elem_of_dict_set in Hin; [|exact Hwf].
        destruct Hin as [[-> ->]|[_ Hin]]; eauto.
      * split; [exact Hwf'|]. intros k x. rewrite Hiff.
        rewrite elem_of_dict_set by exact Hwf. rewrite elem_of_cons.
        split.
        -- intros [[[-> ->]|[_ Hin]]|[Hin Hfk]]; auto.
        -- intros [Hin|[[->|Hin] Hfk]]; auto.
           ++ destruct (String.eqb_spec k key) as [->|Hne]; auto.
              left. left. split; [reflexivity|].
              apply Hcons in Hin. congruence.
           ++ left. left. split; [reflexivity|congruence].
    + destruct (IH acc Hwf Hcons) as [Hwf' Hiff].
      split; [exact Hwf'|]. intros k x. rewrite Hiff, elem_of_cons.
      split; [tauto|].
      intros [Hin|[[->|Hin] Hfk]]; auto. congruence.
Qed.

(** C5, as amended.  [changed_settings] holds exactly the keys of the
    profile whose values at the two versions differ, each paired with
    both values; the difference is judged by the language's own
    equality of values.  Under that equality the order of a list
    matters and the order of the keys of a mapping does not. *)
Theorem changed_settings_exact (s : StoredProfile) (v1 v2 : string) :
  (forall (k : string) (old_val new_val : value),
      (k, (old_val, new_val)) ∈ changed_settings s v1 v2
      <-> k ∈ dict_keys (settings s)
          /\ old_val = get_at_version s k v1
          /\ new_val = get_at_version s k v2
          /\ pyeq old_val new_val = false)
  /\ (forall a b : value,
        pyeq a b = false -> pyeq (VList [a; b]) (VList [b; a]) = false)
  /\ (forall d d' : dict value,
        wf_dict d -> Permutation d d' ->
        (forall k v, (k, v) ∈ d -> pyeq v v = true) ->
        pyeq (VDict d) (VDict d') = true).
Proof.
  split; [|split].
  - intros k old_val new_val.
    set (f := fun key =>
                let o := get_at_version s key v1 in
                let n := get_at_version s key v2 in
                if negb (pyeq o n) then Some (o, n) else None).
    assert (Heq : changed_settings s v1 v2
                  = fold_left
                      (fun changes key =>
                         match f key with
                         | Some x => dict_set key x changes
                         | None => changes
                         end) (dict_keys (settings s)) []).
    { unfold changed_settings, f. apply fold_left_ext. intros changes key.
      destruct (negb (pyeq _ _)); reflexivity. }
    rewrite Heq.
    destruct (changed_fold f (dict_keys (settings s)) []) as [_ Hiff].
    + apply NoDup_nil_2.
    + intros k0 x Hin. now apply elem_of_nil in Hin.
    + rewrite Hiff, elem_of_nil. unfold f. split.
      * intros [[]|[Hin Hf]]. simpl in Hf.
        destruct (pyeq _ _) eqn:Hp; simpl in Hf; [discriminate|].
        injection Hf as <- <-. auto.
      * intros (Hin & -> & -> & Hp). right. split; [exact Hin|].
        simpl. now rewrite Hp.
  - intros a b Hab. simpl. now rewrite Hab.
  - apply pyeq_dict_perm.
Qed.

(** C5, as stated, fails: with the history [{1: True, 2: 1}] the two
    values have different canonical JSON texts, and [changed_settings]
    reports nothing, since [True == 1]. *)
Lemma changed_settings_not_canonical :
  let s :=
    mkStored "bambustudio" "filament" "Bambu ABS" "BBL" "1" "2" None None None
      [("flag", [("1", VBool true); ("2", VInt 1)])] in
  "flag" ∈ dict_keys (settings s)
  /\ Store._normalize (get_at_version s "flag" "1")
     <> Store._normalize (get_at_version s "flag" "2")
  /\ changed_settings s "1" "2" = [].
Proof.
  simpl. split; [|split].
  - apply elem_of_cons; auto.
  - vm_compute. discriminate.
  - reflexivity.
Qed.

End ModelsFacts.

(* --------------------------------------------------------------------- *)
(** ** The profile store *)
(* --------------------------------------------------------------------- *)

Module StoreFacts.
Import PyStr Versions Models Store Notions DictFacts VersionsFacts.

#[local] Arguments is_meta_key : simpl never.
#[local] Arguments _sanitize : simpl never.

(** A loop that sets one entry per kept item builds the dictionary of
    the kept items. *)
Lemma fold_dict_set_filter {B C : Type} (keep : string * B -> bool)
    (g : B -> C) (l : dict B) (acc : dict C) :
  fold_left
    (fun (acc : dict C) kv =>
       if keep kv then dict_set (fst kv) (g (snd kv)) acc else acc) l acc
  = dict_update acc
      (map (fun kv => (fst kv, g (snd kv))) (List.filter keep l)).
Proof.
  unfold dict_update.
  revert acc; induction l as [|kv l IH]; intros acc; simpl; [reflexivity|].
  destruct (keep kv); simpl; apply IH.
Qed.

Lemma wf_dict_filter_map {B C : Type} (keep : string * B -> bool)
    (g : B -> C) (l : dict B) :
  wf_dict l ->
  wf_dict (map (fun kv => (fst kv, g (snd kv))) (List.filter keep l)).
Proof.
  unfold wf_dict, dict_keys. rewrite map_map. simpl.
  induction l as [|kv l IH]; simpl; [auto|].
  rewrite NoDup_cons. intros [Hnotin Hnd].
  destruct (keep kv); simpl; [|auto].
  apply NoDup_cons. split; [|auto].
  intros Hin. apply Hnotin.
  apply list_elem_of_In, in_map_iff in Hin as (kv' & Heq & Hin).
  apply filter_In in Hin as [Hin _].
  apply list_elem_of_In, in_map_iff. eauto.
Qed.

(** The histories [_create_stored] builds: one entry, at the ingested
    version, for every setting that is not a metadata key. *)
Lemma create_stored_settings (p : ParsedProfile) (version : string) :
  wf_dict (p_settings p) ->
  settings (_create_stored p version)
  = map (fun kv => (fst kv, [(version, snd kv)]))
      (List.filter is_versioned (p_settings p)).
Proof.
  intros Hwf. unfold _create_stored. simpl.
  pose proof (fold_dict_set_filter is_versioned
                (fun v : value => [(version, v)]) (p_settings p) []) as H.
  cbv beta in H.
  etransitivity; [|etransitivity; [exact H|]].
  - apply fold_left_ext. intros acc kv. unfold is_versioned.
    destruct (is_meta_key (fst kv)); reflexivity.
  - apply (dict_copy_wf
             (map (fun kv => (fst kv, [(version, snd kv)]))
                (List.filter is_versioned (p_settings p)))).
    now apply (wf_dict_filter_map is_versioned (fun v => [(version, v)])).
Qed.

Lemma scan_found_single (version : string) (v : value) :
  scan_found (_version_key version) [(version, v)] = (v, true).
Proof. unfold scan_found. cbn [fold_left fst snd]. now rewrite tuple_leb_refl. Qed.

(** A snapshot at [version] of histories that all consist of the one
    entry at [version]. *)
Lemma evaluate_fresh (version : string) (l acc : dict value) :
  fold_left
    (fun snapshot (kv : string * dict value) =>
       let '(value, found) := scan_found (_version_key version) (snd kv) in
       if found then dict_set (fst kv) value snapshot else snapshot)
    (map (fun kv => (fst kv, [(version, snd kv)])) l) acc
  = dict_update acc l.
Proof.
  unfold dict_update.
  revert acc; induction l as [|kv l IH]; intros acc; [reflexivity|].
  cbn [map fold_left fst snd]. rewrite scan_found_single. apply IH.
Qed.

Lemma evaluate_create_stored (p : ParsedProfile) (version : string) :
  wf_dict (p_settings p) ->
  evaluate (_create_stored p version) version
  = List.filter is_versioned (p_settings p).
Proof.
  intros Hwf. unfold evaluate. rewrite create_stored_settings by exact Hwf.
  rewrite evaluate_fresh.
  apply (dict_copy_wf (List.filter is_versioned (p_settings p))).
  pose proof (wf_dict_filter_map is_versioned (fun v : value => v)
                (p_settings p) Hwf) as H.
  rewrite (map_ext _ id) in H by (intros []; reflexivity).
  now rewrite map_id in H.
Qed.

Lemma wf_rewrite_settings (resource_map : dict string) (l : dict value) :
  wf_dict l -> wf_dict (Resources.rewrite_settings resource_map l).
Proof.
  unfold Resources.rewrite_settings.
  generalize Resources.RESOURCE_SETTING_KEYS as keys.
  intros keys; revert l; induction keys as [|key keys IH]; intros l Hwf;
    simpl; [exact Hwf|].
  apply IH.
  destruct (dict_get key l) as [[| | |s| |]|]; try exact Hwf.
  destruct (negb (String.eqb s EmptyString)); try exact Hwf.
  destruct (dict_get s resource_map); try exact Hwf.
  now apply wf_dict_set.
Qed.

(** Ingesting one profile into the empty store saves the profile that
    [_create_stored] builds. *)
Lemma ingest_into_empty (slicer : SlicerType) (version : string)
    (p : ParsedProfile) :
  get (fst (ingest_profiles empty_store slicer version [p]))
    (p_slicer p) (profile_type_value (p_profile_type p)) (p_vendor p)
    (p_name p)
  = Some (_create_stored p version).
Proof.
  unfold ingest_profiles, get, _load. simpl.
  unfold ingest_step, _load. simpl. rewrite lookup_empty.
  destruct (_extract_renamed_from (p_settings p)) as [old_name|];
    [destruct (negb (String.eqb old_name EmptyString))|];
    simpl; try rewrite lookup_empty; simpl;
    apply lookup_insert_eq.
Qed.

(** C1, as amended.  Ingesting a profile, after its resource references
    were rewritten, at version [V] into the empty store and evaluating
    the stored profile at [V] gives back the settings of the profile
    without the metadata key [renamed_from], in their order. *)
Theorem ingest_evaluate_round_trip (p : ParsedProfile)
    (resource_map : dict string) (slicer : SlicerType) (V : string) :
  wf_dict (p_settings p) ->
  let p' := Resources.rewrite_profile resource_map p in
  exists sp,
    get (fst (ingest_profiles empty_store slicer V [p']))
      (p_slicer p') (profile_type_value (p_profile_type p')) (p_vendor p')
      (p_name p') = Some sp
    /\ evaluate sp V = List.filter is_versioned (p_settings p').
Proof.
  intros Hwf p'. exists (_create_stored p' V). split.
  - apply ingest_into_empty.
  - apply evaluate_create_stored. simpl. now apply wf_rewrite_settings.
Qed.

Lemma ingest_evaluate_round_trip_witness :
  let p :=
    mkParsed BAMBUSTUDIO MACHINE "Bambu Lab X1" "BBL"
      [("bed_model", VStr "x1.stl"); ("nozzle_diameter", VList [VStr "0.4"])]
      None None None None in
  exists sp,
    get (fst (ingest_profiles empty_store BAMBUSTUDIO "01.00.00"
                [Resources.rewrite_profile [("x1.stl", "ab12")] p]))
      BAMBUSTUDIO "machine" "BBL" "Bambu Lab X1" = Some sp
    /\ evaluate sp "01.00.00"
       = [("bed_model", VStr "sha256:ab12");
          ("nozzle_diameter", VList [VStr "0.4"])].
Proof.
  intros p.
  apply (ingest_evaluate_round_trip p [("x1.stl", "ab12")] BAMBUSTUDIO
           "01.00.00").
  (* the keys of [p] are pairwise distinct *)
  unfold wf_dict. simpl. apply (bool_decide_unpack _). vm_compute. exact I.
Defined.

(** C1, as stated, fails: a profile that carries [renamed_from] does not
    get that key back from [evaluate]. *)
Lemma round_trip_drops_renamed_from :
  let p :=
    mkParsed BAMBUSTUDIO FILAMENT "Bambu ABS Pro" "BBL"
      [("renamed_from", VStr "Bambu ABS"); ("nozzle_temperature", VInt 285)]
      None None None None in
  Resources.rewrite_profile [] p = p
  /\ exists sp,
       get (fst (ingest_profiles empty_store BAMBUSTUDIO "03.00.00" [p]))
         BAMBUSTUDIO "filament" "BBL" "Bambu ABS Pro" = Some sp
       /\ evaluate sp "03.00.00" = [("nozzle_temperature", VInt 285)]
       /\ pyeq (VDict (evaluate sp "03.00.00")) (VDict (p_settings p)) = false.
Proof.
  intros p. split; [reflexivity|].
  exists (_create_stored p "03.00.00"). split; [|split].
  - apply (ingest_into_empty BAMBUSTUDIO "03.00.00" p).
  - reflexivity.
  - reflexivity.
Qed.

(** C2 fails on the code.  After a release [2.3.0] and a nightly build
    recorded as [nightly-2026-01-01], whose key [(0, 2026, 1, 1)] is
    below that of [2.3.0], [get_at_version] at [2.3.0] returns the
    nightly value: the last entry at most the request, not the entry at
    the greatest version at most the request, which is [2.3.0] itself. *)
Theorem get_at_version_after_nightly :
  let release :=
    mkParsed ORCASLICER FILAMENT "Generic PLA" "OrcaFilamentLibrary"
      [("nozzle_temperature", VInt 210)] None None None None in
  let nightly :=
    mkParsed ORCASLICER FILAMENT "Generic PLA" "OrcaFilamentLibrary"
      [("nozzle_temperature", VInt 220)] None None None None in
  let store1 := fst (ingest_profiles empty_store ORCASLICER "2.3.0" [release]) in
  let store2 :=
    fst (ingest_profiles store1 ORCASLICER "nightly-2026-01-01" [nightly]) in
  exists sp history,
    get store2 ORCASLICER "filament" "OrcaFilamentLibrary" "Generic PLA"
    = Some sp
    /\ dict_get "nozzle_temperature" (settings sp) = Some history
    /\ history = [("2.3.0", VInt 210); ("nightly-2026-01-01", VInt 220)]
    /\ get_at_version sp "nozzle_temperature" "2.3.0" = VInt 220
    /\ greatest_at_most history "2.3.0" "2.3.0" (VInt 210)
    /\ forall ver, ~ greatest_at_most history "2.3.0" ver (VInt 220).
Proof.
  intros release nightly store1 store2.
  eexists. eexists. split; [vm_compute; reflexivity|].
  split; [reflexivity|]. split; [reflexivity|]. split; [reflexivity|]. split.
  - split; [apply elem_of_cons; auto|]. split; [reflexivity|].
    intros ver' val' Hin _.
    apply elem_of_cons in Hin as [[= -> ->]|Hin]; [reflexivity|].
    apply list_elem_of_singleton in Hin as [= -> ->]. reflexivity.
  - intros ver (Hin & _ & Hmax).
    assert (Hver : ver = "nightly-2026-01-01").
    { apply elem_of_cons in Hin as [Heq|Hin]; [discriminate Heq|].
      apply list_elem_of_singleton in Hin. now injection Hin. }
    subst ver. specialize (Hmax "2.3.0" (VInt 210)).
    assert (Hfalse : tuple_leb (_version_key "2.3.0")
                       (_version_key "nightly-2026-01-01") = false)
      by reflexivity.
    rewrite Hmax in Hfalse; [discriminate|apply elem_of_cons; auto|
                              reflexivity].
Qed.

(** Looking a key up among the versioned settings. *)
Lemma dict_get_versioned {C : Type} (g : value -> C) (k : string)
    (l : dict value) :
  dict_get k (map (fun kv => (fst kv, g (snd kv))) (List.filter is_versioned l))
  = if is_meta_key k then None else option_map g (dict_get k l).
Proof.
  induction l as [|[k0 v0] l IH]; simpl.
  - destruct (is_meta_key k); reflexivity.
  - unfold is_versioned at 1. simpl.
    destruct (String.eqb_spec k k0) as [->|Hne].
    + destruct (is_meta_key k0) eqn:Hmeta; simpl.
      * exact IH.
      * now rewrite String.eqb_refl.
    + destruct (is_meta_key k0); simpl; [exact IH|].
      destruct (String.eqb_spec k k0); [contradiction|exact IH].
Qed.








(** [_merge_version] changes neither the slicer, the type, the vendor
    nor the name of a profile. *)
Lemma merge_version_path (stored : StoredProfile) (p : ParsedProfile)
    (version : string) :
  stored_path (fst (_merge_version stored p version)) = stored_path stored.
Proof.
  unfold _merge_version.
  set (stored0 := mkStored _ _ _ _ _ _ _ _ _ _).
  assert (H0 : stored_path (fst (stored0, @nil string)) = stored_path stored)
    by reflexivity.
  revert H0. generalize (stored0, @nil string) as acc.
  induction (p_settings p) as [|kv l IH]; intros acc Hacc; [exact Hacc|].
  cbn [fold_left]. apply IH.
  destruct acc as [cur changed]. cbn [fst] in *.
  destruct (is_meta_key (fst kv)); [exact Hacc|].
  destruct (negb _); [|exact Hacc]. exact Hacc.
Qed.








Lemma empty_store_consistent : store_consistent empty_store.
Proof. intros path sp Hlook. cbn in Hlook. now rewrite lookup_empty in Hlook. Qed.




(** The store scenarios of the specification, run on the model: a
    single ingestion, a second version of the same profile, and a
    rename. *)
Example scenario_store :
  let abs_1 :=
    mkParsed BAMBUSTUDIO FILAMENT "Bambu ABS" "BBL"
      [("nozzle_temperature", VInt 270); ("filament_type", VStr "ABS")]
      None None None None in
  let abs_2 :=
    mkParsed BAMBUSTUDIO FILAMENT "Bambu ABS" "BBL"
      [("nozzle_temperature", VInt 280); ("filament_type", VStr "ABS")]
      None None None None in
  let abs_pro :=
    mkParsed BAMBUSTUDIO FILAMENT "Bambu ABS Pro" "BBL"
      [("renamed_from", VStr "Bambu ABS"); ("nozzle_temperature", VInt 285);
       ("filament_type", VStr "ABS")]
      None None None None in
  let r1 := ingest_profiles empty_store BAMBUSTUDIO "01.00.00" [abs_1] in
  let r2 := ingest_profiles (fst r1) BAMBUSTUDIO "02.00.00" [abs_2] in
  let r3 := ingest_profiles (fst r2) BAMBUSTUDIO "03.00.00" [abs_pro] in
  r_added (snd r1) = ["Bambu ABS"]
  /\ r_changed (snd r1) = []
  /\ r_changed (snd r2) = [("Bambu ABS", ["nozzle_temperature"])]
  /\ option_map (fun sp => changed_settings sp "01.00.00" "02.00.00")
       (get (fst r2) BAMBUSTUDIO "filament" "BBL" "Bambu ABS")
     = Some [("nozzle_temperature", (VInt 270, VInt 280))]
  /\ get (fst r3) BAMBUSTUDIO "filament" "BBL" "Bambu ABS" = None
  /\ option_map
       (fun sp =>
          (first_seen sp, renamed_from sp,
           dict_get "nozzle_temperature" (settings sp)))
       (get (fst r3) BAMBUSTUDIO "filament" "BBL" "Bambu ABS Pro")
     = Some ("01.00.00", Some "Bambu ABS",
             Some [("01.00.00", VInt 270); ("02.00.00", VInt 280);
                   ("03.00.00", VInt 285)])
  /\ get_versions (fst r3) BAMBUSTUDIO = ["01.00.00"; "02.00.00"; "03.00.00"].
Proof. vm_compute. repeat split. Qed.

End StoreFacts.

(* --------------------------------------------------------------------- *)
(** ** The resource store *)
(* --------------------------------------------------------------------- *)

Module ResourcesFacts.
Import PyStr Resources Notions DictFacts.

#[local] Arguments entry_file : simpl never.

(** The entries that stay in the manifest. *)
#[local] Abbreviation referenced_entry R :=
  (fun kv : string * ManifestEntry => bool_decide (fst kv ∈ R)).

#[local] Abbreviation unreferenced R :=
  (fun h : string => negb (bool_decide (h ∈ R))).

Lemma get_path_delete (files : gmap string string)
    (manifest : dict ManifestEntry) (disk : option (dict ManifestEntry))
    (h : string) (e : ManifestEntry) :
  dict_get h manifest = Some e ->
  match get_path (mkResources files manifest disk) h with
  | Some path => delete path files
  | None => files
  end = delete (entry_file h e) files.
Proof.
  intros Hget. unfold get_path. cbn [_manifest res_files]. rewrite Hget.
  destruct (files !! entry_file h e) eqn:Hfile; [reflexivity|].
  symmetry. now apply delete_id.
Qed.

(** The loop of [gc], from any point of the walk over the manifest:
    [done] are the entries already visited, [rest] those still ahead. *)
Lemma gc_fold (R : gset string) (rest done : dict ManifestEntry)
    (files : gmap string string) (disk : option (dict ManifestEntry))
    (removed : list string) :
  wf_dict (done ++ rest) ->
  fold_left (gc_step R) (dict_keys rest)
    (mkResources files (List.filter (referenced_entry R) done ++ rest) disk,
     removed)
  = (mkResources (gc_files R rest files)
       (List.filter (referenced_entry R) done
          ++ List.filter (referenced_entry R) rest) disk,
     removed ++ List.filter (unreferenced R) (dict_keys rest)).
Proof.
  revert done files removed.
  induction rest as [|[h e] rest IH]; intros done files removed Hwf.
  - cbn. now rewrite !app_nil_r.
  - assert (Hwf' : wf_dict ((done ++ [(h, e)]) ++ rest))
      by now rewrite <- app_assoc.
    assert (Hfresh : (h ∉ dict_keys (List.filter (referenced_entry R) done))
                     /\ (h ∉ dict_keys rest)).
    { unfold wf_dict, dict_keys in Hwf. rewrite map_app in Hwf.
      apply NoDup_app in Hwf as (_ & Hdisj & Hnd).
      cbn in Hnd. apply NoDup_cons in Hnd as [Hrest _].
      split; [|exact Hrest].
      intros Hin. apply (Hdisj h); [|apply elem_of_cons; auto].
      apply list_elem_of_In, in_map_iff in Hin as (kv & <- & Hin).
      apply filter_In in Hin as [Hin _].
      apply list_elem_of_In, in_map_iff. eauto. }
    destruct Hfresh as [Hfresh_done Hfresh_rest].
    cbn [dict_keys map fst fold_left]. unfold gc_step at 2.
    cbn [List.filter fst]. unfold gc_files. cbn [fold_left fst snd].
    fold (gc_files R rest).
    destruct (bool_decide (h ∈ R)) eqn:Href.
    + pose proof (IH (done ++ [(h, e)]) files removed Hwf') as H.
      rewrite List.filter_app in H. cbn [List.filter fst] in H.
      rewrite Href in H. rewrite <- !app_assoc in H. cbn [app] in H.
      cbn [negb]. exact H.
    + pose proof (IH (done ++ [(h, e)]) (delete (entry_file h e) files)
                    (removed ++ [h]) Hwf') as H.
      rewrite List.filter_app in H. cbn [List.filter fst] in H.
      rewrite Href in H. rewrite !app_nil_r in H.
      cbn [negb].
      rewrite (get_path_delete files _ disk h e).
      2:{ rewrite dict_get_app.
          replace (dict_get h (List.filter (referenced_entry R) done))
            with (@None ManifestEntry)
            by (symmetry; now apply dict_get_None).
          cbn. now rewrite String.eqb_refl. }
      cbn [_manifest manifest_on_disk].
      rewrite dict_del_app, (dict_del_notin h _ Hfresh_done).
      cbn [dict_del]. rewrite String.eqb_refl.
      rewrite (dict_del_notin h rest Hfresh_rest).
      etransitivity; [exact H|]. now rewrite <- app_assoc.
Qed.

(** What [gc] leaves: the referenced entries, the files not pointed to
    by an unreferenced entry, and the unreferenced hashes as its
    result. *)
Lemma gc_result (self : ResourceStore) (R : gset string) :
  wf_dict (_manifest self) ->
  res_files (fst (gc self R)) = gc_files R (_manifest self) (res_files self)
  /\ _manifest (fst (gc self R))
     = List.filter (referenced_entry R) (_manifest self)
  /\ snd (gc self R)
     = List.filter (unreferenced R) (dict_keys (_manifest self)).
Proof.
  intros Hwf. destruct self as [files manifest disk].
  cbn [_manifest res_files] in *. unfold gc. cbn [_manifest].
  pose proof (gc_fold R manifest [] files disk [] Hwf) as Hfold.
  cbn [List.filter app] in Hfold. rewrite Hfold.
  destruct (List.filter (unreferenced R) (dict_keys manifest)); cbn; auto.
Qed.

Lemma gc_files_lookup (R : gset string) (manifest : dict ManifestEntry)
    (files : gmap string string) (f : string) :
  gc_files R manifest files !! f
  = if existsb
         (fun kv => negb (bool_decide (fst kv ∈ R))
                    && String.eqb f (entry_file (fst kv) (snd kv)))
         manifest
    then None else files !! f.
Proof.
  unfold gc_files.
  revert files; induction manifest as [|[h e] manifest IH]; intros files;
    [reflexivity|].
  cbn [fold_left existsb fst snd]. rewrite IH.
  destruct (bool_decide (h ∈ R)); cbn [negb andb orb]; [reflexivity|].
  destruct (String.eqb_spec f (entry_file h e)) as [->|Hne]; cbn [orb].
  - rewrite lookup_delete_eq. now destruct (existsb _ _).
  - rewrite lookup_delete_ne by congruence. reflexivity.
Qed.

(** A hexadecimal hash is recovered from the file name [{hash}.{ext}]. *)
Lemma hex_prefix_inj (h1 h2 t1 t2 : string) :
  is_hex h1 = true -> is_hex h2 = true ->
  (h1 ++ String "." t1)%string = (h2 ++ String "." t2)%string -> h1 = h2.
Proof.
  revert h2; induction h1 as [|c h1 IH]; intros [|c2 h2]; cbn;
    intros H1 H2 Heq.
  - reflexivity.
  - injection Heq as <- _. discriminate.
  - injection Heq as -> _. discriminate.
  - apply andb_prop in H1 as [_ H1], H2 as [_ H2].
    injection Heq as -> Heq. f_equal. eauto.
Qed.

Lemma entry_file_inj (h1 h2 : string) (e1 e2 : ManifestEntry) :
  is_hex h1 = true -> is_hex h2 = true ->
  entry_file h1 e1 = entry_file h2 e2 -> h1 = h2.
Proof. unfold entry_file. cbn. apply hex_prefix_inj. Qed.

(** C8, as amended.  For a manifest keyed by hexadecimal hashes, when
    every binary file in the resource directory is the file some
    manifest entry points to: after [gc(R)] every remaining file is the
    file of a remaining entry whose hash is in [R]; an entry whose hash
    is in [R] stays, and so does its file; the manifest afterwards is
    the manifest restricted to the hashes in [R], the result lists the
    other hashes in manifest order, and the file each of them pointed to
    is gone. *)
Theorem gc_sound (self : ResourceStore) (R : gset string) :
  wf_dict (_manifest self) ->
  Forall (fun h => is_hex h = true) (dict_keys (_manifest self)) ->
  files_tracked self ->
  (forall f,
      is_Some (res_files (fst (gc self R)) !! f) ->
      exists h e,
        h ∈ R /\ dict_get h (_manifest (fst (gc self R))) = Some e
        /\ f = entry_file h e /\ file_of_hash f h)
  /\ (forall h e,
        h ∈ R -> dict_get h (_manifest self) = Some e ->
        dict_get h (_manifest (fst (gc self R))) = Some e
        /\ res_files (fst (gc self R)) !! entry_file h e
           = res_files self !! entry_file h e)
  /\ _manifest (fst (gc self R))
     = List.filter (referenced_entry R) (_manifest self)
  /\ snd (gc self R)
     = List.filter (unreferenced R) (dict_keys (_manifest self))
  /\ (forall h e,
        h ∉ R -> dict_get h (_manifest self) = Some e ->
        dict_get h (_manifest (fst (gc self R))) = None
        /\ res_files (fst (gc self R)) !! entry_file h e = None).
Proof.
  intros Hwf Hhex Htracked.
  destruct (gc_result self R Hwf) as (Hfiles & Hmanifest & Hremoved).
  rewrite Hfiles, Hmanifest, Hremoved.
  assert (Hkeep : forall h,
             dict_get h (List.filter (referenced_entry R) (_manifest self))
             = if bool_decide (h ∈ R) then dict_get h (_manifest self)
               else None).
  { intros h.
    exact (dict_get_filter_key (fun h0 : string => bool_decide (h0 ∈ R)) h
             (_manifest self)). }
  assert (Hunref : forall h e f,
             h ∉ R -> dict_get h (_manifest self) = Some e ->
             f = entry_file h e ->
             existsb
               (fun kv => negb (bool_decide (fst kv ∈ R))
                          && String.eqb f (entry_file (fst kv) (snd kv)))
               (_manifest self) = true).
  { intros h e f Hnot Hget ->. apply existsb_exists. exists (h, e).
    split; [apply list_elem_of_In; now apply dict_get_elem_of|].
    cbn [fst snd]. rewrite bool_decide_eq_false_2 by exact Hnot.
    now rewrite String.eqb_refl. }
  split; [|split; [|split; [|split]]]; try reflexivity.
  - intros f Hsome. rewrite gc_files_lookup in Hsome.
    destruct (existsb _ _) eqn:Hex; [now destruct Hsome as [? [=]]|].
    destruct (Htracked f Hsome) as (h & e & Hget & ->).
    destruct (decide (h ∈ R)) as [Hin|Hnot].
    + exists h, e. rewrite Hkeep, bool_decide_eq_true_2 by exact Hin.
      repeat split; auto. exists (type e). reflexivity.
    + rewrite (Hunref h e _ Hnot Hget eq_refl) in Hex. discriminate.
  - intros h e Hin Hget. rewrite Hkeep, bool_decide_eq_true_2 by exact Hin.
    split; [exact Hget|]. rewrite gc_files_lookup.
    destruct (existsb _ _) eqn:Hex; [|reflexivity].
    apply existsb_exists in Hex as ([h' e'] & Hin' & Hcond).
    cbn [fst snd] in Hcond. apply andb_prop in Hcond as [Hnot Heq].
    apply String.eqb_eq in Heq.
    rewrite Forall_forall in Hhex.
    apply entry_file_inj in Heq.
    + subst h'. rewrite bool_decide_eq_true_2 in Hnot by exact Hin.
      discriminate.
    + apply Hhex, elem_of_dict_keys. exists e. now apply dict_get_elem_of.
    + apply Hhex, elem_of_dict_keys. exists e'. now apply list_elem_of_In.
  - intros h e Hnot Hget. rewrite Hkeep, bool_decide_eq_false_2 by exact Hnot.
    split; [reflexivity|]. rewrite gc_files_lookup.
    now rewrite (Hunref h e _ Hnot Hget eq_refl).
Qed.

Lemma gc_sound_witness :
  let self :=
    mkResources
      (<["ab12.stl" := "solid"]> (<["cd34.png" := "image"]> ∅))
      [("ab12", mkEntry "bed.stl" 5 "stl");
       ("cd34", mkEntry "logo.png" 5 "png")]
      None in
  let R : gset string := {["ab12"]} in
  _manifest (fst (gc self R)) = [("ab12", mkEntry "bed.stl" 5 "stl")]
  /\ snd (gc self R) = ["cd34"]
  /\ res_files (fst (gc self R)) !! "ab12.stl" = Some "solid"
  /\ res_files (fst (gc self R)) !! "cd34.png" = None.
Proof.
  intros self R.
  destruct (gc_sound self R) as (_ & Hkept & Hmanifest & Hremoved & Hgone).
  - unfold wf_dict. simpl. apply (bool_decide_unpack _). vm_compute. exact I.
  - repeat constructor.
  - intros f [c Hc]. cbn [res_files self] in Hc.
    apply lookup_insert_Some in Hc as [[<- _]|[_ Hc]].
    + exists "ab12", (mkEntry "bed.stl" 5 "stl"). split; reflexivity.
    + apply lookup_insert_Some in Hc as [[<- _]|[_ Hc]].
      * exists "cd34", (mkEntry "logo.png" 5 "png"). split; reflexivity.
      * now rewrite lookup_empty in Hc.
  - split; [rewrite Hmanifest; vm_compute; reflexivity|].
    split; [rewrite Hremoved; vm_compute; reflexivity|]. split.
    + destruct (Hkept "ab12" (mkEntry "bed.stl" 5 "stl")) as [_ Hfile];
        [apply elem_of_singleton; reflexivity|reflexivity|].
      etransitivity; [exact Hfile|]. vm_compute. reflexivity.
    + destruct (Hgone "cd34" (mkEntry "logo.png" 5 "png")) as [_ Hfile];
        [|reflexivity|exact Hfile].
      intros Hin. apply elem_of_singleton in Hin. discriminate.
Defined.

Lemma append_inj_l (h a b : string) :
  (h ++ a)%string = (h ++ b)%string -> a = b.
Proof.
  induction h as [|c h IH]; cbn; [auto|]. intros [= Heq]. auto.
Qed.

(** Two files with the same bytes and different extensions, stored one
    after the other, share one manifest entry; [gc] follows that entry
    to the second file and leaves the first in the directory, whatever
    the digest of the bytes is. *)
Lemma store_same_bytes_gc (sha256_hex : string -> string) (content : string) :
  let s1 := fst (store sha256_hex (mkResources ∅ [] None) "bed.stl" content) in
  let s2 := fst (store sha256_hex s1 "bed.png" content) in
  res_files (fst (gc s2 ∅)) !! (sha256_hex content ++ ".stl")%string
  = Some content
  /\ _manifest (fst (gc s2 ∅)) = [].
Proof.
  intros s1 s2.
  assert (Hwf : wf_dict (_manifest s2)).
  { unfold s2, s1, store. cbn [_manifest fst dict_set].
    rewrite String.eqb_refl. unfold wf_dict. cbn.
    apply NoDup_singleton. }
  destruct (gc_result s2 ∅ Hwf) as (Hfiles & Hmanifest & _).
  rewrite Hfiles, Hmanifest.
  unfold s2, s1, store. cbn [_manifest res_files fst dict_set].
  rewrite String.eqb_refl.
  change (lower (path_suffix "bed.stl")) with ".stl".
  change (lower (path_suffix "bed.png")) with ".png".
  rewrite lookup_empty.
  assert (Hne : (sha256_hex content ++ ".stl")%string
                <> (sha256_hex content ++ ".png")%string).
  { intros Heq. apply append_inj_l in Heq. discriminate. }
  rewrite lookup_insert_ne by exact Hne. rewrite lookup_empty.
  split; [|reflexivity].
  rewrite gc_files_lookup. cbn [existsb fst snd]. unfold entry_file.
  cbn [type lower lstrip]. 
  change (lower (lstrip is_dot (path_suffix "bed.png"))) with "png".
  change ("." ++ "png")%string with ".png".
  destruct (String.eqb_spec (sha256_hex content ++ ".stl")
              (sha256_hex content ++ ".png")) as [Heq|_];
    [contradiction|].
  rewrite andb_false_r. cbn [orb].
  rewrite lookup_insert_ne by congruence. apply lookup_insert_eq.
Qed.

(** C8, as stated, fails: after [gc] with nothing referenced, the first
    of two stored files with the same bytes is still in the directory.
    The digest of the common bytes is written [ab12]. *)
Lemma gc_leaves_untracked_file :
  let digest := fun _ : string => "ab12" in
  let s1 := fst (store digest (mkResources ∅ [] None) "bed.stl" "solid") in
  let s2 := fst (store digest s1 "bed.png" "solid") in
  let R : gset string := ∅ in
  is_Some (res_files (fst (gc s2 R)) !! "ab12.stl")
  /\ ~ exists h, h ∈ R /\ file_of_hash "ab12.stl" h.
Proof.
  intros digest s1 s2 R. split.
  - exists "solid".
    apply (store_same_bytes_gc (fun _ => "ab12") "solid").
  - intros (h & Hin & _). now apply elem_of_empty in Hin.
Qed.

End ResourcesFacts.

(* --------------------------------------------------------------------- *)
(** ** The condition evaluator *)
(* --------------------------------------------------------------------- *)

Module ConditionsFacts.
Import PyStr Conditions Notions.

Lemma lstrip_blank (s : string) : blank s = true -> lstrip is_space s = EmptyString.
Proof.
  induction s as [|c s IH]; cbn; [reflexivity|].
  intros H. apply andb_prop in H as [-> H]. auto.
Qed.

Lemma strip_blank (s : string) : blank s = true -> strip s = EmptyString.
Proof. intros H. unfold strip, strip_chars. now rewrite lstrip_blank. Qed.

Lemma rstrip_keeps_head (p : ascii -> bool) (c : ascii) (s : string) :
  p c = false -> rstrip p (String c s) <> EmptyString.
Proof. intros Hc. cbn. destruct (rstrip p s); [rewrite Hc|]; discriminate. Qed.

Lemma lstrip_finds (p : ascii -> bool) (c : ascii) (s : string) :
  p c = false -> count_char c s <> 0 ->
  exists c' s', lstrip p s = String c' s' /\ p c' = false.
Proof.
  intros Hc. induction s as [|a s IH]; cbn; [congruence|].
  destruct (p a) eqn:Ha; [|eauto].
  destruct (Ascii.eqb_spec a c) as [->|_]; [congruence|]. exact IH.
Qed.

(** A string holding a character that is not whitespace does not strip
    to the empty string. *)
Lemma strip_nonblank (c : ascii) (s : string) :
  is_space c = false -> count_char c s <> 0 -> strip s <> EmptyString.
Proof.
  intros Hc Hcount. unfold strip, strip_chars.
  destruct (lstrip_finds is_space c s Hc Hcount) as (c' & s' & -> & Hc').
  now apply rstrip_keeps_head.
Qed.

Lemma contains_char (c : ascii) (s : string) :
  contains (String c EmptyString) s = negb (count_char c s =? 0)%nat.
Proof.
  induction s as [|a s IH]; [reflexivity|].
  cbn [contains startswith count_char]. rewrite IH, (Ascii.eqb_sym c a).
  destruct (Ascii.eqb a c); cbn; [reflexivity|].
  now destruct (count_char c s).
Qed.



(** Counting a character over the pieces of a string. *)
Lemma count_char_append (c : ascii) (a b : string) :
  count_char c (a ++ b) = count_char c a + count_char c b.
Proof.
  induction a as [|x a IH]; [reflexivity|].
  change (count_char c (String x a ++ b))
    with ((if Ascii.eqb x c then 1 else 0) + count_char c (a ++ b)).
  rewrite IH. cbn [count_char]. lia.
Qed.

Lemma take_drop (n : nat) (s : string) : (take n s ++ drop n s)%string = s.
Proof.
  revert s; induction n as [|n IH]; intros [|c s]; try reflexivity.
  change (String c (take n s ++ drop n s) = String c s).
  f_equal. apply IH.
Qed.

Lemma count_char_take_drop (c : ascii) (n : nat) (s : string) :
  count_char c s = count_char c (take n s) + count_char c (drop n s).
Proof. now rewrite <- count_char_append, take_drop. Qed.

Lemma count_char_length (c : ascii) (s : string) :
  count_char c s <= String.length s.
Proof.
  induction s as [|x s IH]; cbn; [lia|]. destruct (Ascii.eqb x c); lia.
Qed.

Lemma drop_drop (a b : nat) (s : string) : drop a (drop b s) = drop (a + b) s.
Proof.
  revert a s; induction b as [|b IH]; intros a s.
  - now rewrite Nat.add_0_r.
  - rewrite Nat.add_succ_r. destruct s as [|c s]; cbn.
    + now destruct a.
    + apply IH.
Qed.

Lemma drop_step (n : nat) (s : string) (c : ascii) (r : string) :
  drop n s = String c r -> drop (S n) s = r.
Proof.
  revert s; induction n as [|n IH]; intros [|x s]; cbn; try discriminate.
  - now intros [= _ ->].
  - apply IH.
Qed.

Lemma code_inj (c : ascii) (n : nat) : code c = n -> c = ascii_of_nat n.
Proof. intros <-. unfold code. now rewrite ascii_nat_embedding. Qed.

(** The pair [_find_first_parenthesis_set] returns: the first index
    holds an opening parenthesis and lies before the second. *)
Lemma find_paren_loop_spec (whole : string) (rest : string) :
  forall (idx : nat) (depth : Z) (is_in_regex : bool) (start_idx : nat)
         (s e : nat),
    drop idx whole = rest ->
    ((1 <= depth)%Z ->
     start_idx < idx /\ exists t, drop start_idx whole = String "(" t) ->
    find_paren_loop whole idx depth is_in_regex start_idx rest = Some (s, e) ->
    s < e /\ exists t, drop s whole = String "(" t.
Proof.
  induction rest as [|char rest IH];
    intros idx depth is_in_regex start_idx s e Hdrop Hinv; [discriminate|].
  pose proof (drop_step idx whole char rest Hdrop) as Hnext.
  cbn [find_paren_loop].
  set (regex := if is_slash char then _ else _). clearbody regex.
  destruct regex.
  { apply IH; [exact Hnext|].
    intros Hd. destruct (Hinv Hd) as [Hlt Hopen]. split; [lia|exact Hopen]. }
  destruct (Nat.eqb_spec (code char) 40) as [Hopen|_].
  { apply IH; [exact Hnext|]. intros Hd.
    destruct (Z.eqb_spec depth 0) as [->|Hne].
    - split; [lia|]. exists rest. rewrite Hdrop. f_equal.
      now apply code_inj in Hopen.
    - destruct Hinv as [Hlt Ho]; [lia|]. split; [lia|exact Ho]. }
  destruct (Nat.eqb_spec (code char) 41) as [_|_].
  { destruct (Z.eqb_spec (depth - 1) 0) as [Hone|Hne].
    - intros [= <- <-]. destruct Hinv as [Hlt Ho]; [lia|]. auto.
    - apply IH; [exact Hnext|]. intros Hd.
      destruct Hinv as [Hlt Ho]; [lia|]. split; [lia|exact Ho]. }
  apply IH; [exact Hnext|].
  intros Hd. destruct (Hinv Hd) as [Hlt Ho]. split; [lia|exact Ho].
Qed.

Lemma find_first_spec (c : string) (s e : nat) :
  _find_first_parenthesis_set c = Some (s, e) ->
  s < e /\ exists t, drop s c = String "(" t.
Proof.
  unfold _find_first_parenthesis_set.
  apply find_paren_loop_spec; [reflexivity|]. intros Hd. lia.
Qed.

(** Replacing a found group by a text without parentheses, and looking
    inside the group, both lower the number of opening parentheses. *)
Lemma splice_fewer_opens (c text : string) (s e : nat) :
  _find_first_parenthesis_set c = Some (s, e) ->
  count_char "(" text = 0 ->
  count_char "(" (take s c ++ text ++ drop (e + 1) c) < count_char "(" c
  /\ count_char "(" (take (e - (s + 1)) (drop (s + 1) c)) < count_char "(" c.
Proof.
  intros Hfind Htext.
  destruct (find_first_spec c s e Hfind) as (Hlt & t & Ht).
  pose proof (count_char_take_drop "(" s c) as Hsplit.
  rewrite Ht in Hsplit. cbn [count_char] in Hsplit.
  change (Ascii.eqb "(" "(") with true in Hsplit. cbv iota in Hsplit.
  assert (Htail : drop (s + 1) c = t).
  { rewrite Nat.add_1_r. eapply drop_step, Ht. }
  split.
  - rewrite !count_char_append, Htext.
    replace (e + 1) with ((e - s) + (s + 1)) by lia.
    rewrite <- drop_drop, Htail.
    pose proof (count_char_take_drop "(" (e - s) t). lia.
  - rewrite Htail.
    pose proof (count_char_take_drop "(" (e - (s + 1)) t). lia.
Qed.

Section Runtime.
Variable F : Type.
Variable py_float : value -> result F.
Variables float_ge float_le float_gt float_lt : F -> F -> bool.
Variable repr_container : value -> string.
Variable re_match : string -> string -> result bool.

Section Loop.
Variable get_value : string -> result value.

#[local] Abbreviation term :=
  (eval_term F py_float float_ge float_le float_gt float_lt repr_container
     re_match get_value).
#[local] Abbreviation terms :=
  (eval_terms F py_float float_ge float_le float_gt float_lt repr_container
     re_match get_value).
#[local] Abbreviation flat :=
  (eval_flat F py_float float_ge float_le float_gt float_lt repr_container
     re_match get_value).

(** One round of the loop. *)
Lemma eval_terms_cons (all_and all_or : bool) (ops : list logic_op)
    (idx : nat) (prev : option bool) (part : string) (parts : list string) :
  terms all_and all_or ops idx prev (part :: parts)
  = match term part with
    | Ok ret =>
        if all_and && negb ret then Ok (VBool false)
        else if all_or && ret then Ok (VBool true)
        else
          match prev with
          | None => terms all_and all_or ops (S idx) (Some ret) parts
          | Some prev =>
              match nth_error ops (idx - 1) with
              | None => Raise IndexError
              | Some OpAnd =>
                  terms all_and all_or ops (S idx) (Some (prev && ret)) parts
              | Some OpOr =>
                  terms all_and all_or ops (S idx) (Some (prev || ret)) parts
              end
          end
    | Raise e => Raise e
    | OutOfFuel => OutOfFuel
    end.
Proof. reflexivity. Qed.







(** Without parentheses [_evaluate_expression] is the loop over the
    terms. *)
Lemma expression_without_parentheses (fuel : nat) (condition : string) :
  count_char "(" condition = 0 -> count_char ")" condition = 0 ->
  _evaluate_expression F py_float float_ge float_le float_gt float_lt
    repr_container re_match get_value (S fuel) condition
  = flat condition.
Proof.
  intros Hopen Hclose. cbn [_evaluate_expression].
  change "("%string with (String "("%char EmptyString).
  change ")"%string with (String ")"%char EmptyString).
  rewrite !contains_char, Hopen, Hclose. reflexivity.
Qed.


End Loop.

#[local] Abbreviation single :=
  (_evaluate_single_condition F py_float float_ge float_le float_gt float_lt
     repr_container re_match).
#[local] Abbreviation evaluate :=
  (evaluate_printer_condition F py_float float_ge float_le float_gt float_lt
     repr_container re_match).

(** C10.  An empty condition, and one of whitespace only, evaluates to
    false: for every configuration, defaults and slicer, none of which
    is looked at, and no exception is raised. *)
Theorem blank_condition_false (condition : string)
    (printer_data : dict value) (slicer : string)
    (defaults : option (dict value)) :
  blank condition = true ->
  evaluate condition printer_data slicer defaults = Ok (VBool false).
Proof.
  intros Hblank. unfold evaluate_printer_condition.
  rewrite (strip_blank condition Hblank). cbn [String.eqb].
  now rewrite orb_true_r.
Qed.

(** A condition whose numbers of opening and closing parentheses differ
    is rejected. *)
Lemma unequal_counts_raise (condition : string) (printer_data : dict value)
    (slicer : string) (defaults : option (dict value)) :
  count_char "(" condition <> count_char ")" condition ->
  evaluate condition printer_data slicer defaults = Raise unmatched.
Proof.
  intros Hcount. unfold evaluate_printer_condition.
  assert (Hparen : count_char "(" condition <> 0
                   \/ count_char ")" condition <> 0) by lia.
  assert (Hstrip : strip condition <> EmptyString).
  { destruct Hparen as [H|H]; eapply strip_nonblank; try exact H;
      reflexivity. }
  assert (Hne : condition <> EmptyString).
  { intros ->. apply Hstrip. reflexivity. }
  apply String.eqb_neq in Hstrip, Hne. rewrite Hstrip, Hne. cbn [orb].
  cbn [_evaluate_expression].
  change "("%string with (String "("%char EmptyString).
  change ")"%string with (String ")"%char EmptyString).
  rewrite !contains_char.
  destruct (Nat.eqb_spec (count_char "(" condition) 0) as [Hopen|Hopen];
    cbn [negb].
  - destruct (Nat.eqb_spec (count_char ")" condition) 0); [lia|reflexivity].
  - destruct (Nat.eqb_spec (count_char "(" condition)
                (count_char ")" condition)); [contradiction|reflexivity].
Qed.

(** C7, as amended.  A condition whose numbers of opening and closing
    parentheses differ raises the parse error.  A single comparison that
    is not one of the literals evaluates to false, without raising, when
    splitting it on its operator does not give two operands, when its
    variable is undefined (compared or on its own), and, for an ordering
    operator, when the conversion of either side to a number fails with
    [ValueError] or [TypeError]. *)
Theorem malformed_condition_outcome :
  (forall condition printer_data slicer defaults,
      count_char "(" condition <> count_char ")" condition ->
      evaluate condition printer_data slicer defaults = Raise unmatched)
  /\ (forall (get_value : string -> result value) (condition : string),
        let c := strip condition in
        lower c <> "true" -> lower c <> "false" ->
        (forall operator,
            find (fun op => contains op c) _OPERATORS = Some operator ->
            length (split_str operator c) <> 2 ->
            single get_value condition = Ok false)
        /\ (forall operator config_key check_value,
              find (fun op => contains op c) _OPERATORS = Some operator ->
              split_str operator c = [config_key; check_value] ->
              get_value (strip config_key) = Ok VNone ->
              single get_value condition = Ok false)
        /\ (find (fun op => contains op c) _OPERATORS = None ->
            get_value c = Ok VNone ->
            single get_value condition = Ok false)
        /\ (forall operator config_key check_value config_value,
              find (fun op => contains op c) _OPERATORS = Some operator ->
              operator ∈ [">="; "<="; ">"; "<"] ->
              split_str operator c = [config_key; check_value] ->
              get_value (strip config_key) = Ok config_value ->
              not_a_number (py_float config_value)
              \/ ((exists lhs, py_float config_value = Ok lhs)
                  /\ not_a_number (py_float (VStr (strip check_value)))) ->
              single get_value condition = Ok false)).
Proof.
  split; [exact unequal_counts_raise|].
  intros get_value condition c Htrue Hfalse.
  apply String.eqb_neq in Htrue, Hfalse.
  unfold _evaluate_single_condition. fold c. rewrite Htrue, Hfalse.
  split; [|split; [|split]].
  - intros operator -> Hlen.
    destruct (split_str operator c) as [|a [|b [|x l]]]; try reflexivity.
    now contradiction Hlen.
  - intros operator config_key check_value -> -> Hget. now rewrite Hget.
  - intros -> Hget. now rewrite Hget.
  - intros operator config_key check_value config_value -> Hop -> Hget Hnum.
    rewrite Hget. cbn [mbind result_bind].
    assert (Hpair : float_pair F py_float config_value check_value = Ok None).
    { unfold float_pair.
      destruct Hnum as [[[msg ->]| ->]|[[lhs ->] [[msg ->]| ->]]];
        reflexivity. }
    destruct config_value; try reflexivity;
      repeat (apply elem_of_cons in Hop as [->|Hop];
              [cbn; rewrite Hpair; reflexivity|]);
      now apply elem_of_nil in Hop.
Qed.

(** *** Termination

    The evaluator always comes to a result: the recursion bound it is
    run with, the length of the condition plus one, is never used up,
    provided the interpreter's own operations return. *)
Section Termination.
Hypothesis py_float_returns : forall v, py_float v <> OutOfFuel.
Hypothesis re_match_returns : forall p s, re_match p s <> OutOfFuel.

Section WithLookup.
Variable get_value : string -> result value.
Hypothesis get_value_returns : forall key, get_value key <> OutOfFuel.

#[local] Abbreviation term' :=
  (eval_term F py_float float_ge float_le float_gt float_lt repr_container
     re_match get_value).
#[local] Abbreviation terms' :=
  (eval_terms F py_float float_ge float_le float_gt float_lt repr_container
     re_match get_value).
#[local] Abbreviation flat' :=
  (eval_flat F py_float float_ge float_le float_gt float_lt repr_container
     re_match get_value).
#[local] Abbreviation expression :=
  (_evaluate_expression F py_float float_ge float_le float_gt float_lt
     repr_container re_match get_value).

Ltac absurd_fuel :=
  match goal with
  | H : get_value _ = OutOfFuel |- _ =>
      exfalso; exact (get_value_returns _ H)
  | H : re_match _ _ = OutOfFuel |- _ =>
      exfalso; exact (re_match_returns _ _ H)
  | H : py_float _ = OutOfFuel |- _ =>
      exfalso; exact (py_float_returns _ H)
  end.

Ltac split_cases :=
  repeat match goal with
         | |- context [match ?x with _ => _ end] => destruct x eqn:?
         end;
  try discriminate; try absurd_fuel.

Lemma float_pair_returns (config_value : value) (check_value : string) :
  float_pair F py_float config_value check_value <> OutOfFuel.
Proof. unfold float_pair. split_cases. Qed.

Lemma single_returns (condition : string) :
  single get_value condition <> OutOfFuel.
Proof.
  unfold _evaluate_single_condition, mbind, result_bind.
  pose proof float_pair_returns as Hpair.
  destruct (String.eqb (lower (strip condition)) "true"); [discriminate|].
  destruct (String.eqb (lower (strip condition)) "false"); [discriminate|].
  destruct (find _ _) as [operator|].
  - destruct (split_str operator (strip condition)) as [|k [|v [|x l]]];
      try discriminate.
    destruct (get_value (strip k)) as [cv| |] eqn:Hget;
      [|discriminate|absurd_fuel].
    destruct cv; try discriminate;
      repeat match goal with
             | |- context [if ?b then _ else _] => destruct b
             end;
      try discriminate;
      try (destruct (re_match _ _) eqn:?; try discriminate; absurd_fuel);
      (destruct (float_pair F py_float _ v) as [[[lhs rhs]|]| |] eqn:Hfp;
       [| | |exfalso; exact (Hpair _ _ Hfp)]; discriminate).
  - destruct (get_value (strip condition)) eqn:Hget; try discriminate.
    absurd_fuel.
Qed.

Lemma term_returns (part : string) : term' part <> OutOfFuel.
Proof.
  unfold eval_term, mbind, result_bind.
  destruct (startswith "! " (strip part));
    [destruct (single get_value _) eqn:Hs|]; try discriminate;
    try (exfalso; exact (single_returns _ Hs)).
  apply single_returns.
Qed.

Lemma terms_returns (parts : list string) :
  forall all_and all_or ops idx prev,
    terms' all_and all_or ops idx prev parts <> OutOfFuel.
Proof.
  induction parts as [|part parts IH]; intros all_and all_or ops idx prev.
  - discriminate.
  - rewrite eval_terms_cons.
    destruct (term' part) as [ret| |] eqn:Hterm;
      [|discriminate|exfalso; exact (term_returns _ Hterm)].
    destruct (all_and && negb ret); [discriminate|].
    destruct (all_or && ret); [discriminate|].
    destruct prev as [prev|]; [|apply IH].
    destruct (nth_error ops (idx - 1)) as [[|]|]; try apply IH.
    discriminate.
Qed.

(** The result of the loop is a boolean or [None], whose text holds no
    parenthesis. *)
Lemma terms_text (parts : list string) :
  forall all_and all_or ops idx prev v,
    terms' all_and all_or ops idx prev parts = Ok v ->
    count_char "(" (py_str repr_container v) = 0.
Proof.
  induction parts as [|part parts IH];
    intros all_and all_or ops idx prev v.
  - cbn [eval_terms]. intros [= <-]. now destruct prev as [[|]|].
  - rewrite eval_terms_cons.
    destruct (term' part) as [ret| |]; try discriminate.
    destruct (all_and && negb ret); [now intros [= <-]|].
    destruct (all_or && ret); [now intros [= <-]|].
    destruct prev as [prev|]; [|apply IH].
    destruct (nth_error ops (idx - 1)) as [[|]|]; try apply IH.
    discriminate.
Qed.

Lemma paren_loop_returns (rec : string -> result value) (f : nat) :
  (forall c, count_char "(" c < f -> rec c <> OutOfFuel) ->
  (forall c v, rec c = Ok v -> count_char "(" (py_str repr_container v) = 0) ->
  forall n c,
    count_char "(" c <= n -> count_char "(" c <= f ->
    paren_loop repr_container rec n c <> OutOfFuel.
Proof.
  intros Hrec Htext.
  induction n as [|n IH]; intros c Hn Hf; cbn [paren_loop];
    destruct (_find_first_parenthesis_set c) as [[s e]|] eqn:Hfind;
    try discriminate.
  - destruct (splice_fewer_opens c EmptyString s e Hfind eq_refl). lia.
  - unfold mbind, result_bind.
    destruct (rec (take (e - (s + 1)) (drop (s + 1) c))) as [v| |] eqn:Hinner.
    + destruct (splice_fewer_opens c (py_str repr_container v) s e Hfind)
        as [Hless _]; [eapply Htext, Hinner|].
      apply IH; lia.
    + discriminate.
    + destruct (splice_fewer_opens c EmptyString s e Hfind eq_refl)
        as [_ Hless].
      exfalso.
      apply (Hrec (take (e - (s + 1)) (drop (s + 1) c))); [lia|exact Hinner].
Qed.

Lemma expression_text (fuel : nat) (c : string) (v : value) :
  expression fuel c = Ok v -> count_char "(" (py_str repr_container v) = 0.
Proof.
  destruct fuel as [|fuel]; [discriminate|].
  cbn [_evaluate_expression]. unfold mbind, result_bind.
  match goal with
  | |- match ?x with _ => _ end = _ -> _ => destruct x; try discriminate
  end.
  unfold eval_flat. apply terms_text.
Qed.

Lemma expression_returns (fuel : nat) :
  forall c, count_char "(" c < fuel -> expression fuel c <> OutOfFuel.
Proof.
  induction fuel as [|fuel IH]; intros c Hfuel; [lia|].
  cbn [_evaluate_expression]. unfold mbind, result_bind.
  assert (Hflat : forall c', flat' c' <> OutOfFuel)
    by (intros c'; unfold eval_flat; apply terms_returns).
  destruct (contains "(" c).
  - destruct (negb _); [discriminate|].
    pose proof (paren_loop_returns (expression fuel) fuel IH
                  (expression_text fuel) fuel c ltac:(lia) ltac:(lia))
      as Hloop.
    destruct (paren_loop _ _ _ _) as [c'| |];
      [apply Hflat|discriminate|contradiction].
  - destruct (contains ")" c); [discriminate|apply Hflat].
Qed.

End WithLookup.

Lemma split_list_value_returns (v : value) :
  split_list_value v <> OutOfFuel.
Proof. destruct v; discriminate. Qed.

Lemma py_index_returns (v : value) (i : nat) : py_index v i <> OutOfFuel.
Proof.
  destruct v as [| | |s|l|d]; cbn [py_index]; try discriminate.
  - destruct (String.get i s); discriminate.
  - destruct (nth_error l i); discriminate.
Qed.

Lemma get_plain_returns (merged_data : dict value) (slicer key : string) :
  get_plain merged_data slicer key <> OutOfFuel.
Proof.
  unfold get_plain, mbind, result_bind.
  destruct (var_fullmatch key) as [[k [ds|]]|]; try discriminate;
    destruct (dict_get k merged_data) as [v|]; try discriminate.
  - destruct (String.eqb slicer "prusaslicer"); [|apply py_index_returns].
    pose proof (split_list_value_returns v) as Hsplit.
    destruct (split_list_value v);
      [apply py_index_returns|discriminate|contradiction].
  - destruct v as [| | | |[|x [|y l]]|]; try discriminate.
    destruct (negb _); discriminate.
Qed.

Lemma get_value_from_config_returns (merged_data : dict value)
    (slicer key : string) :
  get_value_from_config merged_data slicer key <> OutOfFuel.
Proof.
  unfold get_value_from_config, mbind, result_bind.
  destruct (var_fullmatch key) as [[k index]|]; [|discriminate].
  destruct (dict_mem k merged_data); [apply get_plain_returns|].
  destruct (String.eqb key "num_extruders"); [|discriminate].
  pose proof (get_plain_returns merged_data slicer "extruders_count") as H1.
  pose proof (get_plain_returns merged_data slicer "nozzle_diameter") as H2.
  destruct (get_plain merged_data slicer "extruders_count") as [ec| |];
    [|discriminate|contradiction].
  destruct ec; try discriminate.
  destruct (get_plain merged_data slicer "nozzle_diameter") as [nd| |];
    [|discriminate|contradiction].
  pose proof (split_list_value_returns nd) as H3.
  destruct nd; try discriminate;
    destruct (split_list_value _); try discriminate; contradiction.
Qed.

(** [evaluate_printer_condition] returns a value or raises; the bound of
    its model is never reached. *)
Theorem evaluate_returns (condition : string) (printer_data : dict value)
    (slicer : string) (defaults : option (dict value)) :
  evaluate condition printer_data slicer defaults <> OutOfFuel.
Proof.
  unfold evaluate_printer_condition.
  destruct (_ || _); [discriminate|].
  apply expression_returns.
  - apply get_value_from_config_returns.
  - pose proof (count_char_length "(" condition). lia.
Qed.

End Termination.
End Runtime.


Lemma blank_condition_false_witness :
  evaluate_printer_condition Z int_float Z.geb Z.leb Z.gtb Z.ltb no_repr
    prefix_match "   " [("nozzle_diameter", VList [VStr "0.4"])]
    "bambustudio" None
  = Ok (VBool false).
Proof.
  apply (blank_condition_false Z int_float Z.geb Z.leb Z.gtb Z.ltb no_repr
           prefix_match "   " [("nozzle_diameter", VList [VStr "0.4"])]
           "bambustudio" None).
  reflexivity.
Defined.

Lemma malformed_condition_outcome_witness :
  let run := evaluate_printer_condition Z int_float Z.geb Z.leb Z.gtb Z.ltb
               no_repr prefix_match in
  let test := _evaluate_single_condition Z int_float Z.geb Z.leb Z.gtb
                Z.ltb no_repr prefix_match in
  let get_value := fun key : string =>
    if String.eqb key "layer_height" then Ok (VStr "thick") else Ok VNone in
  run "(a == 1" [] "bambustudio" None = Raise unmatched
  /\ test get_value "a == 1 == 2" = Ok false
  /\ test get_value "missing == 1" = Ok false
  /\ test get_value "missing" = Ok false
  /\ test get_value "layer_height >= 2" = Ok false.
Proof.
  intros run test get_value.
  destruct (malformed_condition_outcome Z int_float Z.geb Z.leb Z.gtb Z.ltb
              no_repr prefix_match) as [Hparen Hsingle].
  split; [apply Hparen; vm_compute; lia|].
  split; [|split; [|split]].
  - destruct (Hsingle get_value "a == 1 == 2") as (H & _);
      [vm_compute; discriminate|vm_compute; discriminate|].
    apply (H "=="); [vm_compute; reflexivity|vm_compute; lia].
  - destruct (Hsingle get_value "missing == 1") as (_ & H & _);
      [vm_compute; discriminate|vm_compute; discriminate|].
    apply (H "==" "missing " " 1"); vm_compute; reflexivity.
  - destruct (Hsingle get_value "missing") as (_ & _ & H & _);
      [vm_compute; discriminate|vm_compute; discriminate|].
    apply H; vm_compute; reflexivity.
  - destruct (Hsingle get_value "layer_height >= 2") as (_ & _ & _ & H);
      [vm_compute; discriminate|vm_compute; discriminate|].
    apply (H ">=" "layer_height " " 2" (VStr "thick"));
      try (vm_compute; reflexivity).
    + apply elem_of_cons; auto.
    + left. left. exists "could not convert string to float".
      vm_compute. reflexivity.
Defined.

(** C7, as stated, fails: in [)(] the parentheses are not balanced, the
    two counts are equal, and the evaluator answers false instead of
    raising, whatever the interpreter's operations are. *)
Lemma unbalanced_not_rejected :
  balanced ")(" = false
  /\ forall (F : Type) (py_float : value -> result F)
        (float_ge float_le float_gt float_lt : F -> F -> bool)
        (repr_container : value -> string)
        (re_match : string -> string -> result bool)
        (printer_data : dict value) (slicer : string)
        (defaults : option (dict value)),
      evaluate_printer_condition F py_float float_ge float_le float_gt
        float_lt repr_container re_match ")(" printer_data slicer defaults
      = Ok (VBool false).
Proof.
  split; [reflexivity|]. intros. reflexivity.
Qed.

(** Two ways a comparison raises instead of answering false, outside
    the cases of C7 as amended: an index past the end of a list value,
    and whatever the regular-expression engine raises on its pattern. *)
Lemma index_past_end_raises :
  forall (F : Type) (py_float : value -> result F)
    (float_ge float_le float_gt float_lt : F -> F -> bool)
    (repr_container : value -> string)
    (re_match : string -> string -> result bool),
    evaluate_printer_condition F py_float float_ge float_le float_gt
      float_lt repr_container re_match "nozzle_diameter[1] == 0.4"
      [("nozzle_diameter", VList [VStr "0.4"])] "bambustudio" None
    = Raise IndexError.
Proof. intros. reflexivity. Qed.

Lemma regex_error_raises :
  forall (F : Type) (py_float : value -> result F)
    (float_ge float_le float_gt float_lt : F -> F -> bool)
    (repr_container : value -> string)
    (re_match : string -> string -> result bool),
    re_match "[" "X1" = Raise ReError ->
    evaluate_printer_condition F py_float float_ge float_le float_gt
      float_lt repr_container re_match "printer_model =~ /[/"
      [("printer_model", VStr "X1")] "bambustudio" None
    = Raise ReError.
Proof.
  intros F py_float ge le gt lt rc re_match Hre.
  vm_compute. vm_compute in Hre. rewrite Hre. reflexivity.
Qed.

(** The condition scenario of the specification, run on the small
    instance (the nozzle diameters as texts, the pattern as a prefix). *)
Example scenario_condition :
  let run := evaluate_printer_condition Z int_float Z.geb Z.leb Z.gtb Z.ltb
               no_repr prefix_match in
  let condition :=
    "(nozzle_diameter[0] == 0.4 and printer_model =~ /X1/) or printer_settings_id == test" in
  let printer (diameter id : string) :=
    [("nozzle_diameter", VList [VStr diameter]);
     ("printer_model", VStr "X1 Carbon");
     ("printer_settings_id", VStr id)] in
  run condition (printer "0.4" "other") "bambustudio" None = Ok (VBool true)
  /\ run condition (printer "0.6" "other") "bambustudio" None
     = Ok (VBool false)
  /\ run condition (printer "0.6" "test") "bambustudio" None
     = Ok (VBool true).
Proof. vm_compute. repeat split. Qed.

End ConditionsFacts.

(* --------------------------------------------------------------------- *)
(** ** Snapshots and single queries of a stored profile *)
(* --------------------------------------------------------------------- *)

Module SnapshotFacts.
Import PyStr Versions Models Notions Values DictFacts VersionsFacts.
Import ModelsFacts.

(** Whether a history has an entry at or below the target. *)
Lemma scan_found_fold (target : list Z) (versions : dict value)
    (acc : value * bool) :
  fold_left
    (fun st vv =>
       if tuple_leb (_version_key (fst vv)) target then (snd vv, true)
       else st)
    versions acc
  = (fold_left
       (fun result vv =>
          if tuple_leb (_version_key (fst vv)) target then snd vv
          else result)
       versions (fst acc),
     snd acc
     || existsb (fun vv => tuple_leb (entry_key vv) target) versions).
Proof.
  revert acc; induction versions as [|vv l IH]; intros [v b]; simpl.
  - now rewrite orb_false_r.
  - rewrite IH. unfold entry_key.
    destruct (tuple_leb (_version_key (fst vv)) target); simpl.
    + now rewrite orb_true_r.
    + reflexivity.
Qed.

Lemma scan_found_spec (target : list Z) (versions : dict value) :
  scan_found target versions
  = (scan_versions target versions,
     existsb (fun vv => tuple_leb (entry_key vv) target) versions).
Proof. unfold scan_found, scan_versions. now rewrite scan_found_fold. Qed.

Lemma scan_versions_nil (target : list Z) (versions : dict value) :
  existsb (fun vv => tuple_leb (entry_key vv) target) versions = false ->
  scan_versions target versions = VNone.
Proof.
  intros H. rewrite scan_versions_last.
  replace (List.filter _ versions) with (@nil (string * value));
    [reflexivity|].
  symmetry. induction versions as [|vv l IH]; [reflexivity|].
  simpl in *. apply orb_false_iff in H as [-> H]. auto.
Qed.

(** The result of a scan is an entry of the history, or [None]. *)
Lemma scan_versions_elem (target : list Z) (versions : dict value) :
  scan_versions target versions = VNone
  \/ exists ver, (ver, scan_versions target versions) ∈ versions.
Proof.
  rewrite scan_versions_last.
  set (l := List.filter _ versions).
  destruct l as [|vv l'] eqn:E; [now left|right].
  assert (Hin : List.last (vv :: l') (EmptyString, VNone) ∈ l).
  { rewrite E. apply last_elem_of. discriminate. }
  change VNone with (snd (EmptyString, VNone)). rewrite last_map.
  exists (fst (List.last (vv :: l') (EmptyString, VNone))).
  rewrite <- surjective_pairing.
  apply list_elem_of_In in Hin. unfold l in Hin.
  apply filter_In in Hin as [Hin _]. now apply list_elem_of_In.
Qed.

(** The entries of a snapshot. *)
Lemma evaluate_fold (target : list Z) (l : dict (dict value))
    (acc : dict value) (k : string) :
  wf_dict l ->
  dict_get k
    (fold_left
       (fun snapshot kv =>
          let '(value, found) := scan_found target (snd kv) in
          if found then dict_set (fst kv) value snapshot else snapshot)
       l acc)
  = match dict_get k l with
    | Some h =>
        if existsb (fun vv => tuple_leb (entry_key vv) target) h
        then Some (scan_versions target h)
        else dict_get k acc
    | None => dict_get k acc
    end.
Proof.
  revert acc; induction l as [|[k0 h0] l IH]; intros acc Hwf;
    [reflexivity|].
  apply NoDup_cons in Hwf as [Hk0 Hwf]. simpl.
  rewrite (IH _ Hwf), scan_found_spec.
  destruct (String.eqb_spec k k0) as [->|Hne].
  - assert (dict_get k0 l = None) as -> by now apply dict_get_None.
    destruct (existsb _ h0); [|reflexivity].
    now rewrite dict_get_dict_set, String.eqb_refl.
  - destruct (existsb _ h0); [|reflexivity].
    rewrite dict_get_dict_set.
    apply String.eqb_neq in Hne. now rewrite Hne.
Qed.

Lemma evaluate_get (s : StoredProfile) (version k : string) :
  wf_dict (settings s) ->
  dict_get k (evaluate s version)
  = match dict_get k (settings s) with
    | Some h =>
        if existsb
             (fun vv => tuple_leb (entry_key vv) (_version_key version)) h
        then Some (scan_versions (_version_key version) h)
        else None
    | None => None
    end.
Proof.
  intros Hwf. unfold evaluate. rewrite (evaluate_fold _ _ _ _ Hwf).
  destruct (dict_get k (settings s)) as [h|]; [|reflexivity].
  now destruct (existsb _ h).
Qed.

Lemma evaluate_value (s : StoredProfile) (version k : string) (v : value) :
  wf_dict (settings s) ->
  dict_get k (evaluate s version) = Some v ->
  get_at_version s k version = v.
Proof.
  intros Hwf. rewrite (evaluate_get _ _ _ Hwf). unfold get_at_version.
  destruct (dict_get k (settings s)) as [h|]; [|discriminate].
  destruct (existsb _ h) eqn:E; [|discriminate].
  intros [= <-]. destruct h; [discriminate|reflexivity].
Qed.

Lemma evaluate_keys (s : StoredProfile) (version k : string) :
  wf_dict (settings s) ->
  k ∈ dict_keys (evaluate s version)
  <-> exists h ver val,
        dict_get k (settings s) = Some h
        /\ (ver, val) ∈ h
        /\ tuple_leb (_version_key ver) (_version_key version) = true.
Proof.
  intros Hwf.
  assert (Hmem : k ∈ dict_keys (evaluate s version)
                 <-> is_Some (dict_get k (evaluate s version))).
  { destruct (dict_get k (evaluate s version)) eqn:E.
    - split; [eauto|intros _].
      apply elem_of_dict_keys. eauto using dict_get_elem_of.
    - split; [|intros [? [=]]].
      intros Hin. now apply dict_get_None in E. }
  rewrite Hmem, (evaluate_get _ _ _ Hwf).
  destruct (dict_get k (settings s)) as [h|].
  + destruct (existsb _ h) eqn:E.
    * split; [intros _|eauto].
      apply existsb_exists in E as [[ver val] [Hin Hle]].
      exists h, ver, val. split; [reflexivity|].
      split; [now apply list_elem_of_In|exact Hle].
    * split; [intros [? [=]]|].
      intros (h' & ver & val & [= <-] & Hin & Hle).
      assert (existsb
                (fun vv => tuple_leb (entry_key vv) (_version_key version))
                h = true) as E'.
      { apply existsb_exists. exists (ver, val).
        split; [now apply list_elem_of_In|exact Hle]. }
      congruence.
  + split; [intros [? [=]]|]. intros (h' & _ & _ & [=] & _).
Qed.

(** X1.  A snapshot agrees with the single queries: every entry of
    [evaluate(version)] is what [get_at_version] returns for its key at
    that version, and a key has an entry exactly if a version at or
    below the requested one is recorded for it. *)
Theorem evaluate_agrees_with_get_at_version
    (s : StoredProfile) (version : string) :
  wf_dict (settings s) ->
  (forall k v,
      dict_get k (evaluate s version) = Some v ->
      get_at_version s k version = v)
  /\ (forall k,
        k ∈ dict_keys (evaluate s version)
        <-> exists h ver val,
              dict_get k (settings s) = Some h
              /\ (ver, val) ∈ h
              /\ tuple_leb (_version_key ver) (_version_key version)
                 = true).
Proof.
  intros Hwf. split.
  - intros k v. now apply evaluate_value.
  - intros k. now apply evaluate_keys.
Qed.

Lemma evaluate_agrees_with_get_at_version_witness :
  let s :=
    mkStored "orcaslicer" "filament" "Generic PLA" "OrcaFilamentLibrary"
      "1.0" "2.0" None None None
      [("nozzle_temperature", [("1.0", VInt 210); ("2.0", VInt 215)]);
       ("fan_speed", [("2.0", VInt 80)])] in
  dict_get "nozzle_temperature" (evaluate s "1.5") = Some (VInt 210)
  /\ get_at_version s "nozzle_temperature" "1.5" = VInt 210.
Proof.
  intros s.
  assert (Hwf : wf_dict (settings s)).
  { unfold wf_dict. simpl. apply (bool_decide_unpack _). vm_compute.
    exact I. }
  split; [reflexivity|].
  apply (proj1 (evaluate_agrees_with_get_at_version s "1.5" Hwf)
           "nozzle_temperature" (VInt 210)).
  reflexivity.
Defined.

(** X2.  Snapshots grow with the version: a key present in the
    snapshot at one version is present in the snapshot at every version
    that is not lower. *)
Theorem evaluate_keys_monotone (s : StoredProfile) (v1 v2 k : string) :
  wf_dict (settings s) ->
  tuple_leb (_version_key v1) (_version_key v2) = true ->
  k ∈ dict_keys (evaluate s v1) -> k ∈ dict_keys (evaluate s v2).
Proof.
  intros Hwf Hle Hin.
  apply (evaluate_keys _ _ _ Hwf) in Hin.
  destruct Hin as (h & ver & val & Hh & Hv & Hle1).
  apply (evaluate_keys _ _ _ Hwf).
  exists h, ver, val. split; [exact Hh|]. split; [exact Hv|].
  exact (tuple_leb_trans _ _ _ Hle1 Hle).
Qed.

Lemma evaluate_keys_monotone_witness :
  let s :=
    mkStored "orcaslicer" "filament" "Generic PLA" "OrcaFilamentLibrary"
      "1.0" "2.0" None None None
      [("nozzle_temperature", [("1.0", VInt 210); ("2.0", VInt 215)]);
       ("fan_speed", [("2.0", VInt 80)])] in
  "nozzle_temperature" ∈ dict_keys (evaluate s "1.0")
  /\ "nozzle_temperature" ∈ dict_keys (evaluate s "1.9.3").
Proof.
  intros s.
  assert (Hwf : wf_dict (settings s)).
  { unfold wf_dict. simpl. apply (bool_decide_unpack _). vm_compute.
    exact I. }
  assert (Hin : "nozzle_temperature" ∈ dict_keys (evaluate s "1.0")).
  { apply (bool_decide_unpack _). vm_compute. exact I. }
  split; [exact Hin|].
  apply (evaluate_keys_monotone s "1.0" "1.9.3" "nozzle_temperature" Hwf);
    [reflexivity|exact Hin].
Defined.

Lemma filter_all {A : Type} (f : A -> bool) (l : list A) :
  (forall x, x ∈ l -> f x = true) -> List.filter f l = l.
Proof.
  induction l as [|x l IH]; intros H; [reflexivity|]. simpl.
  rewrite (H x) by apply list_elem_of_here.
  f_equal. apply IH. intros y Hy. apply H. now apply list_elem_of_further.
Qed.

(** X3.  The two ends of a history: a request at or above every
    recorded version returns the latest value, as [get_latest] does,
    and a request below every recorded version returns [None]. *)
Theorem get_at_version_extremes
    (s : StoredProfile) (k version : string) (h : dict value) :
  dict_get k (settings s) = Some h ->
  ((forall ver val,
       (ver, val) ∈ h ->
       tuple_leb (_version_key ver) (_version_key version) = true) ->
   get_at_version s k version = get_latest s k)
  /\ ((forall ver val,
         (ver, val) ∈ h ->
         tuple_leb (_version_key ver) (_version_key version) = false) ->
      get_at_version s k version = VNone).
Proof.
  intros Hh. unfold get_at_version, get_latest. rewrite Hh. split.
  - intros Hall. destruct h as [|vv h']; [reflexivity|].
    rewrite scan_versions_last, filter_all; [reflexivity|].
    intros [ver val] Hin. exact (Hall ver val Hin).
  - intros Hnone. destruct h as [|vv h']; [reflexivity|].
    apply scan_versions_nil.
    destruct (existsb _ (vv :: h')) eqn:E; [|reflexivity].
    apply existsb_exists in E as [[ver val] [Hin Hle]].
    apply list_elem_of_In in Hin.
    specialize (Hnone ver val Hin). unfold entry_key in Hle. simpl in Hle.
    congruence.
Qed.

Lemma get_at_version_extremes_witness :
  let s :=
    mkStored "orcaslicer" "filament" "Generic PLA" "OrcaFilamentLibrary"
      "1.0" "2.0" None None None
      [("nozzle_temperature", [("2.0", VInt 215); ("1.0", VInt 210)])] in
  get_at_version s "nozzle_temperature" "3.0" = VInt 210
  /\ get_at_version s "nozzle_temperature" "0.9" = VNone.
Proof.
  intros s.
  pose proof (get_at_version_extremes s "nozzle_temperature" "3.0"
                [("2.0", VInt 215); ("1.0", VInt 210)] eq_refl) as [H3 _].
  pose proof (get_at_version_extremes s "nozzle_temperature" "0.9"
                [("2.0", VInt 215); ("1.0", VInt 210)] eq_refl) as [_ H0].
  split.
  - rewrite H3; [reflexivity|].
    intros ver val Hin. apply list_elem_of_In in Hin.
    destruct Hin as [[= <- <-]|[[= <- <-]|[]]]; reflexivity.
  - apply H0.
    intros ver val Hin. apply list_elem_of_In in Hin.
    destruct Hin as [[= <- <-]|[[= <- <-]|[]]]; reflexivity.
Defined.

(** Equality of a well-formed value with itself. *)
Lemma pyeq_list_refl (l : list value) :
  Forall (fun v => pyeq v v = true) l -> pyeq (VList l) (VList l) = true.
Proof.
  induction 1 as [|x l Hx _ IH]; [reflexivity|].
  simpl in *. now rewrite Hx, IH.
Qed.

Lemma wf_value_list (l : list value) :
  wf_value (VList l) <-> Forall wf_value l.
Proof.
  induction l as [|x l IH]; [split; [constructor|exact (fun _ => I)]|].
  split.
  - intros [Hx Hl]. constructor; [exact Hx|]. now apply IH.
  - intros H. apply Forall_cons_1 in H as [Hx Hl]. split; [exact Hx|].
    now apply IH.
Qed.

Lemma wf_value_dict (d : dict value) :
  wf_value (VDict d) <-> wf_dict d /\ Forall (fun kv => wf_value (snd kv)) d.
Proof.
  simpl. apply and_iff_compat_l.
  induction d as [|kv d IH]; [split; [constructor|exact (fun _ => I)]|].
  split.
  - intros [Hx Hd]. constructor; [exact Hx|]. now apply IH.
  - intros H. apply Forall_cons_1 in H as [Hx Hd]. split; [exact Hx|].
    now apply IH.
Qed.

Lemma pyeq_refl (v : value) : wf_value v -> pyeq v v = true.
Proof.
  induction v as [| b | z | s | l IH | d IH] using value_ind_nested.
  - reflexivity.
  - intros _. simpl. now destruct b.
  - intros _. simpl. apply Z.eqb_refl.
  - intros _. simpl. apply String.eqb_refl.
  - intros Hwf. apply wf_value_list in Hwf. apply pyeq_list_refl.
    rewrite Forall_forall in IH, Hwf. apply Forall_forall.
    intros x Hx. exact (IH _ Hx (Hwf _ Hx)).
  - intros Hwf. apply wf_value_dict in Hwf as [Hd Hv].
    apply pyeq_dict_perm; [exact Hd|reflexivity|].
    intros k v Hin.
    rewrite Forall_forall in IH, Hv.
    exact (IH _ Hin (Hv _ Hin)).
Qed.

(** X4.  No change between a version and itself: [changed_settings]
    with the same version on both sides is empty. *)
Theorem changed_settings_same_version (s : StoredProfile) (version : string) :
  wf_histories s -> changed_settings s version version = [].
Proof.
  intros Hwf. unfold changed_settings.
  assert (Hrefl : forall k,
             pyeq (get_at_version s k version) (get_at_version s k version)
             = true).
  { intros k. apply pyeq_refl. unfold get_at_version.
    destruct (dict_get k (settings s)) as [h|] eqn:Hh; [|exact I].
    destruct h as [|vv h']; [exact I|].
    destruct (scan_versions_elem (_version_key version) (vv :: h'))
      as [->|[ver Hin]]; [exact I|].
    exact (Hwf k _ _ _ (dict_get_elem_of _ _ _ Hh) Hin). }
  induction (dict_keys (settings s)) as [|k l IH]; [reflexivity|].
  simpl. now rewrite Hrefl.
Qed.

Lemma changed_settings_same_version_witness :
  changed_settings
    (mkStored "orcaslicer" "filament" "Generic PLA" "OrcaFilamentLibrary"
       "1.0" "2.0" None None None
       [("nozzle_temperature", [("1.0", VInt 210); ("2.0", VInt 215)]);
        ("compatible_printers",
         [("2.0", VList [VStr "A1"; VDict [("nozzle", VStr "0.4")]])])])
    "2.0" "2.0" = [].
Proof.
  apply changed_settings_same_version.
  intros k h ver v Hk Hv.
  apply list_elem_of_In in Hk.
  destruct Hk as [[= <- <-]|[[= <- <-]|[]]];
    apply list_elem_of_In in Hv.
  - destruct Hv as [[= <- <-]|[[= <- <-]|[]]]; exact I.
  - destruct Hv as [[= <- <-]|[]]. simpl.
    repeat split. unfold wf_dict. simpl. apply (bool_decide_unpack _).
    vm_compute. exact I.
Defined.

End SnapshotFacts.

(* --------------------------------------------------------------------- *)
(** ** Choosing the versions to ingest *)
(* --------------------------------------------------------------------- *)

Module PlanFacts.
Import PyStr Versions Models Store Pipeline Notions DictFacts VersionsFacts.
Import ModelsFacts.

Lemma tag_map_fold_wf (tags : list VersionInfo) (acc : dict VersionInfo) :
  wf_dict acc ->
  wf_dict (fold_left (fun m t => dict_set (normalized t) t m) tags acc).
Proof.
  revert acc; induction tags as [|t tags IH]; intros acc Hwf; [exact Hwf|].
  simpl. apply IH. now apply wf_dict_set.
Qed.

Lemma tag_map_wf (tags : list VersionInfo) : wf_dict (tag_map tags).
Proof. apply tag_map_fold_wf. constructor. Qed.

Lemma find_append {A : Type} (f : A -> bool) (l1 l2 : list A) :
  List.find f (l1 ++ l2)
  = match List.find f l1 with
    | Some x => Some x
    | None => List.find f l2
    end.
Proof.
  induction l1 as [|x l1 IH]; [reflexivity|]. simpl.
  now destruct (f x).
Qed.

(** The entry of a version in the map is the last tag that normalizes
    to it. *)
Lemma tag_map_fold_get (tags : list VersionInfo) (acc : dict VersionInfo)
    (k : string) :
  dict_get k (fold_left (fun m t => dict_set (normalized t) t m) tags acc)
  = match
      List.find (fun t => String.eqb k (normalized t)) (rev tags)
    with
    | Some t => Some t
    | None => dict_get k acc
    end.
Proof.
  revert acc; induction tags as [|t tags IH]; intros acc; [reflexivity|].
  simpl. rewrite IH, find_append.
  destruct (List.find _ (rev tags)); [reflexivity|]. simpl.
  rewrite dict_get_dict_set. now destruct (String.eqb k (normalized t)).
Qed.

Lemma tag_map_get (tags : list VersionInfo) (k : string) :
  dict_get k (tag_map tags)
  = List.find (fun t => String.eqb k (normalized t)) (rev tags).
Proof.
  unfold tag_map. rewrite tag_map_fold_get. now destruct (List.find _ _).
Qed.

Lemma tag_map_keys (tags : list VersionInfo) (k : string) :
  k ∈ dict_keys (tag_map tags)
  <-> exists t, t ∈ tags /\ normalized t = k.
Proof.
  split.
  - intros Hin. apply elem_of_dict_keys in Hin as [t Hin].
    apply (elem_of_dict_get _ _ _ (tag_map_wf tags)) in Hin.
    rewrite tag_map_get in Hin. apply find_some in Hin as [Hin Heq].
    apply in_rev, list_elem_of_In in Hin. apply String.eqb_eq in Heq.
    eauto.
  - intros (t & Hin & <-).
    destruct (dict_get (normalized t) (tag_map tags)) as [t'|] eqn:E.
    + apply elem_of_dict_keys. eauto using dict_get_elem_of.
    + rewrite tag_map_get in E.
      apply list_elem_of_In, in_rev in Hin.
      apply (find_none _ _ E) in Hin. now rewrite String.eqb_refl in Hin.
Qed.

Lemma sort_versions_perm (l : list string) : Permutation (sort_versions l) l.
Proof.
  unfold sort_versions, sorted_by_key. symmetry.
  exact (fold_insert_perm version_key l []).
Qed.

Lemma sort_versions_sorted (l : list string) :
  StronglySorted (key_le version_key) (sort_versions l).
Proof.
  unfold sort_versions, sorted_by_key.
  apply fold_insert_sorted. constructor.
Qed.

Lemma elem_of_filter {A : Type} (f : A -> bool) (l : list A) (x : A) :
  x ∈ List.filter f l <-> x ∈ l /\ f x = true.
Proof. rewrite !list_elem_of_In. apply filter_In. Qed.

Lemma NoDup_list_filter {A : Type} (f : A -> bool) (l : list A) :
  NoDup l -> NoDup (List.filter f l).
Proof.
  induction 1 as [|x l Hx Hl IH]; [constructor|]. simpl.
  destruct (f x); [|exact IH]. constructor; [|exact IH].
  rewrite elem_of_filter. tauto.
Qed.

Lemma existsb_eqb (v : string) (l : list string) :
  existsb (String.eqb v) l = true <-> v ∈ l.
Proof.
  rewrite existsb_exists. split.
  - intros (x & Hin & Heq). apply String.eqb_eq in Heq as <-.
    now apply list_elem_of_In.
  - intros Hin. exists v. split; [now apply list_elem_of_In|].
    apply String.eqb_refl.
Qed.

(** The versions that pass the [min_version] setting. *)
Lemma min_filter_spec (min_version : option string) (l : list string) :
  let l' :=
    match min_version with
    | Some m =>
        if negb (String.eqb m EmptyString) then
          List.filter
            (fun v => tuple_leb (version_key m) (version_key v)) l
        else l
    | None => l
    end in
  (StronglySorted (key_le version_key) l ->
   StronglySorted (key_le version_key) l')
  /\ (NoDup l -> NoDup l')
  /\ forall v,
       v ∈ l'
       <-> v ∈ l
           /\ forall m,
                min_version = Some m -> m <> EmptyString ->
                tuple_leb (version_key m) (version_key v) = true.
Proof.
  destruct min_version as [m|]; simpl.
  - destruct (String.eqb_spec m EmptyString) as [->|Hne]; simpl.
    + split; [auto|split; [auto|]]. intros v. split; [|now intros [H _]].
      intros H. split; [exact H|]. intros m' [= <-] Hm. now destruct Hm.
    + split; [apply filter_strongly_sorted|].
      split; [apply NoDup_list_filter|].
      intros v. rewrite elem_of_filter. split.
      * intros [Hin Hle]. split; [exact Hin|]. now intros m' [= <-] _.
      * intros [Hin Hle]. split; [exact Hin|]. now apply Hle.
  - split; [auto|split; [auto|]]. intros v. split; [|now intros [H _]].
    intros H. split; [exact H|]. intros m' [=].
Qed.

Lemma new_versions_members (tags : list VersionInfo)
    (min_version : option string) (existing : list string) (v : string) :
  v ∈ new_versions tags min_version existing
  <-> (exists t,
         t ∈ tags /\ is_prerelease (raw t) = false /\ normalized t = v)
      /\ (v ∉ existing)
      /\ forall m,
           min_version = Some m -> m <> EmptyString ->
           tuple_leb (version_key m) (version_key v) = true.
Proof.
  unfold new_versions.
  set (keys := dict_keys (tag_map (stable_tags tags))).
  destruct (min_filter_spec min_version (sort_versions keys))
    as (_ & _ & Hmem).
  set (l' := match min_version with Some _ => _ | None => _ end) in *.
  rewrite elem_of_filter, Hmem, (sort_versions_perm keys).
  unfold keys. rewrite tag_map_keys.
  assert (Hex : negb (existsb (String.eqb v) existing) = true
                <-> v ∉ existing).
  { rewrite negb_true_iff, <- existsb_eqb.
    now destruct (existsb (String.eqb v) existing). }
  rewrite Hex.
  assert (Hst : (exists t, t ∈ stable_tags tags /\ normalized t = v)
                <-> exists t,
                      t ∈ tags /\ is_prerelease (raw t) = false
                      /\ normalized t = v).
  { unfold stable_tags. split.
    - intros (t & Hin & Hn). apply elem_of_filter in Hin as [Hin Hp].
      apply negb_true_iff in Hp. eauto.
    - intros (t & Hin & Hp & Hn). exists t. split; [|exact Hn].
      apply elem_of_filter. split; [exact Hin|]. now rewrite Hp. }
  rewrite Hst. tauto.
Qed.

(** X5.  The versions [ingest_all_versions] visits: in ascending
    version order and without repetition; a version is visited exactly
    if it is the normalized form of a tag that is no pre-release, is
    not yet listed in the store, and is not below [min_version]. *)
Theorem new_versions_spec (tags : list VersionInfo)
    (min_version : option string) (existing : list string) :
  let vs := new_versions tags min_version existing in
  StronglySorted (key_le version_key) vs
  /\ NoDup vs
  /\ forall v,
       v ∈ vs
       <-> (exists t,
              t ∈ tags /\ is_prerelease (raw t) = false
              /\ normalized t = v)
           /\ (v ∉ existing)
           /\ forall m,
                min_version = Some m -> m <> EmptyString ->
                tuple_leb (version_key m) (version_key v) = true.
Proof.
  cbv zeta. split; [|split].
  - unfold new_versions.
    set (keys := dict_keys (tag_map (stable_tags tags))).
    destruct (min_filter_spec min_version (sort_versions keys))
      as (Hsorted & _ & _).
    apply filter_strongly_sorted, Hsorted, sort_versions_sorted.
  - unfold new_versions.
    set (keys := dict_keys (tag_map (stable_tags tags))).
    destruct (min_filter_spec min_version (sort_versions keys))
      as (_ & Hnodup & _).
    apply NoDup_list_filter, Hnodup.
    rewrite (sort_versions_perm keys). apply tag_map_wf.
  - intros v. apply new_versions_members.
Qed.

(** X6.  The loop of [ingest_all_versions] finds a tag for every
    version it visits ([tag_map[norm_ver]] raises no [KeyError]), and
    the tag it hands to [ingest] is no pre-release and normalizes to
    that version. *)
Theorem tags_to_ingest_stable (tags : list VersionInfo)
    (min_version : option string) (existing : list string) :
  exists raws,
    tags_to_ingest tags min_version existing = Ok raws
    /\ Forall2
         (fun v r =>
            exists t,
              t ∈ tags /\ raw t = r /\ normalized t = v
              /\ is_prerelease r = false)
         (new_versions tags min_version existing) raws.
Proof.
  unfold tags_to_ingest.
  pose proof (new_versions_members tags min_version existing) as Hmem.
  set (vs := new_versions tags min_version existing) in *.
  assert (Hall : forall v, v ∈ vs ->
             exists t, dict_get v (tag_map (stable_tags tags)) = Some t
                       /\ t ∈ tags /\ normalized t = v
                       /\ is_prerelease (raw t) = false).
  { intros v Hv. apply Hmem in Hv as [(t & Hin & Hp & Hn) _].
    assert (Hk : v ∈ dict_keys (tag_map (stable_tags tags))).
    { apply tag_map_keys. exists t. split; [|exact Hn].
      apply elem_of_filter. split; [exact Hin|]. now rewrite Hp. }
    apply elem_of_dict_keys in Hk as [t' Ht'].
    apply (elem_of_dict_get _ _ _ (tag_map_wf _)) in Ht'.
    exists t'. split; [exact Ht'|].
    rewrite tag_map_get in Ht'. apply find_some in Ht' as [Hin' Heq].
    apply in_rev, list_elem_of_In, elem_of_filter in Hin' as [Hin' Hp'].
    apply String.eqb_eq in Heq. apply negb_true_iff in Hp'.
    repeat split; auto. }
  clearbody vs. clear Hmem.
  induction vs as [|v vs IH].
  - exists []. split; [reflexivity|constructor].
  - destruct IH as (raws & Hraws & HF).
    { intros v' Hv'. apply Hall. now apply list_elem_of_further. }
    destruct (Hall v) as (t & Ht & Hin & Hn & Hp);
      [apply list_elem_of_here|].
    exists (raw t :: raws). simpl. rewrite Ht, Hraws. split; [reflexivity|].
    constructor; [|exact HF]. exists t. auto.
Qed.

End PlanFacts.

(* --------------------------------------------------------------------- *)
(** ** The list of ingested versions and the skipping of releases *)
(* --------------------------------------------------------------------- *)

Module PipelineFacts.
Import PyStr Versions Models Store Resources ResourceScan Pipeline Notions.
Import DictFacts PlanFacts.

Lemma slicer_value_inj (a b : SlicerType) :
  slicer_value a = slicer_value b -> a = b.
Proof. destruct a, b; simpl; intros H; try reflexivity; discriminate H. Qed.

Lemma ingest_step_meta (slicer : SlicerType) (version : string)
    (st : IngestState) (p : ParsedProfile) :
  meta (st_store (ingest_step slicer version st p)) = meta (st_store st).
Proof.
  unfold ingest_step.
  destruct (_load _ _ _ _ _) as [existing|].
  - destruct (_merge_version existing p version) as [e' ck].
    destruct ck; simpl; [|reflexivity].
    now destruct (negb _).
  - destruct (_extract_renamed_from _) as [old|]; [|reflexivity].
    destruct (negb _); [|reflexivity].
    now destruct (_load _ _ _ _ _).
Qed.

Lemma ingest_fold_meta (slicer : SlicerType) (version : string)
    (profiles : list ParsedProfile) (st : IngestState) :
  meta (st_store (fold_left (ingest_step slicer version) profiles st))
  = meta (st_store st).
Proof.
  revert st; induction profiles as [|p ps IH]; intros st; [reflexivity|].
  simpl. now rewrite IH, ingest_step_meta.
Qed.

Lemma ingest_profiles_listed (self : ProfileStore) (slicer : SlicerType)
    (version : string) (profiles : list ParsedProfile) :
  get_versions (fst (ingest_profiles self slicer version profiles)) slicer
  = if bool_decide (version ∈ get_versions self slicer)
    then get_versions self slicer
    else get_versions self slicer ++ [version].
Proof.
  unfold ingest_profiles, get_versions, _update_meta. simpl.
  rewrite lookup_insert_eq, ingest_fold_meta. simpl.
  set (l := match meta self !! slicer_value slicer with
            | Some m => fst m
            | None => []
            end).
  destruct (existsb (String.eqb version) l) eqn:E.
  - apply existsb_eqb in E. now rewrite bool_decide_eq_true_2.
  - rewrite bool_decide_eq_false_2; [reflexivity|].
    intros Hin. apply existsb_eqb in Hin. congruence.
Qed.

(** X7.  The version list of a slicer after an ingestion: the ingested
    version is added at the end unless it is already listed, nothing
    else moves, a list without repetition stays so, and the lists of
    the other slicers are untouched. *)
Theorem ingest_profiles_versions (self : ProfileStore)
    (slicer : SlicerType) (version : string) (profiles : list ParsedProfile) :
  let self' := fst (ingest_profiles self slicer version profiles) in
  get_versions self' slicer
  = (if bool_decide (version ∈ get_versions self slicer)
     then get_versions self slicer
     else get_versions self slicer ++ [version])
  /\ (NoDup (get_versions self slicer) -> NoDup (get_versions self' slicer))
  /\ forall slicer',
       slicer' <> slicer ->
       get_versions self' slicer' = get_versions self slicer'.
Proof.
  cbv zeta. split; [|split].
  - apply ingest_profiles_listed.
  - intros Hnd. rewrite ingest_profiles_listed.
    destruct (bool_decide_reflect (version ∈ get_versions self slicer))
      as [Hin|Hnin]; [exact Hnd|].
    apply NoDup_app. split; [exact Hnd|]. split.
    + intros x Hx Hx'. apply list_elem_of_singleton in Hx' as ->.
      now apply Hnin.
    + apply NoDup_singleton.
  - intros slicer' Hne.
    unfold ingest_profiles, get_versions, _update_meta. simpl.
    rewrite lookup_insert_ne, ingest_fold_meta; [reflexivity|].
    intros Heq. apply Hne. symmetry. now apply slicer_value_inj.
Qed.

Lemma storage_version_release (version : string)
    (detected_version : option string) (today : string) :
  _is_version_mutable version = false ->
  storage_version version detected_version false today
  = normalize_version version.
Proof.
  unfold _is_version_mutable, storage_version. cbv zeta. simpl.
  destruct (String.eqb (normalize_version version) "main");
    [discriminate|].
  destruct (String.eqb (normalize_version version) "master");
    [discriminate|].
  reflexivity.
Qed.

Section WithHash.
Variable sha256_hex : string -> string.

Lemma run_pipeline_profiles (disk : Disk) (slicer : SlicerType)
    (version : string) (is_nightly : bool) (x : Extracted) (today : string) :
  exists ps,
    profiles
      (fst (_run_pipeline sha256_hex disk slicer version is_nightly x today))
    = fst (ingest_profiles (profiles disk) slicer
             (storage_version version (detected_version x) is_nightly today)
             ps).
Proof.
  unfold _run_pipeline.
  destruct (collect_resources _ _ _) as [rs rm].
  set (ps := match rm with [] => parsed x | _ => _ end).
  exists ps.
  destruct (ingest_profiles _ _ _ ps) as [st rep] eqn:E.
  destruct (gc _ _) as [rs' removed]. reflexivity.
Qed.

(** X8.  A release is ingested once: after [ingest] has been called
    for a version that is not mutable (no branch name, no nightly
    build), a further call for the same version and slicer is skipped:
    it leaves the store directory as it is and reports nothing
    processed, whatever the download would deliver. *)
Theorem ingest_release_once (disk : Disk) (slicer : SlicerType)
    (version : string) (x x' : Extracted) (today today' : string) :
  _is_version_mutable version = false ->
  let disk1 := fst (ingest sha256_hex disk slicer version false x today) in
  ingest sha256_hex disk1 slicer version false x' today'
  = (disk1, mkReport slicer (normalize_version version) 0 [] [] [] 0%Z).
Proof.
  intros Hmut disk1.
  assert (Hlisted :
            existsb (String.eqb (normalize_version version))
              (get_versions (profiles disk1) slicer) = true).
  { unfold disk1, ingest. rewrite Hmut. simpl.
    destruct (existsb _ (get_versions (profiles disk) slicer)) eqn:E;
      [exact E|].
    destruct (run_pipeline_profiles disk slicer version false x today)
      as [ps ->].
    rewrite storage_version_release by exact Hmut.
    apply existsb_eqb.
    rewrite ingest_profiles_listed.
    destruct (bool_decide_reflect
                (normalize_version version
                 ∈ get_versions (profiles disk) slicer)) as [Hin|_];
      [exact Hin|].
    apply elem_of_app. right. apply list_elem_of_here. }
  unfold ingest at 1. now rewrite Hmut, Hlisted.
Qed.
End WithHash.

Lemma ingest_release_once_witness :
  let x :=
    mkExtracted []  None
      [mkParsed ORCASLICER FILAMENT "Generic PLA" "OrcaFilamentLibrary"
         [("nozzle_temperature", VInt 210)] None None None None] in
  let x' :=
    mkExtracted []  None
      [mkParsed ORCASLICER FILAMENT "Generic PLA" "OrcaFilamentLibrary"
         [("nozzle_temperature", VInt 215)] None None None None] in
  let disk1 :=
    fst (ingest (fun content => content) (mkDisk empty_store ∅ None)
           ORCASLICER "v2.3.0" false x "2026-01-01") in
  ingest (fun content => content) disk1 ORCASLICER "v2.3.0" false x'
    "2026-02-01"
  = (disk1, mkReport ORCASLICER "2.3.0" 0 [] [] [] 0%Z).
Proof.
  intros x x'.
  apply (ingest_release_once (fun content => content)
           (mkDisk empty_store ∅ None) ORCASLICER "v2.3.0" x x'
           "2026-01-01" "2026-02-01").
  reflexivity.
Defined.

(** The key of a nightly storage version. *)
Lemma nightly_version_key (x : string) :
  _version_key ("nightly-" ++ x) = 0%Z :: _version_key x.
Proof. reflexivity. Qed.

(** X30.  Nightly builds sort below the releases: the version a nightly
    run is stored under, [nightly-] followed by a version or a date,
    has a key that starts with 0, so it is lower than every version
    whose first number is positive, and [sort_versions] and the
    version queries treat it so. *)
Theorem nightly_below_releases (x release : string) (n : Z) (rest : list Z) :
  _version_key release = n :: rest ->
  (0 < n)%Z ->
  forall detected today,
    let nightly := storage_version x detected true today in
    tuple_ltb (_version_key nightly) (_version_key release) = true
    /\ tuple_leb (_version_key release) (_version_key nightly) = false.
Proof.
  intros Hkey Hn detected today nightly.
  assert (Hnk : exists y, _version_key nightly = 0%Z :: _version_key y).
  { unfold nightly, storage_version.
    eexists. apply nightly_version_key. }
  destruct Hnk as [y Hy]. rewrite Hy, Hkey.
  split.
  - cbn [tuple_ltb]. destruct (Z.eqb_spec 0 n) as [Heq|_]; [lia|].
    apply Z.ltb_lt. exact Hn.
  - cbn [tuple_leb]. destruct (Z.eqb_spec n 0) as [Heq|_]; [lia|].
    apply Z.leb_gt. exact Hn.
Qed.

Lemma nightly_below_releases_witness :
  tuple_ltb (_version_key (storage_version "main" None true "2026-01-01"))
    (_version_key "2.3.0") = true
  /\ tuple_leb (_version_key "2.3.0")
       (_version_key (storage_version "main" None true "2026-01-01"))
     = false.
Proof.
  apply (nightly_below_releases "main" "2.3.0" 2 [3; 0]%Z eq_refl).
  reflexivity.
Defined.

End PipelineFacts.

(* --------------------------------------------------------------------- *)
(** ** The version a profile is evaluated at for the mapping *)
(* --------------------------------------------------------------------- *)

Module MappingFacts.
Import PyStr Versions Models Mapping DictFacts.

(** [x] is not above [y] in the order of strings. *)
Lemma str_le_trans (a b c : string) :
  String.ltb b a = false -> String.ltb c b = false ->
  String.ltb c a = false.
Proof.
  unfold String.ltb. intros Hab Hbc.
  destruct (String.compare c a) eqn:Hca; try reflexivity.
  exfalso.
  apply OrderedTypeEx.String_as_OT.cmp_lt in Hca.
  rewrite String.compare_antisym in Hab.
  destruct (String.compare a b) eqn:E; simpl in Hab; try discriminate.
  - apply String.compare_eq_iff in E. subst b.
    apply OrderedTypeEx.String_as_OT.cmp_lt in Hca.
    unfold OrderedTypeEx.String_as_OT.cmp in Hca. now rewrite Hca in Hbc.
  - apply OrderedTypeEx.String_as_OT.cmp_lt in E.
    pose proof (OrderedTypeEx.String_as_OT.lt_trans _ _ _ Hca E) as Hcb.
    apply OrderedTypeEx.String_as_OT.cmp_lt in Hcb.
    unfold OrderedTypeEx.String_as_OT.cmp in Hcb. now rewrite Hcb in Hbc.
Qed.

Lemma str_lt_le (a b : string) :
  String.ltb a b = true -> String.ltb b a = false.
Proof.
  unfold String.ltb. rewrite (String.compare_antisym a b).
  now destruct (String.compare b a).
Qed.

Lemma str_le_refl (a : string) : String.ltb a a = false.
Proof.
  unfold String.ltb.
  destruct (String.compare a a) eqn:E; try reflexivity.
  apply OrderedTypeEx.String_as_OT.cmp_lt in E.
  apply OrderedTypeEx.String_as_OT.lt_not_eq in E. now destruct E.
Qed.

Lemma stable_fold_flat (ds : list (dict value)) (best : option string) :
  fold_left
    (fun best versions_dict =>
       fold_left stable_step (dict_keys versions_dict) best)
    ds best
  = fold_left stable_step (flat_map dict_keys ds) best.
Proof.
  revert best; induction ds as [|d ds IH]; intros best; [reflexivity|].
  simpl. now rewrite fold_left_app, IH.
Qed.

(** The best version after the loop: stable, recorded, and not below
    any stable version seen. *)
Lemma stable_fold_spec (l : list string) (best : option string) :
  (forall b0, best = Some b0 -> startswith "nightly" b0 = false) ->
  match fold_left stable_step l best with
  | None =>
      best = None /\ forall ver, ver ∈ l -> startswith "nightly" ver = true
  | Some b =>
      startswith "nightly" b = false
      /\ (best = Some b \/ b ∈ l)
      /\ (forall ver,
            ver ∈ l -> startswith "nightly" ver = false ->
            String.ltb b ver = false)
      /\ (forall b0, best = Some b0 -> String.ltb b b0 = false)
  end.
Proof.
  revert best; induction l as [|ver0 l IH]; intros best Hbest.
  - simpl. destruct best as [b|].
    + split; [now apply Hbest|]. split; [now left|].
      split; [intros ver Hin; now apply elem_of_nil in Hin|].
      intros b0 [= <-]. apply str_le_refl.
    + split; [reflexivity|]. intros ver Hin. now apply elem_of_nil in Hin.
  - cbn [fold_left]. unfold stable_step at 2.
    destruct (startswith "nightly" ver0) eqn:Hn; cbn [negb].
    + specialize (IH best Hbest).
      destruct (fold_left stable_step l best) as [b|].
      * destruct IH as (H1 & H2 & H3 & H4).
        split; [exact H1|]. split.
        { destruct H2 as [H2|H2]; [now left|right].
          now apply list_elem_of_further. }
        split; [|exact H4].
        intros ver Hin Hver. apply elem_of_cons in Hin as [->|Hin];
          [congruence|now apply H3].
      * destruct IH as [H1 H2]. split; [exact H1|].
        intros ver Hin. apply elem_of_cons in Hin as [->|Hin];
          [exact Hn|now apply H2].
    + destruct best as [b0|].
      * destruct (String.ltb b0 ver0) eqn:Hlt.
        -- specialize (IH (Some ver0)).
           destruct (fold_left stable_step l (Some ver0)) as [b|].
           ++ destruct IH as (H1 & H2 & H3 & H4);
                [now intros ? [= <-]|].
              split; [exact H1|]. split.
              { right. destruct H2 as [[= <-]|H2];
                  [apply list_elem_of_here|now apply list_elem_of_further]. }
              split.
              { intros ver Hin Hver. apply elem_of_cons in Hin as [->|Hin];
                  [now apply H4|now apply H3]. }
              intros b1 [= <-].
              apply (str_le_trans b0 ver0 b);
                [now apply str_lt_le|now apply H4].
           ++ destruct IH as [[=] _]. now intros ? [= <-].
        -- specialize (IH (Some b0) Hbest).
           destruct (fold_left stable_step l (Some b0)) as [b|].
           ++ destruct IH as (H1 & H2 & H3 & H4).
              split; [exact H1|]. split.
              { destruct H2 as [H2|H2]; [now left|right].
                now apply list_elem_of_further. }
              split; [|exact H4].
              intros ver Hin Hver. apply elem_of_cons in Hin as [->|Hin];
                [|now apply H3].
              apply (str_le_trans ver0 b0 b); [exact Hlt|now apply H4].
           ++ destruct IH as [[=] _].
      * specialize (IH (Some ver0)).
        destruct (fold_left stable_step l (Some ver0)) as [b|].
        -- destruct IH as (H1 & H2 & H3 & H4); [now intros ? [= <-]|].
           split; [exact H1|]. split.
           { right. destruct H2 as [[= <-]|H2];
               [apply list_elem_of_here|now apply list_elem_of_further]. }
           split; [|intros ? [=]].
           intros ver Hin Hver. apply elem_of_cons in Hin as [->|Hin];
             [now apply H4|now apply H3].
        -- destruct IH as [[=] _]. now intros ? [= <-].
Qed.

Lemma elem_of_recorded (s : dict (dict value)) (ver : string) :
  ver ∈ flat_map dict_keys (dict_values s)
  <-> exists k h, (k, h) ∈ s /\ ver ∈ dict_keys h.
Proof.
  rewrite list_elem_of_In, in_flat_map. split.
  - intros (h & Hh & Hv). unfold dict_values in Hh.
    apply in_map_iff in Hh as ([k h'] & <- & Hin).
    exists k, h'. split; [now apply list_elem_of_In|].
    now apply list_elem_of_In.
  - intros (k & h & Hin & Hv). exists h. split.
    + unfold dict_values. apply in_map_iff. exists (k, h).
      split; [reflexivity|now apply list_elem_of_In].
    + now apply list_elem_of_In.
Qed.

(** X9.  [_stable_version] returns a stable version whenever the
    profile records one: if some history has a non-empty version that
    does not start with [nightly], the result does not start with
    [nightly]; and when [last_seen] is a nightly version, the result is
    a recorded version that no recorded stable version exceeds in the
    order of strings. *)
Theorem stable_version_is_stable (p : StoredProfile) (k : string)
    (h : dict value) (ver : string) :
  (k, h) ∈ settings p -> ver ∈ dict_keys h ->
  startswith "nightly" ver = false -> ver <> EmptyString ->
  startswith "nightly" (_stable_version p) = false
  /\ (startswith "nightly" (last_seen p) = true ->
      (exists k' h',
          (k', h') ∈ settings p /\ _stable_version p ∈ dict_keys h')
      /\ forall k' h' ver',
           (k', h') ∈ settings p -> ver' ∈ dict_keys h' ->
           startswith "nightly" ver' = false ->
           String.ltb (_stable_version p) ver' = false).
Proof.
  intros Hk Hver Hn Hne. unfold _stable_version.
  destruct (startswith "nightly" (last_seen p)) eqn:Hlast; cbn [negb].
  2: { split; [exact Hlast|discriminate]. }
  rewrite stable_fold_flat.
  pose proof (stable_fold_spec
                (flat_map dict_keys (dict_values (settings p))) None)
    as Hspec.
  assert (Hrec : ver ∈ flat_map dict_keys (dict_values (settings p))).
  { apply elem_of_recorded. eauto. }
  destruct (fold_left stable_step _ None) as [b|].
  - destruct Hspec as (H1 & H2 & H3 & _); [intros ? [=]|].
    destruct H2 as [[=]|H2].
    destruct (String.eqb_spec b EmptyString) as [->|Hb].
    + exfalso. specialize (H3 ver Hrec Hn).
      destruct ver; [now apply Hne|discriminate H3].
    + split; [exact H1|]. intros _. split.
      * now apply elem_of_recorded.
      * intros k' h' ver' Hk' Hv' Hn'. apply H3; [|exact Hn'].
        apply elem_of_recorded. eauto.
  - destruct Hspec as [_ Hall]; [intros ? [=]|].
    specialize (Hall ver Hrec). congruence.
Qed.

Lemma stable_version_is_stable_witness :
  let p :=
    mkStored "orcaslicer" "filament" "Generic PLA" "OrcaFilamentLibrary"
      "2.2.0" "nightly-2.3.1" None None None
      [("nozzle_temperature",
        [("2.2.0", VInt 210); ("2.3.0", VInt 215);
         ("nightly-2.3.1", VInt 220)])] in
  startswith "nightly" (_stable_version p) = false.
Proof.
  intros p.
  refine (proj1 (stable_version_is_stable p "nozzle_temperature"
                   [("2.2.0", VInt 210); ("2.3.0", VInt 215);
                    ("nightly-2.3.1", VInt 220)] "2.3.0" _ _ _ _)).
  - apply list_elem_of_here.
  - apply list_elem_of_further, list_elem_of_here.
  - reflexivity.
  - discriminate.
Defined.

End MappingFacts.

(* --------------------------------------------------------------------- *)
(** ** File names *)
(* --------------------------------------------------------------------- *)

Module SanitizeFacts.
Import PyStr Store StoreListing.

Lemma free_of_replace_unsafe (s : string) :
  free_of is_unsafe (replace_unsafe s) = true.
Proof.
  induction s as [|c s IH]; [reflexivity|]. simpl.
  rewrite IH, andb_true_r.
  destruct (is_unsafe c) eqn:E; [reflexivity|now rewrite E].
Qed.

Lemma replace_unsafe_free (s : string) :
  free_of is_unsafe s = true -> replace_unsafe s = s.
Proof.
  induction s as [|c s IH]; [reflexivity|]. simpl.
  intros H. apply andb_prop in H as [Hc Hs].
  apply negb_true_iff in Hc. now rewrite Hc, IH.
Qed.

Lemma free_of_collapse (p : ascii -> bool) (s : string) :
  free_of p s = true -> free_of p (collapse_underscores s) = true.
Proof.
  induction s as [|c s IH]; [reflexivity|].
  cbn [free_of collapse_underscores].
  intros H. apply andb_prop in H as [Hc Hs].
  destruct (is_underscore c && _); [now apply IH|].
  cbn [free_of]. now rewrite Hc, IH.
Qed.

Lemma free_of_lstrip (p q : ascii -> bool) (s : string) :
  free_of p s = true -> free_of p (lstrip q s) = true.
Proof.
  induction s as [|c s IH]; [reflexivity|]. cbn [lstrip].
  intros H. destruct (q c); [|exact H].
  apply andb_prop in H as [_ Hs]. now apply IH.
Qed.

Lemma free_of_rstrip (p q : ascii -> bool) (s : string) :
  free_of p s = true -> free_of p (rstrip q s) = true.
Proof.
  induction s as [|c s IH]; [reflexivity|]. cbn [rstrip free_of].
  intros H. apply andb_prop in H as [Hc Hs]. specialize (IH Hs).
  destruct (rstrip q s) as [|a r].
  - destruct (q c); [reflexivity|]. cbn [free_of]. now rewrite Hc.
  - cbn [free_of] in *. now rewrite Hc, IH.
Qed.

(** Collapsing keeps the first character. *)
Lemma head_char_collapse (s : string) :
  head_char (collapse_underscores s) = head_char s.
Proof.
  induction s as [|c s IH]; [reflexivity|]. cbn [collapse_underscores].
  destruct (is_underscore c) eqn:Hc; [|reflexivity].
  destruct s as [|c' s']; [reflexivity|]. cbn [andb].
  destruct (is_underscore c') eqn:Hc'; [|reflexivity].
  rewrite IH. simpl. f_equal.
  unfold is_underscore in *.
  apply Nat.eqb_eq in Hc, Hc'.
  rewrite (ConditionsFacts.code_inj _ _ Hc).
  now rewrite (ConditionsFacts.code_inj _ _ Hc').
Qed.

Lemma startswith_two (s : string) :
  startswith "__" s
  = match s with
    | String c s' =>
        is_underscore c
        && match s' with
           | String c' _ => is_underscore c'
           | EmptyString => false
           end
    | EmptyString => false
    end.
Proof.
  assert (H : forall c, Ascii.eqb "_" c = is_underscore c).
  { intros c. unfold is_underscore.
    destruct (Ascii.eqb_spec "_" c) as [<-|Hne]; [reflexivity|].
    symmetry. apply Nat.eqb_neq. intros Hc. apply Hne.
    now rewrite (ConditionsFacts.code_inj _ _ Hc). }
  destruct s as [|c [|c' s']]; cbn [startswith]; rewrite ?H.
  - reflexivity.
  - now rewrite andb_false_r.
  - now rewrite andb_true_r.
Qed.

Lemma contains_two_collapse (s : string) :
  contains "__" (collapse_underscores s) = false.
Proof.
  induction s as [|c s IH]; [reflexivity|]. cbn [collapse_underscores].
  destruct (is_underscore c && _) eqn:E; [exact IH|].
  cbn [contains]. rewrite IH, orb_false_r, startswith_two.
  pose proof (head_char_collapse s) as Hh.
  destruct (collapse_underscores s) as [|a t]; destruct s as [|c' s'];
    try discriminate Hh.
  - now rewrite andb_false_r.
  - injection Hh as ->. exact E.
Qed.

Lemma collapse_without_two (s : string) :
  contains "__" s = false -> collapse_underscores s = s.
Proof.
  induction s as [|c s IH]; [reflexivity|].
  cbn [contains collapse_underscores]. intros H.
  apply orb_false_iff in H as [H1 H2].
  rewrite startswith_two in H1. rewrite H1. now rewrite IH.
Qed.

Lemma contains_two_lstrip (q : ascii -> bool) (s : string) :
  contains "__" s = false -> contains "__" (lstrip q s) = false.
Proof.
  induction s as [|c s IH]; [reflexivity|]. cbn [lstrip].
  intros H. destruct (q c); [|exact H].
  cbn [contains] in H. apply orb_false_iff in H as [_ H]. now apply IH.
Qed.

Lemma contains_two_rstrip (q : ascii -> bool) (s : string) :
  contains "__" s = false -> contains "__" (rstrip q s) = false.
Proof.
  induction s as [|c s IH]; [reflexivity|].
  cbn [contains]. intros H. apply orb_false_iff in H as [H1 H2].
  specialize (IH H2). rewrite startswith_two in H1.
  cbn [rstrip]. destruct (rstrip q s) as [|a r] eqn:Er.
  - destruct (q c); [reflexivity|].
    cbn [contains]. rewrite startswith_two. now rewrite andb_false_r.
  - change (contains "__" (String c (String a r)))
      with (startswith "__" (String c (String a r))
            || contains "__" (String a r)).
    rewrite IH, orb_false_r, startswith_two.
    destruct (is_underscore c); [|reflexivity]. cbn [andb] in *.
    destruct s as [|c' s']; [discriminate Er|].
    cbn [rstrip] in Er.
    destruct (rstrip q s') as [|a' r'].
    + destruct (q c'); [discriminate Er|].
      injection Er as <- _. exact H1.
    + injection Er as <- _. exact H1.
Qed.

(** What is left after stripping does not begin or end with a
    stripped character. *)
Lemma head_char_lstrip (p : ascii -> bool) (s : string) :
  end_ok p (head_char (lstrip p s)) = true.
Proof.
  induction s as [|c s IH]; [reflexivity|]. cbn [lstrip].
  destruct (p c) eqn:E; [exact IH|]. simpl. now rewrite E.
Qed.

Lemma head_char_rstrip (p : ascii -> bool) (s : string) :
  end_ok p (head_char s) = true ->
  end_ok p (head_char (rstrip p s)) = true.
Proof.
  destruct s as [|c s]; [reflexivity|]. cbn [head_char end_ok rstrip].
  intros Hc. destruct (rstrip p s).
  - destruct (p c) eqn:E; [discriminate|]. simpl. now rewrite E.
  - exact Hc.
Qed.

Lemma last_char_rstrip (p : ascii -> bool) (s : string) :
  end_ok p (last_char (rstrip p s)) = true.
Proof.
  induction s as [|c s IH]; [reflexivity|]. cbn [rstrip].
  destruct (rstrip p s) as [|a r].
  - destruct (p c) eqn:E; [reflexivity|]. simpl. now rewrite E.
  - exact IH.
Qed.

Lemma lstrip_head_ok (p : ascii -> bool) (s : string) :
  end_ok p (head_char s) = true -> lstrip p s = s.
Proof.
  destruct s as [|c s]; [reflexivity|]. simpl.
  intros H. apply negb_true_iff in H. now rewrite H.
Qed.

Lemma rstrip_last_ok (p : ascii -> bool) (s : string) :
  end_ok p (last_char s) = true -> rstrip p s = s.
Proof.
  induction s as [|c s IH]; [reflexivity|]. cbn [rstrip last_char].
  destruct s as [|c' s'].
  - simpl. intros H. apply negb_true_iff in H. now rewrite H.
  - intros H. rewrite (IH H). reflexivity.
Qed.

Lemma sanitize_shape (name : string) :
  let out := _sanitize name in
  free_of is_unsafe out = true
  /\ contains "__" out = false
  /\ end_ok is_strip_char (head_char out) = true
  /\ end_ok is_strip_char (last_char out) = true.
Proof.
  unfold _sanitize, strip_chars. cbv zeta. repeat split.
  - apply free_of_rstrip, free_of_lstrip, free_of_collapse,
      free_of_replace_unsafe.
  - apply contains_two_rstrip, contains_two_lstrip, contains_two_collapse.
  - apply head_char_rstrip, head_char_lstrip.
  - apply last_char_rstrip.
Qed.

(** X10.  A sanitized name is fit for a file name: it holds none of
    the replaced characters (angle brackets, colon, double quote, the
    two slashes, bar, question mark, asterisk), no two underscores in a
    row, and it neither begins nor ends with an underscore, a dot or a
    space. *)
Theorem sanitize_clean (name : string) :
  free_of is_unsafe (_sanitize name) = true
  /\ contains "__" (_sanitize name) = false
  /\ end_ok is_strip_char (head_char (_sanitize name)) = true
  /\ end_ok is_strip_char (last_char (_sanitize name)) = true.
Proof.
  unfold _sanitize, strip_chars. repeat split.
  - apply free_of_rstrip, free_of_lstrip, free_of_collapse,
      free_of_replace_unsafe.
  - apply contains_two_rstrip, contains_two_lstrip, contains_two_collapse.
  - apply head_char_rstrip, head_char_lstrip.
  - apply last_char_rstrip.
Qed.

(** X11.  Sanitizing is idempotent: a sanitized name is its own
    sanitized form, so a profile can be found again under the name of
    its file. *)
Theorem sanitize_idempotent (name : string) :
  _sanitize (_sanitize name) = _sanitize name.
Proof.
  destruct (sanitize_shape name) as (H1 & H2 & H3 & H4).
  set (out := _sanitize name) in *.
  unfold _sanitize at 1, strip_chars.
  rewrite (replace_unsafe_free _ H1), (collapse_without_two _ H2).
  rewrite (lstrip_head_ok _ _ H3). now apply rstrip_last_ok.
Qed.

End SanitizeFacts.

(* --------------------------------------------------------------------- *)
(** ** Merging a version into a stored profile *)
(* --------------------------------------------------------------------- *)

Module IngestFacts.
Import PyStr Versions Models Store StoreListing Notions DictFacts.
Import StoreFacts.

#[local] Arguments is_meta_key : simpl never.
#[local] Arguments _normalize : simpl never.

(** One iteration of the loop of [_merge_version]. *)
#[local] Abbreviation merge_step version :=
  (fun (st : StoredProfile * list string) (kv : string * value) =>
     let '(cur, changed) := st in
     if is_meta_key (fst kv) then st
     else
       let current := get_latest cur (fst kv) in
       if negb (String.eqb (_normalize current) (_normalize (snd kv)))
       then
         let history :=
           match dict_get (fst kv) (settings cur) with
           | Some h => h
           | None => []
           end in
         (with_settings cur
            (dict_set (fst kv) (dict_set version (snd kv) history)
               (settings cur)),
          changed ++ [fst kv])
       else st).

(** Whether the loop records the value [v] for the key [k]. *)
#[local] Abbreviation differs cur :=
  (fun kv : string * value =>
     negb (is_meta_key (fst kv))
     && negb (String.eqb (_normalize (get_latest cur (fst kv)))
                (_normalize (snd kv)))).

Lemma get_latest_ext (a b : StoredProfile) (k : string) :
  dict_get k (settings a) = dict_get k (settings b) ->
  get_latest a k = get_latest b k.
Proof. unfold get_latest. now intros ->. Qed.

Lemma merge_fold_spec (version : string) (l : dict value)
    (cur : StoredProfile) (changed : list string) :
  wf_dict l ->
  let result := fold_left (merge_step version) l (cur, changed) in
  (forall k,
      dict_get k (settings (fst result))
      = match dict_get k l with
        | Some v =>
            if differs cur (k, v)
            then Some (dict_set version v
                         (match dict_get k (settings cur) with
                          | Some h => h
                          | None => []
                          end))
            else dict_get k (settings cur)
        | None => dict_get k (settings cur)
        end)
  /\ snd result = changed ++ map fst (List.filter (differs cur) l)
  /\ with_settings (fst result) (settings cur) = cur.
Proof.
  revert cur changed; induction l as [|[k0 v0] l IH]; intros cur changed Hwf.
  - simpl. split; [reflexivity|]. split; [now rewrite app_nil_r|].
    now destruct cur.
  - apply NoDup_cons in Hwf as [Hk0 Hwf]. cbn [fold_left].
    set (st1 := merge_step version (cur, changed) (k0, v0)).
    assert (Hst1 :
              (forall k, k <> k0 ->
                 dict_get k (settings (fst st1))
                 = dict_get k (settings cur))
              /\ dict_get k0 (settings (fst st1))
                 = (if differs cur (k0, v0)
                    then Some (dict_set version v0
                                 (match dict_get k0 (settings cur) with
                                  | Some h => h
                                  | None => []
                                  end))
                    else dict_get k0 (settings cur))
              /\ snd st1
                 = changed ++ (if differs cur (k0, v0) then [k0] else [])
              /\ with_settings (fst st1) (settings cur) = cur).
    { unfold st1. cbn [fst snd].
      destruct (is_meta_key k0); cbn [negb andb].
      - repeat split; [now rewrite app_nil_r|now destruct cur].
      - destruct (negb (String.eqb _ _)); cbn [fst snd].
        + split; [|split; [|split; [reflexivity|now destruct cur]]].
          * intros k Hne. simpl. rewrite dict_get_dict_set.
            apply String.eqb_neq in Hne. now rewrite Hne.
          * simpl. now rewrite dict_get_dict_set, String.eqb_refl.
        + repeat split; [now rewrite app_nil_r|now destruct cur]. }
    destruct Hst1 as (Hother & Hself & Hch & Hfields).
    destruct st1 as [cur1 changed1]. cbn [fst snd] in *.
    specialize (IH cur1 changed1 Hwf). cbv zeta in IH.
    destruct IH as (IHget & IHch & IHfields).
    assert (Hext : forall kv, kv ∈ l -> differs cur1 kv = differs cur kv).
    { intros [k v] Hin. cbn [fst snd].
      rewrite (get_latest_ext cur1 cur k); [reflexivity|].
      apply Hother. intros ->. apply Hk0.
      apply elem_of_dict_keys. eauto. }
    split; [|split].
    + intros k. rewrite IHget. cbn [dict_get].
      destruct (String.eqb_spec k k0) as [->|Hne].
      * assert (dict_get k0 l = None) as -> by now apply dict_get_None.
        exact Hself.
      * destruct (dict_get k l) as [v|] eqn:Hk; [|now apply Hother].
        pose proof (Hext (k, v) (dict_get_elem_of _ _ _ Hk)) as E.
        cbn [fst snd] in E. rewrite E.
        now rewrite (Hother k Hne).
    + rewrite IHch, Hch. cbn [List.filter fst snd].
      rewrite (filter_ext_in (differs cur1) (differs cur)).
      * destruct (negb (is_meta_key k0)
                  && negb (String.eqb (_normalize (get_latest cur k0))
                             (_normalize v0))); cbn [map fst app];
          [now rewrite <- app_assoc|now rewrite app_nil_r].
      * intros kv Hin. apply Hext. now apply list_elem_of_In.
    + destruct (fst (fold_left _ l (cur1, changed1))), cur1, cur.
      unfold with_settings in *. cbn in *. congruence.
Qed.

Lemma merge_version_spec (stored : StoredProfile) (p : ParsedProfile)
    (version : string) :
  wf_dict (p_settings p) ->
  let result := _merge_version stored p version in
  (forall k,
      dict_get k (settings (fst result))
      = match dict_get k (p_settings p) with
        | Some v =>
            if differs stored (k, v)
            then Some (dict_set version v
                         (match dict_get k (settings stored) with
                          | Some h => h
                          | None => []
                          end))
            else dict_get k (settings stored)
        | None => dict_get k (settings stored)
        end)
  /\ snd result = map fst (List.filter (differs stored) (p_settings p))
  /\ last_seen (fst result) = version
  /\ with_settings (fst result) (settings stored)
     = mkStored (slicer stored) (profile_type stored) (name stored)
         (vendor stored) (first_seen stored) version (filament_id stored)
         (setting_id stored) (renamed_from stored) (settings stored).
Proof.
  intros Hwf. unfold _merge_version.
  set (stored0 := mkStored _ _ _ _ _ version _ _ _ _).
  destruct (merge_fold_spec version (p_settings p) stored0 [] Hwf)
    as (Hget & Hch & Hfields).
  cbv zeta. split; [|split; [|split]].
  - intros k. exact (Hget k).
  - exact Hch.
  - exact (f_equal last_seen Hfields).
  - exact Hfields.
Qed.

(** X12.  [_merge_version] stores changes only: for every setting of
    the parsed profile that is no metadata key, the history gains the
    entry [version: value] if the normalized value differs from the
    latest stored one, and stays as it is otherwise; all other
    histories stay as they are; the changed keys are reported in the
    order of the parsed settings; [last_seen] becomes the version, and
    name, vendor and [first_seen] are kept. *)
Theorem merge_version_records_changes (stored : StoredProfile)
    (p : ParsedProfile) (version : string) :
  wf_dict (p_settings p) ->
  let result := _merge_version stored p version in
  (forall k,
      dict_get k (settings (fst result))
      = match dict_get k (p_settings p) with
        | Some v =>
            if differs stored (k, v)
            then Some (dict_set version v
                         (match dict_get k (settings stored) with
                          | Some h => h
                          | None => []
                          end))
            else dict_get k (settings stored)
        | None => dict_get k (settings stored)
        end)
  /\ snd result = map fst (List.filter (differs stored) (p_settings p))
  /\ last_seen (fst result) = version
  /\ name (fst result) = name stored
  /\ vendor (fst result) = vendor stored
  /\ first_seen (fst result) = first_seen stored.
Proof.
  intros Hwf.
  destruct (merge_version_spec stored p version Hwf)
    as (Hget & Hch & Hlast & Hfields).
  cbv zeta. split; [exact Hget|]. split; [exact Hch|].
  split; [exact Hlast|].
  destruct (fst (_merge_version stored p version)).
  unfold with_settings in Hfields. cbn in *.
  injection Hfields as -> -> -> -> -> _ _ _ _. auto.
Qed.

Lemma merge_version_records_changes_witness :
  let stored :=
    mkStored "bambustudio" "filament" "Bambu ABS" "BBL" "01.00.00" "01.00.00"
      None None None
      [("nozzle_temperature", [("01.00.00", VInt 270)]);
       ("filament_type", [("01.00.00", VStr "ABS")])] in
  let p :=
    mkParsed BAMBUSTUDIO FILAMENT "Bambu ABS" "BBL"
      [("nozzle_temperature", VInt 280); ("filament_type", VStr "ABS")]
      None None None None in
  dict_get "nozzle_temperature"
    (settings (fst (_merge_version stored p "02.00.00")))
  = Some [("01.00.00", VInt 270); ("02.00.00", VInt 280)]
  /\ dict_get "filament_type"
       (settings (fst (_merge_version stored p "02.00.00")))
     = Some [("01.00.00", VStr "ABS")]
  /\ snd (_merge_version stored p "02.00.00") = ["nozzle_temperature"].
Proof.
  intros stored p.
  assert (Hwf : wf_dict (p_settings p)).
  { unfold wf_dict. simpl. apply (bool_decide_unpack _). vm_compute.
    exact I. }
  destruct (merge_version_records_changes stored p "02.00.00" Hwf)
    as (Hget & Hch & _).
  split; [|split].
  - rewrite Hget. vm_compute. reflexivity.
  - rewrite Hget. vm_compute. reflexivity.
  - rewrite Hch. vm_compute. reflexivity.
Defined.

Lemma last_values_fresh (version : string) (v : value) (h : dict value) :
  version ∉ dict_keys h ->
  List.last (dict_values (dict_set version v h)) VNone = v.
Proof.
  intros Hfresh. rewrite dict_set_fresh by now apply dict_get_None.
  unfold dict_values. rewrite map_app. apply last_last.
Qed.

Lemma merge_version_latest_aux (stored : StoredProfile) (p : ParsedProfile)
    (version : string) :
  wf_dict (p_settings p) ->
  (forall k h,
      dict_get k (settings stored) = Some h -> version ∉ dict_keys h) ->
  forall k v,
    dict_get k (p_settings p) = Some v -> is_meta_key k = false ->
    _normalize (get_latest (fst (_merge_version stored p version)) k)
    = _normalize v.
Proof.
  intros Hwf Hfresh k v Hk Hmeta.
  destruct (merge_version_spec stored p version Hwf) as (Hget & _).
  specialize (Hget k). rewrite Hk in Hget. cbn [fst snd] in Hget.
  rewrite Hmeta in Hget. cbn [negb andb] in Hget.
  unfold get_latest at 1. rewrite Hget.
  destruct (String.eqb_spec (_normalize (get_latest stored k))
              (_normalize v)) as [Heq|Hne]; cbn [negb].
  - rewrite <- Heq. reflexivity.
  - f_equal.
    destruct (dict_get k (settings stored)) as [h|] eqn:Hh.
    + pose proof (last_values_fresh version v h (Hfresh k h Hh)) as Hl.
      destruct (dict_set version v h) eqn:E; [|exact Hl].
      now destruct h as [|[? ?] ?]; simpl in E; try destruct (String.eqb _ _).
    + reflexivity.
Qed.

(** X13.  After a version that is new to a profile has been merged,
    the latest stored value of every setting of the parsed profile
    (metadata keys apart) is the parsed value, up to normalization. *)
Theorem merge_version_latest (stored : StoredProfile) (p : ParsedProfile)
    (version : string) :
  wf_dict (p_settings p) ->
  (forall k h,
      dict_get k (settings stored) = Some h -> version ∉ dict_keys h) ->
  forall k v,
    dict_get k (p_settings p) = Some v -> is_meta_key k = false ->
    _normalize (get_latest (fst (_merge_version stored p version)) k)
    = _normalize v.
Proof.
  intros Hwf Hfresh k v Hk Hmeta.
  destruct (merge_version_spec stored p version Hwf) as (Hget & _).
  specialize (Hget k). rewrite Hk in Hget. cbn [fst snd] in Hget.
  rewrite Hmeta in Hget. cbn [negb andb] in Hget.
  unfold get_latest at 1. rewrite Hget.
  destruct (String.eqb_spec (_normalize (get_latest stored k))
              (_normalize v)) as [Heq|Hne]; cbn [negb].
  - rewrite <- Heq. reflexivity.
  - f_equal.
    destruct (dict_get k (settings stored)) as [h|] eqn:Hh.
    + pose proof (last_values_fresh version v h (Hfresh k h Hh)) as Hl.
      destruct (dict_set version v h) eqn:E; [|exact Hl].
      now destruct h as [|[? ?] ?]; simpl in E; try destruct (String.eqb _ _).
    + reflexivity.
Qed.

Lemma merge_version_latest_witness :
  let stored :=
    mkStored "bambustudio" "filament" "Bambu ABS" "BBL" "01.00.00" "01.00.00"
      None None None
      [("nozzle_temperature", [("01.00.00", VInt 270)])] in
  let p :=
    mkParsed BAMBUSTUDIO FILAMENT "Bambu ABS" "BBL"
      [("nozzle_temperature", VInt 280); ("filament_type", VStr "ABS")]
      None None None None in
  _normalize
    (get_latest (fst (_merge_version stored p "02.00.00")) "filament_type")
  = _normalize (VStr "ABS").
Proof.
  intros stored p.
  apply (merge_version_latest stored p "02.00.00").
  - unfold wf_dict. simpl. apply (bool_decide_unpack _). vm_compute.
    exact I.
  - intros k h Hk. simpl in Hk.
    destruct (String.eqb k "nozzle_temperature"); [|discriminate].
    injection Hk as <-. simpl.
    intros Hin. apply list_elem_of_singleton in Hin. discriminate.
  - reflexivity.
  - reflexivity.
Defined.

Lemma filter_none {A : Type} (f : A -> bool) (l : list A) :
  (forall x, x ∈ l -> f x = false) -> List.filter f l = [].
Proof.
  induction l as [|x l IH]; intros H; [reflexivity|]. simpl.
  rewrite (H x) by apply list_elem_of_here.
  apply IH. intros y Hy. apply H. now apply list_elem_of_further.
Qed.

(** A profile whose values are all stored already leaves the loop
    state as it is, but for the key marked as seen. *)
Lemma ingest_step_noop (slicer : SlicerType) (version : string)
    (st : IngestState) (p : ParsedProfile) (sp : StoredProfile) :
  let pt := profile_type_value (p_profile_type p) in
  wf_dict (p_settings p) ->
  _load (st_store st) (slicer_value slicer) pt (p_vendor p) (p_name p)
  = Some sp ->
  last_seen sp = version ->
  (forall k v,
      dict_get k (p_settings p) = Some v -> is_meta_key k = false ->
      _normalize (get_latest sp k) = _normalize v) ->
  ingest_step slicer version st p
  = mkIngest (st_store st) (st_added st) (st_changed st)
      (_profile_key slicer pt (p_vendor p) (p_name p) :: st_seen st).
Proof.
  intros pt Hwf Hload Hlast Hsame. unfold ingest_step. fold pt.
  rewrite Hload.
  destruct (merge_version_spec sp p version Hwf) as (_ & Hch & _).
  rewrite filter_none in Hch.
  - destruct (_merge_version sp p version) as [e' ck].
    cbn [snd map] in Hch. subst ck.
    now rewrite Hlast, String.eqb_refl.
  - intros [k v] Hin. cbn [fst snd].
    destruct (is_meta_key k) eqn:Hm; [reflexivity|]. cbn [negb andb].
    rewrite (Hsame k v); [now rewrite String.eqb_refl| |exact Hm].
    now apply elem_of_dict_get.
Qed.

Lemma update_meta_twice (self : ProfileStore) (slicer : SlicerType)
    (version : string) :
  _update_meta (_update_meta self slicer version) slicer version
  = _update_meta self slicer version.
Proof.
  unfold _update_meta. cbn [files meta].
  rewrite lookup_insert_eq, insert_insert_eq. cbn [fst].
  set (versions := match meta self !! slicer_value slicer with
                   | Some m => fst m
                   | None => []
                   end).
  destruct (existsb (String.eqb version) versions) eqn:E.
  - now rewrite E.
  - rewrite existsb_app. simpl. now rewrite String.eqb_refl, orb_true_r.
Qed.

Lemma create_stored_latest (p : ParsedProfile) (version k : string)
    (v : value) :
  wf_dict (p_settings p) ->
  dict_get k (p_settings p) = Some v -> is_meta_key k = false ->
  get_latest (_create_stored p version) k = v.
Proof.
  intros Hwf Hk Hm. unfold get_latest.
  rewrite (create_stored_settings p version Hwf).
  rewrite (dict_get_versioned (fun v => [(version, v)])).
  now rewrite Hm, Hk.
Qed.

(** The profile found under the coordinates of [p] after [p] has been
    ingested. *)
Lemma ingest_step_stored (slicer : SlicerType) (version : string)
    (st : IngestState) (p : ParsedProfile) :
  let pt := profile_type_value (p_profile_type p) in
  store_consistent (st_store st) ->
  p_slicer p = slicer ->
  wf_dict (p_settings p) ->
  (forall sp,
      _load (st_store st) (slicer_value slicer) pt (p_vendor p) (p_name p)
      = Some sp ->
      forall k h, dict_get k (settings sp) = Some h ->
                  version ∉ dict_keys h) ->
  (_load (st_store st) (slicer_value slicer) pt (p_vendor p) (p_name p)
   = None ->
   _extract_renamed_from (p_settings p) = None) ->
  exists sp1,
    _load (st_store (ingest_step slicer version st p))
      (slicer_value slicer) pt (p_vendor p) (p_name p) = Some sp1
    /\ last_seen sp1 = version
    /\ forall k v,
         dict_get k (p_settings p) = Some v -> is_meta_key k = false ->
         _normalize (get_latest sp1 k) = _normalize v.
Proof.
  intros pt Hcons Hslicer Hwf Hfresh Hnew. unfold ingest_step. fold pt.
  destruct (_load (st_store st) (slicer_value slicer) pt (p_vendor p)
              (p_name p)) as [sp|] eqn:Hload.
  - pose proof (merge_version_spec sp p version Hwf)
      as (_ & Hch & Hlast & _).
    pose proof (merge_version_latest_aux sp p version Hwf
                  (Hfresh sp eq_refl)) as Hlatest.
    pose proof (merge_version_path sp p version) as Hpath.
    destruct (_merge_version sp p version) as [e' ck] eqn:Hmv.
    cbn [fst snd] in *.
    assert (Hsaved :
              _load (_save (st_store st) e') (slicer_value slicer) pt
                (p_vendor p) (p_name p) = Some e').
    { unfold _load, _save. cbn [files].
      rewrite Hpath, (Hcons _ _ Hload). apply lookup_insert_eq. }
    destruct ck as [|c ck].
    + destruct (String.eqb_spec (last_seen sp) version) as [Heq|Hne];
        cbn [negb st_store].
      * exists sp. split; [exact Hload|]. split; [exact Heq|].
        intros k v Hk Hm.
        assert (Hd : differs sp (k, v) = false).
        { destruct (differs sp (k, v)) eqn:E; [|reflexivity].
          assert (Hin : k ∈ map fst (List.filter (differs sp) (p_settings p))).
          { apply list_elem_of_In, in_map_iff. exists (k, v).
            split; [reflexivity|]. apply filter_In.
            split; [|exact E].
            now apply list_elem_of_In, dict_get_elem_of. }
          rewrite <- Hch in Hin. now apply elem_of_nil in Hin. }
        cbn [fst snd] in Hd. rewrite Hm in Hd. cbn [negb andb] in Hd.
        apply negb_false_iff, String.eqb_eq in Hd. exact Hd.
      * exists e'. split; [exact Hsaved|]. split; [exact Hlast|].
        exact Hlatest.
    + cbn [st_store]. exists e'. split; [exact Hsaved|].
      split; [exact Hlast|exact Hlatest].
  - rewrite (Hnew eq_refl). cbn [st_store].
    exists (_create_stored p version). split; [|split].
    + unfold _load, _save. cbn [files].
      unfold stored_path, _create_stored. cbn [Models.slicer
        Models.profile_type Models.vendor Models.name].
      rewrite Hslicer. apply lookup_insert_eq.
    + reflexivity.
    + intros k v Hk Hm. now rewrite (create_stored_latest p version k v).
Qed.

(** X18.  Ingesting is idempotent: when a profile has been ingested at
    a version that is new to it, ingesting the same profile at the same
    version once more leaves the whole store directory as it is, and
    the report lists the profile as neither added nor changed. *)
Theorem reingest_is_noop (self : ProfileStore) (slicer : SlicerType)
    (version : string) (p : ParsedProfile) :
  let pt := profile_type_value (p_profile_type p) in
  store_consistent self ->
  p_slicer p = slicer ->
  wf_dict (p_settings p) ->
  (forall sp,
      get self slicer pt (p_vendor p) (p_name p) = Some sp ->
      forall k h, dict_get k (settings sp) = Some h ->
                  version ∉ dict_keys h) ->
  (get self slicer pt (p_vendor p) (p_name p) = None ->
   _extract_renamed_from (p_settings p) = None) ->
  let self1 := fst (ingest_profiles self slicer version [p]) in
  let again := ingest_profiles self1 slicer version [p] in
  fst again = self1
  /\ r_added (snd again) = []
  /\ r_changed (snd again) = []
  /\ r_unchanged (snd again) = 1%Z.
Proof.
  intros pt Hcons Hslicer Hwf Hfresh Hnew self1 again.
  destruct (ingest_step_stored slicer version (mkIngest self [] [] []) p
              Hcons Hslicer Hwf Hfresh Hnew)
    as (sp1 & Hload1 & Hlast1 & Hsame1).
  fold pt in Hload1.
  assert (Hstep :
            ingest_step slicer version (mkIngest self1 [] [] []) p
            = mkIngest self1 [] [] [_profile_key slicer pt (p_vendor p)
                                      (p_name p)]).
  { apply (ingest_step_noop slicer version (mkIngest self1 [] [] []) p sp1
             Hwf); [|exact Hlast1|exact Hsame1].
    exact Hload1. }
  unfold again, ingest_profiles. cbn [fold_left fst snd].
  rewrite Hstep. cbn [st_store st_added st_changed r_added r_changed
                      r_unchanged length].
  split; [|auto].
  unfold self1, ingest_profiles. cbn [fst]. apply update_meta_twice.
Qed.

Lemma reingest_is_noop_witness :
  let p :=
    mkParsed BAMBUSTUDIO FILAMENT "Bambu ABS" "BBL"
      [("nozzle_temperature", VInt 270); ("filament_type", VStr "ABS")]
      None None None None in
  let self1 := fst (ingest_profiles empty_store BAMBUSTUDIO "01.00.00" [p]) in
  let again := ingest_profiles self1 BAMBUSTUDIO "01.00.00" [p] in
  fst again = self1
  /\ r_added (snd again) = []
  /\ r_changed (snd again) = []
  /\ r_unchanged (snd again) = 1%Z.
Proof.
  intros p.
  apply (reingest_is_noop empty_store BAMBUSTUDIO "01.00.00" p).
  - apply empty_store_consistent.
  - reflexivity.
  - unfold wf_dict. simpl. apply (bool_decide_unpack _). vm_compute.
    exact I.
  - intros sp Hget. vm_compute in Hget. discriminate.
  - intros _. reflexivity.
Defined.

End IngestFacts.

(* --------------------------------------------------------------------- *)
(** ** Invariants of the store directory *)
(* --------------------------------------------------------------------- *)

Module InvariantFacts.
Import PyStr Versions Models Store StoreListing Notions DictFacts.
Import StoreFacts.

#[local] Arguments is_meta_key : simpl never.
#[local] Arguments _normalize : simpl never.

#[local] Abbreviation nonempty :=
  (Forall (fun kv : string * dict value => snd kv <> [])).

Lemma dict_set_not_nil {A : Type} (k : string) (v : A) (d : dict A) :
  dict_set k v d <> [].
Proof.
  destruct d as [|[k' v'] d]; simpl; [discriminate|].
  destruct (String.eqb k k'); discriminate.
Qed.

Lemma dict_update_not_nil {A : Type} (d other : dict A) :
  d <> [] -> dict_update d other <> [].
Proof.
  unfold dict_update. revert d; induction other as [|kv other IH];
    intros d Hd; [exact Hd|].
  simpl. apply IH, dict_set_not_nil.
Qed.

Lemma dict_copy_not_nil {A : Type} (d : dict A) :
  d <> [] -> dict_copy d <> [].
Proof.
  destruct d as [|kv d]; [congruence|]. intros _.
  unfold dict_copy, dict_update. simpl.
  apply (dict_update_not_nil [(fst kv, snd kv)] d). discriminate.
Qed.

Lemma nonempty_dict_set (k : string) (h : dict value)
    (d : dict (dict value)) :
  h <> [] -> nonempty d -> nonempty (dict_set k h d).
Proof.
  intros Hh. induction 1 as [|[k' h'] d Hx Hd IH]; simpl.
  - constructor; [exact Hh|constructor].
  - destruct (String.eqb k k'); constructor; auto.
Qed.

Lemma nonempty_dict_get (k : string) (h : dict value)
    (d : dict (dict value)) :
  nonempty d -> dict_get k d = Some h -> h <> [].
Proof.
  intros Hd Hk. apply dict_get_elem_of in Hk.
  rewrite Forall_forall in Hd. exact (Hd _ Hk).
Qed.

Lemma create_stored_nonempty (p : ParsedProfile) (version : string) :
  nonempty (settings (_create_stored p version)).
Proof.
  unfold _create_stored. simpl.
  assert (H : forall l acc,
             nonempty acc ->
             nonempty
               (fold_left
                  (fun (acc : dict (dict value)) kv =>
                     if is_meta_key (fst kv) then acc
                     else dict_set (fst kv) [(version, snd kv)] acc)
                  l acc)).
  { induction l as [|kv l IH]; intros acc Hacc; [exact Hacc|].
    simpl. apply IH. destruct (is_meta_key (fst kv)); [exact Hacc|].
    apply nonempty_dict_set; [discriminate|exact Hacc]. }
  apply H. constructor.
Qed.

Lemma merge_rename_nonempty (new_profile old_profile : StoredProfile) :
  nonempty (settings new_profile) -> nonempty (settings old_profile) ->
  nonempty (settings (_merge_rename new_profile old_profile)).
Proof.
  unfold _merge_rename. simpl.
  generalize (settings new_profile) as acc.
  induction (settings old_profile) as [|[k h] olds IH]; intros acc Hacc Hold;
    [exact Hacc|].
  apply Forall_cons_1 in Hold as [Hh Hold]. simpl in Hh.
  simpl. apply IH; [|exact Hold].
  destruct (dict_get k acc) as [new_versions|].
  - apply nonempty_dict_set; [|exact Hacc].
    now apply dict_update_not_nil, dict_copy_not_nil.
  - apply nonempty_dict_set; [|exact Hacc]. now apply dict_copy_not_nil.
Qed.

Lemma merge_fold_nonempty (version : string) (l : dict value)
    (cur : StoredProfile) (changed : list string) :
  nonempty (settings cur) ->
  nonempty
    (settings
       (fst
          (fold_left
             (fun (st : StoredProfile * list string) kv =>
                let '(cur, changed) := st in
                if is_meta_key (fst kv) then st
                else
                  let current := get_latest cur (fst kv) in
                  if negb (String.eqb (_normalize current)
                             (_normalize (snd kv)))
                  then
                    let history :=
                      match dict_get (fst kv) (settings cur) with
                      | Some h => h
                      | None => []
                      end in
                    (with_settings cur
                       (dict_set (fst kv)
                          (dict_set version (snd kv) history)
                          (settings cur)),
                     changed ++ [fst kv])
                  else st)
             l (cur, changed)))).
Proof.
  revert cur changed; induction l as [|kv l IH]; intros cur changed Hcur;
    [exact Hcur|].
  cbn [fold_left]. cbv beta iota zeta.
  destruct (is_meta_key (fst kv)); [now apply IH|].
  destruct (negb (String.eqb _ _)); [|now apply IH].
  apply IH. simpl.
  apply nonempty_dict_set; [apply dict_set_not_nil|exact Hcur].
Qed.

Lemma merge_version_nonempty (stored : StoredProfile) (p : ParsedProfile)
    (version : string) :
  nonempty (settings stored) ->
  nonempty (settings (fst (_merge_version stored p version))).
Proof.
  intros H. unfold _merge_version. now apply merge_fold_nonempty.
Qed.

#[local] Abbreviation store_nonempty self :=
  (forall path sp, files self !! path = Some sp -> nonempty (settings sp)).

Lemma save_nonempty (self : ProfileStore) (sp : StoredProfile) :
  store_nonempty self -> nonempty (settings sp) ->
  store_nonempty (_save self sp).
Proof.
  intros Hself Hsp path sp'. unfold _save. simpl.
  destruct (decide (stored_path sp = path)) as [<-|Hne].
  - rewrite lookup_insert_eq. now intros [= <-].
  - rewrite lookup_insert_ne by exact Hne. apply Hself.
Qed.

Lemma delete_nonempty (self : ProfileStore)
    (slicer_val pt vendor name : string) :
  store_nonempty self ->
  store_nonempty (_delete self slicer_val pt vendor name).
Proof.
  intros Hself path sp'. unfold _delete. simpl.
  intros H. apply lookup_delete_Some in H as [_ H]. now apply (Hself path).
Qed.

Lemma ingest_step_nonempty (slicer : SlicerType) (version : string)
    (st : IngestState) (p : ParsedProfile) :
  store_nonempty (st_store st) ->
  store_nonempty (st_store (ingest_step slicer version st p)).
Proof.
  intros Hst. unfold ingest_step.
  destruct (_load (st_store st) _ _ _ (p_name p)) as [existing|] eqn:Hload.
  - pose proof (merge_version_nonempty existing p version
                  (Hst _ _ Hload)) as Hm.
    destruct (_merge_version existing p version) as [e' ck]. simpl in Hm.
    destruct ck; simpl.
    + destruct (negb _); [now apply save_nonempty|exact Hst].
    + now apply save_nonempty.
  - pose proof (create_stored_nonempty p version) as Hc.
    destruct (_extract_renamed_from _) as [old|];
      [|now apply save_nonempty].
    destruct (negb _); [|now apply save_nonempty].
    destruct (_load (st_store st) _ _ _ old) as [old_profile|] eqn:Hold;
      [|now apply save_nonempty].
    cbn [st_store]. apply save_nonempty; [now apply delete_nonempty|].
    apply merge_rename_nonempty; [exact Hc|exact (Hst _ _ Hold)].
Qed.

Lemma ingest_profiles_nonempty (self : ProfileStore) (slicer : SlicerType)
    (version : string) (profiles : list ParsedProfile) :
  store_nonempty self ->
  store_nonempty (fst (ingest_profiles self slicer version profiles)).
Proof.
  intros Hself. unfold ingest_profiles. simpl.
  change self with (st_store (mkIngest self [] [] [])) in Hself.
  revert Hself. generalize (mkIngest self [] [] []) as st.
  induction profiles as [|p ps IH]; intros st Hst; [exact Hst|].
  simpl. apply IH. now apply ingest_step_nonempty.
Qed.

(** X14.  No history is empty: in a store directory filled by
    ingestions, every history of every profile found there has at least
    one entry, so [get_latest] returns a recorded value for every key
    the profile has. *)
Theorem reachable_histories_nonempty (self : ProfileStore) :
  reachable self ->
  forall slicer profile_type vendor name sp k h,
    get self slicer profile_type vendor name = Some sp ->
    dict_get k (settings sp) = Some h ->
    h <> []
    /\ exists ver, (ver, get_latest sp k) ∈ h.
Proof.
  intros Hreach.
  assert (Hinv : store_nonempty self).
  { induction Hreach as [|self slicer version profiles _ IH].
    - intros path sp H. exfalso. unfold empty_store in H. simpl in H.
      now rewrite lookup_empty in H.
    - now apply ingest_profiles_nonempty. }
  intros slicer pt vendor name sp k h Hget Hk.
  pose proof (nonempty_dict_get k h _ (Hinv _ _ Hget) Hk) as Hne.
  split; [exact Hne|].
  unfold get_latest. rewrite Hk.
  destruct h as [|vv h']; [now destruct Hne|].
  exists (fst (List.last (vv :: h') (EmptyString, VNone))).
  change VNone with (snd (EmptyString, VNone)).
  unfold dict_values. rewrite ModelsFacts.last_map, <- surjective_pairing.
  apply ModelsFacts.last_elem_of. discriminate.
Qed.

Lemma reachable_histories_nonempty_witness :
  let p :=
    mkParsed BAMBUSTUDIO FILAMENT "Bambu ABS" "BBL"
      [("nozzle_temperature", VInt 270)] None None None None in
  let self := fst (ingest_profiles empty_store BAMBUSTUDIO "01.00.00" [p]) in
  [("01.00.00", VInt 270)] <> []
  /\ exists ver,
       (ver, get_latest (_create_stored p "01.00.00") "nozzle_temperature")
       ∈ [("01.00.00", VInt 270)].
Proof.
  intros p self.
  apply (reachable_histories_nonempty self
           (reachable_ingest _ _ _ _ reachable_empty)
           BAMBUSTUDIO "filament" "BBL" "Bambu ABS"
           (_create_stored p "01.00.00") "nozzle_temperature").
  - vm_compute. reflexivity.
  - vm_compute. reflexivity.
Defined.







Lemma length_dict_set {A : Type} (k : string) (v : A) (d : dict A) :
  length (dict_set k v d) <= S (length d).
Proof.
  induction d as [|[k' v'] d IH]; simpl; [lia|].
  destruct (String.eqb k k'); simpl; lia.
Qed.

Lemma ingest_step_counts (slicer : SlicerType) (version : string)
    (st : IngestState) (p : ParsedProfile) :
  let st' := ingest_step slicer version st p in
  length (st_added st') + length (st_changed st')
  <= S (length (st_added st) + length (st_changed st))
  /\ (forall n, n ∈ st_added st' -> n ∈ st_added st \/ n = p_name p)
  /\ (forall n, n ∈ dict_keys (st_changed st') ->
        n ∈ dict_keys (st_changed st) \/ n = p_name p).
Proof.
  unfold ingest_step.
  destruct (_load (st_store st) _ _ _ (p_name p)) as [existing|].
  - destruct (_merge_version existing p version) as [e' ck].
    destruct ck as [|c ck]; cbn [st_added st_changed].
    + split; [lia|]. split; auto.
    + split; [pose proof (length_dict_set (p_name p) (c :: ck)
                            (st_changed st)); lia|].
      split; [auto|]. intros n Hn. rewrite dict_keys_dict_set in Hn.
      destruct (dict_mem (p_name p) (st_changed st)); [now left|].
      apply elem_of_app in Hn as [Hn|Hn]; [now left|right].
      now apply list_elem_of_singleton in Hn.
  - assert (Hadd :
              forall self' stored,
                let st' :=
                  mkIngest (_save self' stored) (st_added st ++ [p_name p])
                    (st_changed st)
                    (_profile_key slicer
                       (profile_type_value (p_profile_type p))
                       (p_vendor p) (p_name p) :: st_seen st) in
                length (st_added st') + length (st_changed st')
                <= S (length (st_added st) + length (st_changed st))
                /\ (forall n, n ∈ st_added st' ->
                      n ∈ st_added st \/ n = p_name p)
                /\ (forall n, n ∈ dict_keys (st_changed st') ->
                      n ∈ dict_keys (st_changed st) \/ n = p_name p)).
    { intros self' stored. cbn [st_added st_changed].
      split; [rewrite length_app; simpl; lia|]. split; [|auto].
      intros n Hn. apply elem_of_app in Hn as [Hn|Hn]; [now left|right].
      now apply list_elem_of_singleton in Hn. }
    destruct (_extract_renamed_from _) as [old|]; [|apply Hadd].
    destruct (negb _); [|apply Hadd].
    destruct (_load (st_store st) _ _ _ old); apply Hadd.
Qed.

Lemma ingest_fold_counts (slicer : SlicerType) (version : string)
    (profiles : list ParsedProfile) (st : IngestState) :
  let st' := fold_left (ingest_step slicer version) profiles st in
  length (st_added st') + length (st_changed st')
  <= length profiles + (length (st_added st) + length (st_changed st))
  /\ (forall n, n ∈ st_added st' ->
        n ∈ st_added st \/ exists p, p ∈ profiles /\ p_name p = n)
  /\ (forall n, n ∈ dict_keys (st_changed st') ->
        n ∈ dict_keys (st_changed st)
        \/ exists p, p ∈ profiles /\ p_name p = n).
Proof.
  revert st; induction profiles as [|p ps IH]; intros st.
  - simpl. split; [lia|]. split; auto.
  - cbn [fold_left]. cbv zeta.
    destruct (IH (ingest_step slicer version st p)) as (H1 & H2 & H3).
    destruct (ingest_step_counts slicer version st p) as (S1 & S2 & S3).
    split; [simpl; lia|]. split.
    + intros n Hn. destruct (H2 n Hn) as [Hn'|(q & Hq & <-)].
      * destruct (S2 n Hn') as [Hx| ->]; [now left|right].
        exists p. split; [apply list_elem_of_here|reflexivity].
      * right. exists q. split; [now apply list_elem_of_further|reflexivity].
    + intros n Hn. destruct (H3 n Hn) as [Hn'|(q & Hq & <-)].
      * destruct (S3 n Hn') as [Hx| ->]; [now left|right].
        exists p. split; [apply list_elem_of_here|reflexivity].
      * right. exists q. split; [now apply list_elem_of_further|reflexivity].
Qed.

(** X17.  The counts of an ingestion report are sound: the number of
    processed profiles is the number of profiles given, the number of
    unchanged profiles is never negative, and every name reported as
    added or as changed is the name of one of the profiles given. *)
Theorem report_counts (self : ProfileStore) (slicer : SlicerType)
    (version : string) (profiles : list ParsedProfile) :
  let report := snd (ingest_profiles self slicer version profiles) in
  r_profiles_processed report = length profiles
  /\ (0 <= r_unchanged report)%Z
  /\ (forall n, n ∈ r_added report ->
        exists p, p ∈ profiles /\ p_name p = n)
  /\ (forall n, n ∈ dict_keys (r_changed report) ->
        exists p, p ∈ profiles /\ p_name p = n).
Proof.
  unfold ingest_profiles. cbn [snd r_profiles_processed r_unchanged r_added
                               r_changed].
  destruct (ingest_fold_counts slicer version profiles
              (mkIngest self [] [] [])) as (H1 & H2 & H3).
  cbn [st_added st_changed length] in *.
  split; [reflexivity|]. split; [lia|]. split.
  - intros n Hn. destruct (H2 n Hn) as [Hn'|H]; [|exact H].
    now apply elem_of_nil in Hn'.
  - intros n Hn. destruct (H3 n Hn) as [Hn'|H]; [|exact H].
    now apply elem_of_nil in Hn'.
Qed.

End InvariantFacts.

(* --------------------------------------------------------------------- *)
(** ** Storing, collecting and collecting garbage of resource files *)
(* --------------------------------------------------------------------- *)

Module ContentStoreFacts.
Import PyStr Models Resources ResourceScan StoreListing Notions DictFacts.
Import ResourcesFacts.

#[local] Arguments entry_file : simpl never.

#[local] Abbreviation referenced_entry R :=
  (fun kv : string * ManifestEntry => bool_decide (fst kv ∈ R)).

#[local] Abbreviation unreferenced R :=
  (fun h : string => negb (bool_decide (h ∈ R))).

Lemma dict_set_twice {A : Type} (k : string) (v : A) (d : dict A) :
  dict_set k v (dict_set k v d) = dict_set k v d.
Proof.
  induction d as [|[k' v'] d IH]; simpl.
  - now rewrite String.eqb_refl.
  - destruct (String.eqb k k') eqn:E; simpl; rewrite E; [reflexivity|].
    now rewrite IH.
Qed.

Section WithHash.
Variable sha256_hex : string -> string.

(** X19.  Storing is idempotent: storing the same file a second time
    returns the same hash and leaves the directory and the manifest as
    the first time left them. *)
Theorem store_idempotent (self : ResourceStore) (file_name content : string) :
  store sha256_hex (fst (store sha256_hex self file_name content))
    file_name content
  = store sha256_hex self file_name content.
Proof.
  unfold store. cbn [fst res_files _manifest manifest_on_disk].
  rewrite dict_set_twice. f_equal. f_equal.
  destruct (res_files self !! _) eqn:E.
  - now rewrite E.
  - now rewrite lookup_insert_eq.
Qed.

(** The suffix of a file name: a dot followed by characters that are
    no dots. *)
Lemma last_dot_suffix_none (s : string) :
  last_dot_suffix s = None -> free_of is_dot s = true.
Proof.
  induction s as [|c s IH]; [reflexivity|]. cbn [last_dot_suffix free_of].
  destruct (last_dot_suffix s); [discriminate|].
  change (is_dot c) with (code c =? 46)%nat.
  destruct (code c =? 46)%nat; [discriminate|].
  intros _. now rewrite IH.
Qed.

Lemma last_dot_suffix_shape (s suf : string) :
  last_dot_suffix s = Some suf ->
  exists r, suf = String "." r /\ free_of is_dot r = true.
Proof.
  induction s as [|c s IH]; [discriminate|]. cbn [last_dot_suffix].
  destruct (last_dot_suffix s) as [suf'|] eqn:E.
  - intros [= <-]. now apply IH.
  - destruct (code c =? 46)%nat eqn:Hc; [|discriminate].
    intros [= <-]. exists s. split.
    + f_equal. apply Nat.eqb_eq in Hc.
      exact (ConditionsFacts.code_inj _ _ Hc).
    + now apply last_dot_suffix_none.
Qed.

Lemma path_suffix_shape (file_name : string) :
  path_suffix file_name <> EmptyString ->
  exists r, path_suffix file_name = String "." r
            /\ free_of is_dot r = true.
Proof.
  unfold path_suffix. destruct file_name as [|c rest]; [congruence|].
  destruct (last_dot_suffix rest) as [suf|] eqn:E; [|congruence].
  destruct (last_dot_suffix_shape _ _ E) as (r & -> & Hr).
  destruct r; [congruence|]. intros _. eauto.
Qed.

Lemma lstrip_free (p : ascii -> bool) (s : string) :
  free_of p s = true -> lstrip p s = s.
Proof.
  destruct s as [|c s]; [reflexivity|]. simpl.
  intros H. apply andb_prop in H as [H _].
  apply negb_true_iff in H. now rewrite H.
Qed.

(** The file [store] writes is the file its manifest entry points to. *)
Lemma store_dest (file_name : string) (h : string) (n : nat) :
  path_suffix file_name <> EmptyString ->
  entry_file h
    (mkEntry file_name n (lower (lstrip is_dot (path_suffix file_name))))
  = (h ++ lower (path_suffix file_name))%string.
Proof.
  intros Hne. destruct (path_suffix_shape _ Hne) as (r & -> & Hr).
  unfold entry_file. cbn [type lstrip]. unfold is_dot at 1.
  cbn [code nat_of_ascii]. simpl (_ =? _)%nat. cbv iota.
  now rewrite (lstrip_free _ _ Hr).
Qed.

Lemma store_result (self : ResourceStore) (file_name content : string) :
  path_suffix file_name <> EmptyString ->
  let h := sha256_hex content in
  let e := mkEntry file_name (String.length content)
             (lower (lstrip is_dot (path_suffix file_name))) in
  let self' := fst (store sha256_hex self file_name content) in
  snd (store sha256_hex self file_name content) = h
  /\ _manifest self' = dict_set h e (_manifest self)
  /\ manifest_on_disk self' = manifest_on_disk self
  /\ res_files self' !! entry_file h e
     = Some (match res_files self !! entry_file h e with
             | Some old => old
             | None => content
             end)
  /\ forall f, f <> entry_file h e ->
               res_files self' !! f = res_files self !! f.
Proof.
  intros Hne h e self'.
  assert (Hdest : entry_file h e
                  = (h ++ lower (path_suffix file_name))%string).
  { exact (store_dest file_name h _ Hne). }
  unfold self', store. cbn [fst snd _manifest manifest_on_disk res_files].
  fold h. rewrite <- Hdest.
  split; [reflexivity|]. split; [reflexivity|]. split; [reflexivity|].
  destruct (res_files self !! entry_file h e) eqn:E.
  - split; [exact E|reflexivity].
  - split; [apply lookup_insert_eq|].
    intros f Hf. now apply lookup_insert_ne.
Qed.

(** X20.  A stored file is found again by its hash: after [store] of a
    file whose name has an extension, [get_path] of the returned hash
    is the file [{hash}{extension in lower case}], [resolve_filename]
    is the name of the file, and the file holds the stored bytes unless
    a file of that name was there before, which is then left as it
    is. *)
Theorem store_then_get_path (self : ResourceStore)
    (file_name content : string) :
  path_suffix file_name <> EmptyString ->
  let self' := fst (store sha256_hex self file_name content) in
  let h := snd (store sha256_hex self file_name content) in
  let dest := (h ++ lower (path_suffix file_name))%string in
  h = sha256_hex content
  /\ get_path self' h = Some dest
  /\ resolve_filename self' h = Some file_name
  /\ res_files self' !! dest
     = Some (match res_files self !! dest with
             | Some old => old
             | None => content
             end).
Proof.
  intros Hne.
  destruct (store_result self file_name content Hne)
    as (Hh & Hm & _ & Hfile & _).
  cbv zeta in *. rewrite Hh.
  rewrite <- (store_dest file_name (sha256_hex content)
                (String.length content) Hne).
  unfold get_path, resolve_filename. rewrite Hm.
  rewrite dict_get_dict_set, String.eqb_refl. cbn [option_map filename].
  split; [reflexivity|]. split; [|split; [reflexivity|]].
  - now rewrite Hfile.
  - exact Hfile.
Qed.

(** The resource map and the store after the loop of
    [collect_resources]. *)
Lemma collect_fold (l : list (string * string)) (st : ResourceStore)
    (m : dict string) (P : string -> string -> Prop) :
  (forall f, f ∈ l -> path_suffix (fst f) <> EmptyString) ->
  (forall f, f ∈ l -> P (fst f) (sha256_hex (snd f))) ->
  (forall n h,
      dict_get n m = Some h ->
      P n h /\ is_Some (get_path st h)) ->
  let result :=
    fold_left
      (fun (acc : ResourceStore * dict string) f =>
         let '(st', hash_hex) := store sha256_hex (fst acc) (fst f) (snd f) in
         (st', dict_set (fst f) hash_hex (snd acc)))
      l (st, m) in
  forall n h,
    dict_get n (snd result) = Some h ->
    P n h /\ is_Some (get_path (fst result) h).
Proof.
  revert st m; induction l as [|[name content] l IH];
    intros st m Hsuf HP Hinv; [exact Hinv|].
  cbn [fold_left fst snd].
  assert (Hne : path_suffix name <> EmptyString).
  { exact (Hsuf (name, content) (list_elem_of_here _ _)). }
  destruct (store_result st name content Hne)
    as (Hh & Hm & _ & Hfile & Hother).
  cbv zeta in *.
  destruct (store sha256_hex st name content) as [st' h0] eqn:Hstore.
  cbn [fst snd] in *. subst h0.
  apply IH.
  - intros f Hf. apply Hsuf. now apply list_elem_of_further.
  - intros f Hf. apply HP. now apply list_elem_of_further.
  - intros n h. rewrite dict_get_dict_set.
    assert (Hnew : is_Some (get_path st' (sha256_hex content))).
    { unfold get_path. rewrite Hm, dict_get_dict_set, String.eqb_refl.
      rewrite Hfile. eauto. }
    destruct (String.eqb n name) eqn:En.
    + intros [= <-]. apply String.eqb_eq in En as ->.
      split; [|exact Hnew].
      exact (HP (name, content) (list_elem_of_here _ _)).
    + intros Hn. destruct (Hinv n h Hn) as [HPn Hpath].
      split; [exact HPn|].
      destruct (String.eqb_spec h (sha256_hex content)) as [->|Hhne];
        [exact Hnew|].
      unfold get_path in *. rewrite Hm, dict_get_dict_set.
      apply String.eqb_neq in Hhne. rewrite Hhne.
      destruct (dict_get h (_manifest st)) as [e|]; [|exact Hpath].
      destruct (decide (entry_file h e
                        = entry_file (sha256_hex content)
                            (mkEntry name (String.length content)
                               (lower (lstrip is_dot (path_suffix name))))))
        as [Heq|Hfne].
      * rewrite Heq, Hfile. eauto.
      * now rewrite (Hother _ Hfne).
Qed.

(** X21.  Every hash handed out by [collect_resources] resolves: for
    each file name in the returned map, the hash is the hash of a file
    found under that name, [get_path] of the hash is a file of the
    resource directory, and the manifest has been written. *)
Theorem collect_resources_resolves (found : list (string * string))
    (store0 : ResourceStore) :
  (forall f, f ∈ found -> path_suffix (fst f) <> EmptyString) ->
  let result := collect_resources sha256_hex found store0 in
  manifest_on_disk (fst result) = Some (_manifest (fst result))
  /\ forall n h,
       dict_get n (snd result) = Some h ->
       (exists content, (n, content) ∈ found /\ h = sha256_hex content)
       /\ is_Some (get_path (fst result) h).
Proof.
  intros Hsuf. unfold collect_resources.
  pose proof (collect_fold found store0 []
                (fun n h => exists content,
                     (n, content) ∈ found /\ h = sha256_hex content)
                Hsuf) as Hfold.
  cbv zeta in Hfold.
  destruct (fold_left _ found (store0, [])) as [st m].
  cbn [fst snd] in *. split; [reflexivity|].
  intros n h Hn. destruct (Hfold) with (n := n) (h := h) as [HP Hpath].
  - intros [name content] Hf. exists content. split; [exact Hf|reflexivity].
  - intros n' h' [=].
  - exact Hn.
  - split; [exact HP|]. exact Hpath.
Qed.

End WithHash.

Lemma collect_resources_resolves_witness :
  let result :=
    collect_resources (fun content => "ab12")
      [("bed.STL", "solid")] (open_resources ∅ None) in
  dict_get "bed.STL" (snd result) = Some "ab12"
  /\ is_Some (get_path (fst result) "ab12").
Proof.
  intros result. split; [reflexivity|].
  assert (Hsuf : forall f : string * string,
             f ∈ [("bed.STL", "solid")] ->
             path_suffix (fst f) <> EmptyString).
  { intros f Hf. apply list_elem_of_singleton in Hf as ->. discriminate. }
  destruct (collect_resources_resolves (fun content => "ab12")
              [("bed.STL", "solid")] (open_resources ∅ None) Hsuf)
    as [_ H].
  exact (proj2 (H "bed.STL" "ab12" eq_refl)).
Defined.

Lemma store_then_get_path_witness :
  let self' :=
    fst (store (fun content => "ab12") (open_resources ∅ None)
           "Bed.Model.STL" "solid") in
  get_path self' "ab12" = Some "ab12.stl"
  /\ resolve_filename self' "ab12" = Some "Bed.Model.STL"
  /\ res_files self' !! "ab12.stl" = Some "solid".
Proof.
  intros self'.
  assert (Hne : path_suffix "Bed.Model.STL" <> EmptyString) by discriminate.
  destruct (store_then_get_path (fun content => "ab12")
              (open_resources ∅ None) "Bed.Model.STL" "solid" Hne)
    as (_ & Hpath & Hname & Hfile).
  split; [exact Hpath|]. split; [exact Hname|exact Hfile].
Defined.

Lemma filter_holds {A : Type} (f : A -> bool) (l : list A) :
  Forall (fun x => f x = true) (List.filter f l).
Proof.
  induction l as [|x l IH]; [constructor|]. simpl.
  destruct (f x) eqn:E; [constructor; assumption|exact IH].
Qed.

Lemma wf_dict_filter {A : Type} (f : string * A -> bool) (d : dict A) :
  wf_dict d -> wf_dict (List.filter f d).
Proof.
  unfold wf_dict. induction d as [|[k v] d IH]; [constructor|].
  simpl. intros H. apply NoDup_cons in H as [Hk Hd].
  destruct (f (k, v)); [|now apply IH].
  simpl. constructor; [|now apply IH].
  intros Hin. apply Hk. apply elem_of_dict_keys in Hin as [v' Hin].
  apply list_elem_of_In, filter_In in Hin as [Hin _].
  apply elem_of_dict_keys. exists v'. now apply list_elem_of_In.
Qed.

(** A manifest with referenced entries only is left alone. *)
Lemma gc_all_referenced (R : gset string) (manifest : dict ManifestEntry)
    (files : gmap string string) :
  Forall (fun kv => referenced_entry R kv = true) manifest ->
  List.filter (referenced_entry R) manifest = manifest
  /\ List.filter (unreferenced R) (dict_keys manifest) = []
  /\ gc_files R manifest files = files.
Proof.
  unfold gc_files. revert files.
  induction 1 as [|[h e] manifest Hh _ IH]; [auto|].
  cbn [fst snd] in Hh. cbn [List.filter dict_keys map fold_left fst snd].
  rewrite Hh. cbn [negb]. destruct IH as (-> & IH2 & ->).
  unfold dict_keys in IH2. now rewrite IH2.
Qed.

(** X22.  Collecting garbage is idempotent: a second [gc] with the
    same referenced hashes removes nothing and leaves the directory,
    the manifest and the manifest file as the first left them. *)
Theorem gc_idempotent (self : ResourceStore) (R : gset string) :
  wf_dict (_manifest self) ->
  gc (fst (gc self R)) R = (fst (gc self R), []).
Proof.
  intros Hwf.
  destruct (gc_result self R Hwf) as (_ & Hm & _).
  destruct (fst (gc self R)) as [files1 manifest1 disk1].
  cbn [_manifest] in Hm.
  assert (Hwf1 : wf_dict manifest1).
  { rewrite Hm. now apply wf_dict_filter. }
  assert (Hall : Forall (fun kv => referenced_entry R kv = true) manifest1).
  { rewrite Hm. apply filter_holds. }
  destruct (gc_all_referenced R manifest1 files1 Hall) as (H1 & H2 & H3).
  unfold gc. cbn [_manifest].
  pose proof (gc_fold R manifest1 [] files1 disk1 [] Hwf1) as Hfold.
  cbn [List.filter app] in Hfold. rewrite Hfold, H1, H2, H3. reflexivity.
Qed.

Lemma gc_idempotent_witness :
  let self :=
    mkResources
      (<["ab12.stl" := "solid"]> (<["cd34.png" := "image"]> ∅))
      [("ab12", mkEntry "bed.stl" 5 "stl");
       ("cd34", mkEntry "logo.png" 5 "png")]
      None in
  let R : gset string := {["ab12"]} in
  snd (gc self R) = ["cd34"]
  /\ gc (fst (gc self R)) R = (fst (gc self R), []).
Proof.
  intros self R. split; [vm_compute; reflexivity|].
  apply (gc_idempotent self R).
  unfold wf_dict. simpl. apply (bool_decide_unpack _). vm_compute. exact I.
Defined.

(** The value [rewrite_resource_refs] leaves under a key. *)
Lemma rewrite_fold_get (resource_map : dict string) (keys : list string)
    (settings : dict value) (k : string) :
  NoDup keys ->
  dict_get k
    (fold_left
       (fun (acc : dict value) key =>
          match dict_get key acc with
          | Some (VStr value) =>
              if negb (String.eqb value EmptyString) then
                match dict_get value resource_map with
                | Some hash_hex =>
                    dict_set key (VStr ("sha256:" ++ hash_hex)) acc
                | None => acc
                end
              else acc
          | _ => acc
          end)
       keys settings)
  = match dict_get k settings with
    | Some (VStr value) =>
        if bool_decide (k ∈ keys) && negb (String.eqb value EmptyString)
        then match dict_get value resource_map with
             | Some hash_hex => Some (VStr ("sha256:" ++ hash_hex))
             | None => Some (VStr value)
             end
        else Some (VStr value)
    | other => other
    end.
Proof.
  revert settings; induction keys as [|key keys IH]; intros settings Hnd.
  - simpl. destruct (dict_get k settings) as [[]|]; reflexivity.
  - apply NoDup_cons in Hnd as [Hkey Hnd]. cbn [fold_left].
    rewrite (IH _ Hnd).
    destruct (String.eqb_spec k key) as [->|Hne].
    + rewrite (bool_decide_eq_false_2 _ Hkey).
      rewrite (bool_decide_eq_true_2 (key ∈ key :: keys))
        by apply list_elem_of_here.
      cbn [andb].
      destruct (dict_get key settings) as [[| | |value| |]|] eqn:E;
        rewrite ?E; try reflexivity.
      destruct (String.eqb value EmptyString); cbn [negb];
        [now rewrite E|].
      destruct (dict_get value resource_map) as [hash_hex|];
        [|now rewrite E].
      now rewrite dict_get_dict_set, String.eqb_refl.
    + assert (Hmem : bool_decide (k ∈ key :: keys)
                     = bool_decide (k ∈ keys)).
      { apply bool_decide_ext. rewrite elem_of_cons. tauto. }
      rewrite Hmem.
      assert (Hsame :
                dict_get k
                  match dict_get key settings with
                  | Some (VStr value) =>
                      if negb (String.eqb value EmptyString) then
                        match dict_get value resource_map with
                        | Some hash_hex =>
                            dict_set key (VStr ("sha256:" ++ hash_hex))
                              settings
                        | None => settings
                        end
                      else settings
                  | _ => settings
                  end
                = dict_get k settings).
      { destruct (dict_get key settings) as [[| | |value| |]|];
          try reflexivity.
        destruct (negb _); [|reflexivity].
        destruct (dict_get value resource_map); [|reflexivity].
        rewrite dict_get_dict_set.
        apply String.eqb_neq in Hne. now rewrite Hne. }
      now rewrite Hsame.
Qed.

(** X23.  [rewrite_resource_refs] touches resource references only:
    under one of the four resource keys, a non-empty file name found in
    the resource map becomes [sha256:] followed by its hash; every
    other value, and every key, stays as it is. *)
Theorem rewrite_settings_spec (resource_map : dict string)
    (settings : dict value) :
  dict_keys (rewrite_settings resource_map settings) = dict_keys settings
  /\ forall k,
       dict_get k (rewrite_settings resource_map settings)
       = match dict_get k settings with
         | Some (VStr value) =>
             if bool_decide (k ∈ RESOURCE_SETTING_KEYS)
                && negb (String.eqb value EmptyString)
             then match dict_get value resource_map with
                  | Some hash_hex => Some (VStr ("sha256:" ++ hash_hex))
                  | None => Some (VStr value)
                  end
             else Some (VStr value)
         | other => other
         end.
Proof.
  split.
  - unfold rewrite_settings.
    generalize RESOURCE_SETTING_KEYS as keys. intros keys. revert settings.
    induction keys as [|key keys IH]; intros settings; [reflexivity|].
    cbn [fold_left]. rewrite IH.
    destruct (dict_get key settings) as [[| | |value| |]|] eqn:E;
      try reflexivity.
    destruct (negb _); [|reflexivity].
    destruct (dict_get value resource_map); [|reflexivity].
    rewrite dict_keys_dict_set. unfold dict_mem. now rewrite E.
  - intros k. unfold rewrite_settings. apply rewrite_fold_get.
    apply (bool_decide_unpack _). vm_compute. exact I.
Qed.

(** What [gc] keeps: the answers for a referenced hash. *)
Lemma gc_keeps (self : ResourceStore) (R : gset string) (h : string) :
  wf_dict (_manifest self) ->
  Forall (fun h => is_hex h = true) (dict_keys (_manifest self)) ->
  h ∈ R ->
  (h ∉ snd (gc self R))
  /\ get_path (fst (gc self R)) h = get_path self h
  /\ resolve_filename (fst (gc self R)) h = resolve_filename self h.
Proof.
  intros Hwf Hhex Hin.
  destruct (gc_result self R Hwf) as (Hfiles & Hmanifest & Hremoved).
  assert (Hkeep :
            dict_get h (_manifest (fst (gc self R)))
            = dict_get h (_manifest self)).
  { assert (Hk :
              dict_get h (List.filter (referenced_entry R) (_manifest self))
              = if bool_decide (h ∈ R) then dict_get h (_manifest self)
                else None).
    { exact (dict_get_filter_key
               (fun h0 : string => bool_decide (h0 ∈ R)) h
               (_manifest self)). }
    rewrite Hmanifest, Hk. now rewrite bool_decide_eq_true_2. }
  split; [|split].
  - rewrite Hremoved. intros Hrem.
    apply list_elem_of_In, filter_In in Hrem as [_ Hrem].
    now rewrite bool_decide_eq_true_2 in Hrem.
  - unfold get_path. rewrite Hkeep.
    destruct (dict_get h (_manifest self)) as [e|] eqn:Hget; [|reflexivity].
    rewrite Hfiles, gc_files_lookup.
    destruct (existsb _ _) eqn:Hex; [|reflexivity].
    exfalso.
    apply existsb_exists in Hex as ([h' e'] & Hin' & Hcond).
    cbn [fst snd] in Hcond. apply andb_prop in Hcond as [Hnot Heq].
    apply String.eqb_eq in Heq.
    rewrite Forall_forall in Hhex.
    apply entry_file_inj in Heq.
    + subst h'. rewrite bool_decide_eq_true_2 in Hnot by exact Hin.
      discriminate.
    + apply Hhex, elem_of_dict_keys. exists e. now apply dict_get_elem_of.
    + apply Hhex, elem_of_dict_keys. exists e'. now apply list_elem_of_In.
  - unfold resolve_filename. now rewrite Hkeep.
Qed.

Lemma elem_of_referenced_in (settings : dict (dict value)) (h : string) :
  h ∈ referenced_in settings
  <-> exists key versions s,
        key ∈ RESOURCE_SETTING_KEYS
        /\ dict_get key settings = Some versions
        /\ VStr s ∈ dict_values versions
        /\ startswith "sha256:" s = true
        /\ h = drop 7 s.
Proof.
  unfold referenced_in. rewrite list_elem_of_In, in_flat_map. split.
  - intros (key & Hkey & Hin). apply list_elem_of_In in Hkey.
    destruct (dict_get key settings) as [versions|] eqn:E; [|destruct Hin].
    apply list_elem_of_In, list_elem_of_omap in Hin as (v & Hv & Hsome).
    destruct v as [| | |s| |]; try discriminate.
    destruct (startswith "sha256:" s) eqn:Hs; [|discriminate].
    injection Hsome as <-. exists key, versions, s. auto.
  - intros (key & versions & s & Hkey & Hget & Hv & Hs & ->).
    exists key. split; [now apply list_elem_of_In|].
    rewrite Hget. apply list_elem_of_In, list_elem_of_omap.
    exists (VStr s). split; [exact Hv|]. now rewrite Hs.
Qed.

Lemma elem_of_collect_referenced (store : Store.ProfileStore)
    (slicer_value h : string) :
  h ∈ collect_referenced_hashes store slicer_value
  <-> exists v t n sp,
        Store.files store !! (slicer_value, v, t, n) = Some sp
        /\ reserved_path v t n = false
        /\ h ∈ referenced_in (settings sp).
Proof.
  unfold collect_referenced_hashes.
  rewrite elem_of_list_to_set, list_elem_of_In, in_flat_map. split.
  - intros ([[[[s v] t] n] sp] & Hin & Hh).
    apply list_elem_of_In, elem_of_map_to_list in Hin.
    cbn [fst snd] in Hh.
    destruct (String.eqb_spec s slicer_value) as [->|]; [|destruct Hh].
    destruct (reserved_path v t n) eqn:Hr; [destruct Hh|].
    cbn [negb andb] in Hh. exists v, t, n, sp.
    split; [exact Hin|]. split; [exact Hr|]. now apply list_elem_of_In.
  - intros (v & t & n & sp & Hfile & Hr & Hh).
    exists ((slicer_value, v, t, n), sp).
    split; [now apply list_elem_of_In, elem_of_map_to_list|].
    cbn [fst snd]. rewrite String.eqb_refl, Hr. cbn [negb andb].
    now apply list_elem_of_In.
Qed.

Lemma drop_prefix (pre s : string) :
  drop (String.length pre) (pre ++ s) = s.
Proof. induction pre as [|c pre IH]; [reflexivity|exact IH]. Qed.

Lemma startswith_prefix (pre s : string) : startswith pre (pre ++ s) = true.
Proof.
  induction pre as [|c pre IH]; [reflexivity|]. simpl.
  now rewrite Ascii.eqb_refl.
Qed.

(** X24.  Referenced resources survive the garbage collection of the
    pipeline: a hash that a stored profile of the slicer names as
    [sha256:{hash}] under a resource key, at any version, is in the
    set [collect_referenced_hashes] returns, and [gc] with that set
    neither removes it nor changes what [get_path] and
    [resolve_filename] answer for it. *)
Theorem referenced_resources_survive (store : Store.ProfileStore)
    (slicer_value : string) (resources : ResourceStore)
    (v t n : string) (sp : StoredProfile) (key : string)
    (versions : dict value) (ver h : string) :
  wf_dict (_manifest resources) ->
  Forall (fun h => is_hex h = true) (dict_keys (_manifest resources)) ->
  Store.files store !! (slicer_value, v, t, n) = Some sp ->
  reserved_path v t n = false ->
  key ∈ RESOURCE_SETTING_KEYS ->
  dict_get key (settings sp) = Some versions ->
  (ver, VStr ("sha256:" ++ h)) ∈ versions ->
  let R := collect_referenced_hashes store slicer_value in
  h ∈ R
  /\ (h ∉ snd (gc resources R))
  /\ get_path (fst (gc resources R)) h = get_path resources h
  /\ resolve_filename (fst (gc resources R)) h
     = resolve_filename resources h.
Proof.
  intros Hwf Hhex Hfile Hr Hkey Hget Hver R.
  assert (Hin : h ∈ R).
  { apply elem_of_collect_referenced. exists v, t, n, sp.
    split; [exact Hfile|]. split; [exact Hr|].
    apply elem_of_referenced_in.
    exists key, versions, ("sha256:" ++ h)%string.
    split; [exact Hkey|]. split; [exact Hget|]. split.
    - unfold dict_values. apply list_elem_of_In, in_map_iff.
      exists (ver, VStr ("sha256:" ++ h)).
      split; [reflexivity|now apply list_elem_of_In].
    - split; [apply (startswith_prefix "sha256:")|].
      symmetry. exact (drop_prefix "sha256:" h). }
  split; [exact Hin|]. now apply gc_keeps.
Qed.

Lemma referenced_resources_survive_witness :
  let sp :=
    mkStored "bambustudio" "machine" "Bambu Lab X1" "BBL" "01.00.00"
      "01.00.00" None None None
      [("bed_model", [("01.00.00", VStr "sha256:ab12")])] in
  let store :=
    Store.mkStore
      {[ ("bambustudio", "BBL", "machine", "Bambu Lab X1") := sp ]} ∅ in
  let resources :=
    mkResources
      (<["ab12.stl" := "solid"]> (<["cd34.png" := "image"]> ∅))
      [("ab12", mkEntry "bed.stl" 5 "stl");
       ("cd34", mkEntry "logo.png" 5 "png")]
      None in
  let R := collect_referenced_hashes store "bambustudio" in
  "ab12" ∈ R
  /\ ("ab12" ∉ snd (gc resources R))
  /\ get_path (fst (gc resources R)) "ab12" = get_path resources "ab12"
  /\ resolve_filename (fst (gc resources R)) "ab12"
     = resolve_filename resources "ab12".
Proof.
  intros sp store resources.
  apply (referenced_resources_survive store "bambustudio" resources
           "BBL" "machine" "Bambu Lab X1" sp "bed_model"
           [("01.00.00", VStr "sha256:ab12")] "01.00.00" "ab12").
  - unfold wf_dict. simpl. apply (bool_decide_unpack _). vm_compute.
    exact I.
  - repeat constructor.
  - apply lookup_singleton_eq.
  - reflexivity.
  - apply list_elem_of_here.
  - reflexivity.
  - apply list_elem_of_here.
Defined.

End ContentStoreFacts.

(* --------------------------------------------------------------------- *)
(** ** The resource manifest after a pipeline run *)
(* --------------------------------------------------------------------- *)

Module RunFacts.
Import PyStr Models Store Resources ResourceScan Pipeline Notions DictFacts.
Import ResourcesFacts ContentStoreFacts.

#[local] Abbreviation referenced_entry R :=
  (fun kv : string * ManifestEntry => bool_decide (fst kv ∈ R)).

#[local] Abbreviation unreferenced R :=
  (fun h : string => negb (bool_decide (h ∈ R))).

Lemma none_unreferenced (R : gset string) (manifest : dict ManifestEntry) :
  List.filter (unreferenced R) (dict_keys manifest) = [] ->
  Forall (fun kv => referenced_entry R kv = true) manifest.
Proof.
  induction manifest as [|[h e] manifest IH]; [constructor|].
  cbn [dict_keys map List.filter fst].
  destruct (bool_decide (h ∈ R)) eqn:E; cbn [negb]; [|discriminate].
  intros H. constructor; [exact E|now apply IH].
Qed.

(** [gc] leaves the manifest file in step with the manifest. *)
Lemma gc_manifest_on_disk (self : ResourceStore) (R : gset string) :
  wf_dict (_manifest self) ->
  manifest_on_disk self = Some (_manifest self) ->
  manifest_on_disk (fst (gc self R)) = Some (_manifest (fst (gc self R))).
Proof.
  intros Hwf Hdisk. destruct self as [files manifest disk].
  cbn [_manifest manifest_on_disk] in *. subst disk.
  unfold gc. cbn [_manifest].
  pose proof (gc_fold R manifest [] files (Some manifest) [] Hwf) as Hfold.
  cbn [List.filter app] in Hfold. rewrite Hfold.
  destruct (List.filter (unreferenced R) (dict_keys manifest)) eqn:E;
    [|reflexivity].
  cbn [fst manifest_on_disk _manifest].
  destruct (gc_all_referenced R manifest files (none_unreferenced _ _ E))
    as (-> & _). reflexivity.
Qed.

Section WithHash.
Variable sha256_hex : string -> string.

Lemma collect_fold_wf (l : list (string * string)) (st : ResourceStore)
    (m : dict string) :
  wf_dict (_manifest st) ->
  wf_dict
    (_manifest
       (fst
          (fold_left
             (fun (acc : ResourceStore * dict string) f =>
                let '(st', hash_hex) :=
                  store sha256_hex (fst acc) (fst f) (snd f) in
                (st', dict_set (fst f) hash_hex (snd acc)))
             l (st, m)))).
Proof.
  revert st m; induction l as [|f l IH]; intros st m Hwf; [exact Hwf|].
  cbn [fold_left fst snd]. unfold store at 2. apply IH.
  cbn [_manifest]. now apply wf_dict_set.
Qed.

Lemma collect_resources_manifest (found : list (string * string))
    (store0 : ResourceStore) :
  wf_dict (_manifest store0) ->
  let st := fst (collect_resources sha256_hex found store0) in
  wf_dict (_manifest st) /\ manifest_on_disk st = Some (_manifest st).
Proof.
  intros Hwf. unfold collect_resources.
  pose proof (collect_fold_wf found store0 [] Hwf) as H.
  destruct (fold_left _ found (store0, [])) as [st m].
  cbn [fst snd] in *. split; [exact H|reflexivity].
Qed.

(** X25.  A pipeline run leaves no orphan in the manifest: after
    [_run_pipeline] the manifest file of the slicer's resource
    directory exists, and every hash it lists is referenced by a
    profile stored for that slicer. *)
Theorem run_pipeline_manifest (disk : Disk) (slicer : SlicerType)
    (version : string) (is_nightly : bool) (x : Extracted) (today : string) :
  (forall m, resource_manifest disk = Some m -> wf_dict m) ->
  let disk' :=
    fst (_run_pipeline sha256_hex disk slicer version is_nightly x today) in
  exists manifest,
    resource_manifest disk' = Some manifest
    /\ wf_dict manifest
    /\ forall h,
         h ∈ dict_keys manifest ->
         h ∈ collect_referenced_hashes (profiles disk') (slicer_value slicer).
Proof.
  intros Hwf0. unfold _run_pipeline.
  assert (Hopen : wf_dict
                    (_manifest
                       (open_resources (resource_files disk)
                          (resource_manifest disk)))).
  { unfold open_resources. cbn [_manifest].
    destruct (resource_manifest disk) as [m|]; [now apply Hwf0|constructor]. }
  destruct (collect_resources_manifest (found x) _ Hopen) as [Hwf1 Hdisk1].
  destruct (collect_resources sha256_hex (found x) _) as [rs rm].
  cbn [fst] in Hwf1, Hdisk1.
  set (ps := match rm with [] => parsed x | _ => _ end).
  destruct (ingest_profiles _ _ _ ps) as [st rep].
  set (R := collect_referenced_hashes st (slicer_value slicer)).
  pose proof (gc_manifest_on_disk rs R Hwf1 Hdisk1) as Hdisk2.
  destruct (gc_result rs R Hwf1) as (_ & Hm & _).
  destruct (gc rs R) as [rs' removed]. cbn [fst snd] in *.
  exists (_manifest rs'). split; [exact Hdisk2|]. split.
  - rewrite Hm. now apply wf_dict_filter.
  - intros h Hh. rewrite Hm in Hh.
    apply elem_of_dict_keys in Hh as [e He].
    apply list_elem_of_In, filter_In in He as [_ He].
    cbn [fst] in He. now apply bool_decide_eq_true in He.
Qed.
End WithHash.

Lemma run_pipeline_manifest_witness :
  let x :=
    mkExtracted
      [("bed.stl", "solid"); ("logo.png", "image")] None
      [mkParsed BAMBUSTUDIO MACHINE "Bambu Lab X1" "BBL"
         [("bed_model", VStr "bed.stl")] None None None None] in
  let disk' :=
    fst (_run_pipeline (fun content => String.substring 0 1 content)
           (mkDisk empty_store ∅ None) BAMBUSTUDIO "v01.00.00" false x
           "2026-01-01") in
  exists manifest,
    resource_manifest disk' = Some manifest
    /\ wf_dict manifest
    /\ forall h,
         h ∈ dict_keys manifest ->
         h ∈ collect_referenced_hashes (profiles disk') "bambustudio".
Proof.
  intros x.
  apply (run_pipeline_manifest (fun content => String.substring 0 1 content)
           (mkDisk empty_store ∅ None) BAMBUSTUDIO "v01.00.00" false x
           "2026-01-01").
  intros m Hm. discriminate Hm.
Defined.

End RunFacts.

(* --------------------------------------------------------------------- *)
(** ** The evaluator as a whole *)
(* --------------------------------------------------------------------- *)

Module EvaluatorFacts.
Import PyStr Conditions Lookups Notions DictFacts ConditionsFacts.

Lemma split_logic_aux_not_nil (s : string) (skip : nat) :
  split_logic_aux skip s <> [].
Proof.
  revert skip; induction s as [|c s IH]; intros skip; [discriminate|].
  cbn [split_logic_aux]. destruct skip as [|k]; [|apply IH].
  destruct (find _ logic_separators); [discriminate|].
  destruct (split_logic_aux 0 s); discriminate.
Qed.

Section Runtime.
Variable F : Type.
Variable py_float : value -> result F.
Variables float_ge float_le float_gt float_lt : F -> F -> bool.
Variable repr_container : value -> string.
Variable re_match : string -> string -> result bool.

#[local] Abbreviation evaluate :=
  (evaluate_printer_condition F py_float float_ge float_le float_gt float_lt
     repr_container re_match).

Lemma eval_terms_bool (get_value : string -> result value)
    (parts : list string) :
  forall all_and all_or ops idx prev v,
    parts <> [] \/ prev <> None ->
    eval_terms F py_float float_ge float_le float_gt float_lt repr_container
      re_match get_value all_and all_or ops idx prev parts = Ok v ->
    exists b, v = VBool b.
Proof.
  induction parts as [|part parts IH];
    intros all_and all_or ops idx prev v Hne.
  - destruct prev as [b|]; [|destruct Hne as [[]|[]]; reflexivity].
    intros [= <-]. eauto.
  - cbn [eval_terms].
    destruct (eval_term _ _ _ _ _ _ _ _ _ part) as [ret| |];
      [|discriminate|discriminate].
    cbn [mbind result_bind].
    destruct (all_and && negb ret); [intros [= <-]; eauto|].
    destruct (all_or && ret); [intros [= <-]; eauto|].
    destruct prev as [prev|].
    + destruct (nth_error ops (idx - 1)) as [[|]|]; [| |discriminate];
        apply IH; right; discriminate.
    + apply IH. right. discriminate.
Qed.

(** X26.  The evaluator answers with a boolean: whenever
    [evaluate_printer_condition] returns, and does not raise, the value
    is [True] or [False], never [None] or the value of a setting. *)
Theorem evaluate_is_boolean (condition : string) (printer_data : dict value)
    (slicer : string) (defaults : option (dict value)) (v : value) :
  evaluate condition printer_data slicer defaults = Ok v ->
  exists b, v = VBool b.
Proof.
  unfold evaluate_printer_condition.
  destruct (_ || _); [intros [= <-]; eauto|].
  cbn [_evaluate_expression].
  match goal with
  | |- (mbind _ ?c) = _ -> _ => destruct c as [condition'| |]
  end; [|discriminate|discriminate].
  cbn [mbind result_bind]. unfold eval_flat.
  apply eval_terms_bool. left. apply split_logic_aux_not_nil.
Qed.

End Runtime.

Lemma evaluate_is_boolean_witness :
  evaluate_printer_condition Z int_float Z.geb Z.leb Z.gtb Z.ltb no_repr
    prefix_match "printer_model =~ /X1/ and nozzle_diameter[0] == 0.4"
    [("nozzle_diameter", VList [VStr "0.4"]);
     ("printer_model", VStr "X1 Carbon")] "bambustudio" None
  = Ok (VBool true)
  /\ exists b, VBool true = VBool b.
Proof.
  assert (H : evaluate_printer_condition Z int_float Z.geb Z.leb Z.gtb Z.ltb
                no_repr prefix_match
                "printer_model =~ /X1/ and nozzle_diameter[0] == 0.4"
                [("nozzle_diameter", VList [VStr "0.4"]);
                 ("printer_model", VStr "X1 Carbon")] "bambustudio" None
              = Ok (VBool true)).
  { vm_compute. reflexivity. }
  split; [exact H|].
  exact (evaluate_is_boolean Z int_float Z.geb Z.leb Z.gtb Z.ltb no_repr
           prefix_match _ _ _ _ _ H).
Defined.

(** X27.  The evaluator comes to an end: the loop that replaces
    parenthesised groups and the recursion into them stay within the
    bound given by the length of the condition, provided [float] and
    [re.match] return. *)
Theorem evaluation_terminates (F : Type) (py_float : value -> result F)
    (float_ge float_le float_gt float_lt : F -> F -> bool)
    (repr_container : value -> string)
    (re_match : string -> string -> result bool)
    (condition : string) (printer_data : dict value) (slicer : string)
    (defaults : option (dict value)) :
  (forall v, py_float v <> OutOfFuel) ->
  (forall p s, re_match p s <> OutOfFuel) ->
  evaluate_printer_condition F py_float float_ge float_le float_gt float_lt
    repr_container re_match condition printer_data slicer defaults
  <> OutOfFuel.
Proof.
  intros Hf Hr. unfold evaluate_printer_condition.
  destruct (_ || _); [discriminate|].
  apply (expression_returns F py_float float_ge float_le float_gt float_lt
           repr_container re_match Hf Hr).
  - intros key. apply get_value_from_config_returns.
  - pose proof (count_char_length "(" condition). lia.
Qed.

Lemma evaluation_terminates_witness :
  evaluate_printer_condition Z int_float Z.geb Z.leb Z.gtb Z.ltb no_repr
    prefix_match "((a == 1) or (b == 2)) and ! (c == 3)" [] "bambustudio" None
  <> OutOfFuel.
Proof.
  apply (evaluation_terminates Z int_float Z.geb Z.leb Z.gtb Z.ltb no_repr
           prefix_match).
  - intros [| | |s| |]; simpl; try discriminate.
    destruct (py_int s); discriminate.
  - intros p s. discriminate.
Defined.

(** Lookup in an updated dictionary. *)
Lemma dict_get_dict_update {A : Type} (d other : dict A) (k : string) :
  wf_dict other ->
  dict_get k (dict_update d other)
  = match dict_get k other with
    | Some v => Some v
    | None => dict_get k d
    end.
Proof.
  unfold dict_update. revert d; induction other as [|[k0 v0] other IH];
    intros d Hwf; [reflexivity|].
  apply NoDup_cons in Hwf as [Hk0 Hwf]. cbn [fold_left fst snd dict_get].
  rewrite (IH _ Hwf), dict_get_dict_set.
  destruct (String.eqb_spec k k0) as [->|Hne]; [|reflexivity].
  assert (dict_get k0 other = None) as -> by now apply dict_get_None.
  reflexivity.
Qed.

(** X28.  Printer data overrides the defaults: in the merged
    configuration the evaluator looks values up in, a key of
    [printer_data] has the value given there, and any other key has the
    value the defaults give it, if any. *)
Theorem merge_data_precedence (defaults : option (dict value))
    (printer_data : dict value) (k : string) :
  wf_dict printer_data ->
  (forall d, defaults = Some d -> wf_dict d) ->
  dict_get k (merge_data defaults printer_data)
  = match dict_get k printer_data with
    | Some v => Some v
    | None =>
        match defaults with
        | Some d => dict_get k d
        | None => None
        end
    end.
Proof.
  intros Hwf Hd. unfold merge_data.
  rewrite (dict_get_dict_update _ _ _ Hwf).
  destruct (dict_get k printer_data); [reflexivity|].
  destruct defaults as [[|kv d]|]; [reflexivity| |reflexivity].
  rewrite (dict_get_dict_update _ _ _ (Hd _ eq_refl)).
  now destruct (dict_get k (kv :: d)).
Qed.

Lemma merge_data_precedence_witness :
  let defaults := Some [("nozzle_diameter", VStr "0.4");
                        ("printer_model", VStr "MK3")] in
  let printer_data := [("printer_model", VStr "MK4")] in
  dict_get "printer_model" (merge_data defaults printer_data)
  = Some (VStr "MK4")
  /\ dict_get "nozzle_diameter" (merge_data defaults printer_data)
     = Some (VStr "0.4").
Proof.
  intros defaults printer_data.
  assert (Hwf : wf_dict printer_data).
  { unfold wf_dict. simpl. apply (bool_decide_unpack _). vm_compute.
    exact I. }
  assert (Hd : forall d, defaults = Some d -> wf_dict d).
  { intros d [= <-]. unfold wf_dict. simpl. apply (bool_decide_unpack _).
    vm_compute. exact I. }
  split.
  - rewrite (merge_data_precedence defaults printer_data "printer_model"
               Hwf Hd). reflexivity.
  - rewrite (merge_data_precedence defaults printer_data "nozzle_diameter"
               Hwf Hd). reflexivity.
Defined.

Lemma get_plain_word (merged_data : dict value) (slicer key : string) :
  var_fullmatch key = Some (key, None) ->
  get_plain merged_data slicer key
  = Ok (unwrapped slicer (dict_get key merged_data)).
Proof.
  intros Hkey. unfold get_plain, unwrapped. rewrite Hkey.
  destruct (dict_get key merged_data) as [[| | | |[|x [|y l]]|]|];
    try reflexivity.
  now destruct (negb _).
Qed.

(** X29.  The synthetic variable [num_extruders]: when the
    configuration has no such key, its value is that of
    [extruders_count] if that is set, and otherwise the number of
    entries of [nozzle_diameter] read as a [;]- or [,]-separated
    string; a [nozzle_diameter] that is neither absent nor a string
    (after a one-element list has been replaced by its element) makes
    the lookup raise [TypeError]. *)
Theorem num_extruders_fallback (merged_data : dict value) (slicer : string) :
  dict_get "num_extruders" merged_data = None ->
  get_value_from_config merged_data slicer "num_extruders"
  = match unwrapped slicer (dict_get "extruders_count" merged_data) with
    | VNone =>
        match unwrapped slicer (dict_get "nozzle_diameter" merged_data) with
        | VNone => Ok VNone
        | VStr s =>
            Ok (VInt (Z.of_nat (length (split_class is_list_sep s))))
        | _ => Raise TypeError
        end
    | extruders_count => Ok extruders_count
    end.
Proof.
  intros Hnone. unfold get_value_from_config.
  change (var_fullmatch "num_extruders") with (Some ("num_extruders", @None string)).
  unfold dict_mem. rewrite Hnone. cbn [String.eqb Ascii.eqb Bool.eqb].
  rewrite (get_plain_word merged_data slicer "extruders_count")
    by reflexivity.
  rewrite (get_plain_word merged_data slicer "nozzle_diameter")
    by reflexivity.
  cbn [mbind result_bind].
  destruct (unwrapped slicer (dict_get "extruders_count" merged_data));
    try reflexivity.
  destruct (unwrapped slicer (dict_get "nozzle_diameter" merged_data));
    reflexivity.
Qed.

Lemma num_extruders_fallback_witness :
  get_value_from_config [("nozzle_diameter", VStr "0.4;0.4")] "prusaslicer"
    "num_extruders" = Ok (VInt 2)
  /\ get_value_from_config [("nozzle_diameter", VList [VStr "0.4"; VStr "0.4"])]
       "bambustudio" "num_extruders" = Raise TypeError.
Proof.
  split.
  - rewrite (num_extruders_fallback [("nozzle_diameter", VStr "0.4;0.4")]
               "prusaslicer" eq_refl). reflexivity.
  - rewrite (num_extruders_fallback
               [("nozzle_diameter", VList [VStr "0.4"; VStr "0.4"])]
               "bambustudio" eq_refl). reflexivity.
Defined.

End EvaluatorFacts.
